(** * Slot state engine of the futsal booking platform

    A shallow embedding of the server routes that mutate slot documents

      - [src/app/api/slots/hold/route.ts]    (POST /api/slots/hold)
      - [src/app/api/bookings/route.ts]      (POST /api/bookings,
                                              POST /api/slots/generate,
                                              POST /api/slots/reserve)
      - [src/app/api/slots/unbook/route.ts]  (POST /api/slots/unbook)

    and of the status computation of the reader [renderSlot] in
    [src/components/WeeklySlotsGrid.old.tsx].

    Firestore collections are finite maps from document ids to records of
    optional fields; a handler is a function from the request and the
    store to a response and the store after it.  A transaction
    ([db.runTransaction]) is one atomic step: its reads see the store it
    starts from, its writes are buffered and applied together, and a
    [throw] or a failed write leaves the store as it was.  What the store
    does with transactions that overlap in time is not modelled.

    Instants are integers, milliseconds since the epoch.  Ids, dates and
    statuses are strings; a field that a document or a request body does
    not have is [None].  What a handler takes from its surroundings (the
    token verifier, the generated document id, the clock, the calendar)
    is gathered in [Env]. *)

From stdpp Require Import gmap strings list pretty.
From Stdlib Require Import ZArith Ascii String.

Local Open Scope string_scope.
Local Open Scope Z_scope.

(** ** JavaScript values and string helpers *)

Module JS.

(** Truthiness of a possibly missing string: [undefined], [null] and the
    empty string are falsy. *)
Definition truthy (v : option string) : bool :=
  match v with
  | Some s => negb (String.eqb s "")
  | None => false
  end.

(** [v || d] for a possibly missing string. *)
Definition or_else (v : option string) (d : string) : string :=
  if truthy v then default d v else d.

(** [v || null]: a falsy value becomes [null] (here [None]). *)
Definition or_null (v : option string) : option string :=
  if truthy v then v else None.

(** Interpolation of a possibly undefined value in a template literal. *)
Definition interpolate (v : option string) : string := default "undefined" v.

(** Case conversion.  Status strings are ASCII: on the letters a-z and
    A-Z this is [String.prototype.toUpperCase] / [toLowerCase]; every
    other character is left as it is. *)
Definition upper_char (c : ascii) : ascii :=
  let n := nat_of_ascii c in
  if (97 <=? n)%nat && (n <=? 122)%nat then ascii_of_nat (n - 32) else c.

Definition lower_char (c : ascii) : ascii :=
  let n := nat_of_ascii c in
  if (65 <=? n)%nat && (n <=? 90)%nat then ascii_of_nat (n + 32) else c.

Fixpoint toUpperCase (s : string) : string :=
  match s with
  | EmptyString => EmptyString
  | String c r => String (upper_char c) (toUpperCase r)
  end.

Fixpoint toLowerCase (s : string) : string :=
  match s with
  | EmptyString => EmptyString
  | String c r => String (lower_char c) (toLowerCase r)
  end.

(** [s.split(sep)[0]] for a one-character separator: the text before
    its first occurrence, the whole string when there is none. *)
Fixpoint before_first (sep : ascii) (s : string) : string :=
  match s with
  | EmptyString => EmptyString
  | String c r =>
      if Ascii.eqb c sep then EmptyString else String c (before_first sep r)
  end.

(** [s.replace(sep, "")] for a one-character pattern: only the first
    occurrence is removed. *)
Fixpoint remove_first (sep : ascii) (s : string) : string :=
  match s with
  | EmptyString => EmptyString
  | String c r =>
      if Ascii.eqb c sep then r else String c (remove_first sep r)
  end.

Definition is_digit (c : ascii) : bool :=
  let n := nat_of_ascii c in (48 <=? n)%nat && (n <=? 57)%nat.

Definition is_space (c : ascii) : bool :=
  let n := nat_of_ascii c in
  (n =? 32)%nat || ((9 <=? n)%nat && (n <=? 13)%nat).

Fixpoint skip_spaces (s : string) : string :=
  match s with
  | String c r => if is_space c then skip_spaces r else s
  | EmptyString => EmptyString
  end.

(** The value of the longest prefix of digits, with [acc] the value
    read so far. *)
Fixpoint digits_value (acc : Z) (s : string) : Z :=
  match s with
  | String c r =>
      if is_digit c
      then digits_value (10 * acc + (Z.of_nat (nat_of_ascii c) - 48)) r
      else acc
  | EmptyString => acc
  end.

Definition starts_with_digit (s : string) : bool :=
  match s with
  | String c _ => is_digit c
  | EmptyString => false
  end.

(** [parseInt(s, 10)]: leading white space, an optional sign, then
    digits; [None] stands for [NaN].  The result is the integer the
    digits spell.  [parseInt] returns the double nearest to it, which is
    that integer as long as it is at most 2^53 in size; what is proved
    from the value of a parsed number assumes that bound. *)
Definition parseInt (s : string) : option Z :=
  match skip_spaces s with
  | String "-" r =>
      if starts_with_digit r then Some (- digits_value 0 r) else None
  | String "+" r =>
      if starts_with_digit r then Some (digits_value 0 r) else None
  | t => if starts_with_digit t then Some (digits_value 0 t) else None
  end.

(** [n.toString().padStart(2, "0")] for an integer. *)
Definition pad2 (n : Z) : string :=
  let s := pretty n in
  if (String.length s <? 2)%nat then "0" +:+ s else s.

(** The match of the authorization header against the pattern
    "Bearer " followed by any characters up to the end of the input:
    the capture is the rest of the header, which must not hold a line
    terminator. *)
Fixpoint single_line (s : string) : bool :=
  match s with
  | EmptyString => true
  | String c r =>
      negb (Ascii.eqb c "010") && negb (Ascii.eqb c "013") && single_line r
  end.

Definition bearer (header : string) : option string :=
  if String.prefix "Bearer " header
  then
    let token := String.substring 7 (String.length header - 7) header in
    if single_line token then Some token else None
  else None.

End JS.

(** ** The Firestore store *)

Module Firestore.

(** A document of the [slots] collection.  A missing field is [None];
    timestamps are milliseconds since the epoch. *)
Record SlotDoc := mkSlot {
  slot_groundId : option string;
  slot_date : option string;
  slot_startTime : option string;
  slot_endTime : option string;
  slot_status : option string;
  slot_heldBy : option string;
  slot_holdExpiresAt : option Z;
  slot_bookingId : option string;
  slot_updatedAt : option Z
}.

(** A document of the [bookings] collection. *)
Record BookingDoc := mkBooking {
  booking_venueId : option string;
  booking_userId : option string;
  booking_slotId : option string;
  booking_date : option string;
  booking_startTime : option string;
  booking_timeSlot : option string;
  booking_customerName : option string;
  booking_customerPhone : option string;
  booking_notes : option string;
  booking_bookingType : option string;
  booking_status : option string;
  booking_createdAt : option Z;
  booking_amount : option Z;
  booking_bookingExpiresAt : option Z
}.

(** A document of the [venues] collection. *)
Record VenueDoc := mkVenue {
  venue_managedBy : option string;
  venue_pricePerHour : option Z;
  venue_startTime : option string;
  venue_endTime : option string
}.

(** A document of the [users] collection. *)
Record UserDoc := mkUser {
  user_role : option string;
  user_groundId : option string
}.

Record Db := mkDb {
  slots : gmap string SlotDoc;
  bookings : gmap string BookingDoc;
  venues : gmap string VenueDoc;
  users : gmap string UserDoc
}.

(** The writes the routes issue.  [UpdateSlot] and [UpdateVenue] are
    [update] calls, which need the document to exist; [SetBooking] is a
    plain [set]; [MergeSlot] is [set] with [merge: true], which creates
    the document from [fresh] when it is missing and patches it when it
    is there. *)
Inductive Write :=
| SetBooking (id : string) (doc : BookingDoc)
| DeleteBooking (id : string)
| UpdateSlot (id : string) (patch : SlotDoc -> SlotDoc)
| MergeSlot (id : string) (fresh : SlotDoc) (patch : SlotDoc -> SlotDoc)
| UpdateVenue (id : string) (patch : VenueDoc -> VenueDoc).

Definition apply_write (w : Write) (db : Db) : option Db :=
  match w with
  | SetBooking id doc =>
      Some (mkDb (slots db) (<[id := doc]> (bookings db)) (venues db) (users db))
  | DeleteBooking id =>
      Some (mkDb (slots db) (delete id (bookings db)) (venues db) (users db))
  | UpdateSlot id patch =>
      match slots db !! id with
      | Some s =>
          Some (mkDb (<[id := patch s]> (slots db)) (bookings db) (venues db) (users db))
      | None => None
      end
  | MergeSlot id fresh patch =>
      match slots db !! id with
      | Some s =>
          Some (mkDb (<[id := patch s]> (slots db)) (bookings db) (venues db) (users db))
      | None =>
          Some (mkDb (<[id := fresh]> (slots db)) (bookings db) (venues db) (users db))
      end
  | UpdateVenue id patch =>
      match venues db !! id with
      | Some v =>
          Some (mkDb (slots db) (bookings db) (<[id := patch v]> (venues db)) (users db))
      | None => None
      end
  end.

(** All the writes or none. *)
Fixpoint commit (ws : list Write) (db : Db) : option Db :=
  match ws with
  | [] => Some db
  | w :: rest =>
      match apply_write w db with
      | Some db' => commit rest db'
      | None => None
      end
  end.

(** What the body of a transaction does: it returns, it throws an
    object with a [status] and a [message], or it fails with some other
    exception. *)
Inductive Outcome (A : Type) :=
| Return (a : A)
| Throw (status : Z) (message : string)
| Crash.
Arguments Return {A} a.
Arguments Throw {A} status message.
Arguments Crash {A}.

(** [db.runTransaction(body)]: the body reads the store it is given and
    hands back its result with the writes it buffered. *)
Definition runTransaction {A : Type} (body : Db -> Outcome (A * list Write))
    (db : Db) : Outcome A * Db :=
  match body db with
  | Return (a, ws) =>
      match commit ws db with
      | Some db' => (Return a, db')
      | None => (Crash, db)
      end
  | Throw st msg => (Throw st msg, db)
  | Crash => (Crash, db)
  end.

(** Bounds of a Firestore [Timestamp], in seconds. *)
Definition MIN_SECONDS : Z := -62135596800.
Definition MAX_SECONDS : Z := 253402300799.

(** [Timestamp.fromMillis]: the constructor refuses instants outside
    the years 1 to 9999. *)
Definition fromMillis (ms : Z) : option Z :=
  let seconds := ms / 1000 in
  if (MIN_SECONDS <=? seconds) && (seconds <=? MAX_SECONDS) then Some ms else None.

End Firestore.

Import Firestore.

(** ** The server environment and the responses *)

(** What a request handler takes from outside the store. *)
Record Env := mkEnv {
  (** [isAdminInitialized()] *)
  isAdminInitialized : bool;
  (** [auth.verifyIdToken]: the uid of a valid token; [None] when the
      verifier throws. *)
  verifyIdToken : string -> option string;
  (** the id of the reference made by [db.collection("bookings").doc()] *)
  newBookingId : string;
  (** [Timestamp.now()] read by the expiry test of the hold route *)
  now_check : Z;
  (** [Timestamp.now()] read when a hold is stamped *)
  now_stamp : Z;
  (** the instant [FieldValue.serverTimestamp()] resolves to *)
  serverTimestamp : Z;
  (** the Firestore setting [ignoreUndefinedProperties] *)
  ignoreUndefinedProperties : bool;
  (** the text of the date [i] days after the server's current date, as
      [toISOString().split("T")[0]] gives it *)
  dateString : nat -> string
}.

(** [NextResponse.json]: the success body [{ok: true, bookingId?}] with
    status 200, or [{error}] with an error status. *)
Inductive Response :=
| Ok (bookingId : option string)
| Error (status : Z) (error : string).

Definition INTERNAL : Response := Error 500 "Internal server error".

(** The bearer-token block every route starts with. *)
Definition authenticate (env : Env) (authorization : option string)
    : Response + string :=
  match JS.bearer (JS.or_else authorization "") with
  | None => inl (Error 401 "Unauthorized")
  | Some idToken =>
      match verifyIdToken env idToken with
      | None => inl (Error 401 "Invalid token")
      | Some uid => inr uid
      end
  end.

(** [callerIsManagerOrAdmin] of the unbook, generate and reserve routes. *)
Definition callerIsManagerOrAdmin (db : Db) (uid : string) : bool :=
  match users db !! uid with
  | None => false
  | Some doc =>
      match user_role doc with
      | Some r => String.eqb r "manager" || String.eqb r "admin"
      | None => false
      end
  end.

(** The [try]/[catch] around a transaction: a thrown object with a status
    becomes that status, anything else is a 500. *)
Definition respond (r : Outcome string) : Response :=
  match r with
  | Return bookingId => Ok (Some bookingId)
  | Throw st msg => Error st msg
  | Crash => INTERNAL
  end.

(** ** POST /api/slots/hold *)

Module Hold.

(** The JSON body and the authorization header.  [holdDurationMinutes]
    is an integer number of minutes when it is given. *)
Record Request := mkRequest {
  slotId : option string;
  venueId : option string;
  holdDurationMinutes : option Z;
  authorization : option string
}.

(** Lines 39-49: the error thrown for a slot that cannot be held, if
    any.  A slot marked HELD passes when it has no expiry or when its
    expiry is not after the current instant. *)
Definition check (env : Env) (slotData : SlotDoc) : option (Z * string) :=
  let status := JS.toUpperCase (JS.or_else (slot_status slotData) "") in
  if negb (String.eqb status "") && negb (String.eqb status "AVAILABLE") then
    if negb (String.eqb status "HELD") then Some (409, "Slot not available")
    else
      match slot_holdExpiresAt slotData with
      | Some expires =>
          if expires >? now_check env
          then Some (409, "Slot currently held")
          else None
      | None => None
      end
  else None.

(** The fields written on the slot (line 66). *)
Definition slot_patch (env : Env) (uid : string) (holdExpiresAt : Z)
    (s : SlotDoc) : SlotDoc :=
  {| slot_groundId := slot_groundId s;
     slot_date := slot_date s;
     slot_startTime := slot_startTime s;
     slot_endTime := slot_endTime s;
     slot_status := Some "HELD";
     slot_heldBy := Some uid;
     slot_holdExpiresAt := Some holdExpiresAt;
     slot_bookingId := Some (newBookingId env);
     slot_updatedAt := Some (serverTimestamp env) |}.

(** The pending booking record (line 55). *)
Definition bookingData (env : Env) (uid slotId venueId : string)
    (holdExpiresAt : Z) : BookingDoc :=
  {| booking_venueId := Some venueId;
     booking_userId := Some uid;
     booking_slotId := Some slotId;
     booking_date := None;
     booking_startTime := None;
     booking_timeSlot := None;
     booking_customerName := None;
     booking_customerPhone := None;
     booking_notes := None;
     booking_bookingType := None;
     booking_status := Some "PENDING_PAYMENT";
     booking_createdAt := Some (serverTimestamp env);
     booking_amount := None;
     booking_bookingExpiresAt := Some holdExpiresAt |}.

(** The body of the transaction (lines 33-75). *)
Definition transaction (env : Env) (uid slotId venueId : string)
    (minutes : Z) (db : Db) : Outcome (string * list Write) :=
  match slots db !! slotId with
  | None => Throw 404 "Slot not found"
  | Some slotData =>
      match check env slotData with
      | Some (st, msg) => Throw st msg
      | None =>
          match fromMillis (now_stamp env + minutes * 60 * 1000) with
          | None => Crash
          | Some holdExpiresAt =>
              Return (newBookingId env,
                      [ SetBooking (newBookingId env)
                          (bookingData env uid slotId venueId holdExpiresAt);
                        UpdateSlot slotId (slot_patch env uid holdExpiresAt) ])
          end
      end
  end.

Definition POST (env : Env) (req : Request) (db : Db) : Response * Db :=
  if negb (isAdminInitialized env) then (Error 500 "Server not configured", db)
  else
    let minutes := default 5 (holdDurationMinutes req) in
    if negb (JS.truthy (slotId req)) || negb (JS.truthy (venueId req))
    then (Error 400 "Missing required fields: slotId, venueId", db)
    else
      let sid := default "" (slotId req) in
      let vid := default "" (venueId req) in
      match authenticate env (authorization req) with
      | inl resp => (resp, db)
      | inr uid =>
          let (result, db') :=
            runTransaction (transaction env uid sid vid minutes) db in
          (respond result, db')
      end.

End Hold.

(** ** POST /api/bookings *)

Module Book.

Record Request := mkRequest {
  venueId : option string;
  slotId : option string;
  authorization : option string
}.

(** The fields written on the slot (line 72). *)
Definition slot_patch (env : Env) (s : SlotDoc) : SlotDoc :=
  {| slot_groundId := slot_groundId s;
     slot_date := slot_date s;
     slot_startTime := slot_startTime s;
     slot_endTime := slot_endTime s;
     slot_status := Some "booked";
     slot_heldBy := slot_heldBy s;
     slot_holdExpiresAt := slot_holdExpiresAt s;
     slot_bookingId := Some (newBookingId env);
     slot_updatedAt := Some (serverTimestamp env) |}.

(** Lines 52-57: the label of the booked time, [null] without a date
    or a start time. *)
Definition timeSlot (slotData : SlotDoc) : option string :=
  let date := JS.or_null (slot_date slotData) in
  let startTime := JS.or_null (slot_startTime slotData) in
  let endTime := JS.or_null (slot_endTime slotData) in
  match date, startTime with
  | Some d, Some st => Some (d +:+ " " +:+ st +:+ " - " +:+ default "" endTime)
  | _, _ => None
  end.

Definition bookingData (env : Env) (uid slotId venueId : string)
    (slotData : SlotDoc) (pricePerHour : Z) : BookingDoc :=
  {| booking_venueId := Some venueId;
     booking_userId := Some uid;
     booking_slotId := Some slotId;
     booking_date := None;
     booking_startTime := None;
     booking_timeSlot := timeSlot slotData;
     booking_customerName := None;
     booking_customerPhone := None;
     booking_notes := None;
     booking_bookingType := None;
     booking_status := Some "pending";
     booking_createdAt := Some (serverTimestamp env);
     booking_amount := Some pricePerHour;
     booking_bookingExpiresAt := None |}.

(** The body of the transaction (lines 34-79). *)
Definition transaction (env : Env) (uid slotId venueId : string) (db : Db)
    : Outcome (string * list Write) :=
  match slots db !! slotId with
  | None => Throw 404 "Slot not found"
  | Some slotData =>
      let status := JS.toLowerCase (JS.or_else (slot_status slotData) "") in
      if negb (String.eqb status "") && negb (String.eqb status "available")
      then Throw 409 "Slot is not available"
      else
        let pricePerHour :=
          match venues db !! venueId with
          | Some v => default 0 (venue_pricePerHour v)
          | None => 0
          end in
        Return (newBookingId env,
                [ SetBooking (newBookingId env)
                    (bookingData env uid slotId venueId slotData pricePerHour);
                  UpdateSlot slotId (slot_patch env) ])
  end.

(** The [catch] of this route sends [err.message || "Failed"]. *)
Definition respond (r : Outcome string) : Response :=
  match r with
  | Return bookingId => Ok (Some bookingId)
  | Throw st msg => Error st (if String.eqb msg "" then "Failed" else msg)
  | Crash => INTERNAL
  end.

Definition POST (env : Env) (req : Request) (db : Db) : Response * Db :=
  if negb (isAdminInitialized env) then (Error 500 "Server not configured", db)
  else
    if negb (JS.truthy (venueId req)) || negb (JS.truthy (slotId req))
    then (Error 400 "Missing required fields: venueId, slotId", db)
    else
      let vid := default "" (venueId req) in
      let sid := default "" (slotId req) in
      match authenticate env (authorization req) with
      | inl resp => (resp, db)
      | inr uid =>
          let (result, db') :=
            runTransaction (transaction env uid sid vid) db in
          (respond result, db')
      end.

End Book.

(** ** POST /api/slots/unbook *)

Module Unbook.

Record Request := mkRequest {
  slotId : option string;
  bookingId : option string;
  venueId : option string;
  authorization : option string
}.

(** The fields written on the slot (line 54); [bookingId] is removed
    with [FieldValue.delete()]. *)
Definition slot_patch (env : Env) (s : SlotDoc) : SlotDoc :=
  {| slot_groundId := slot_groundId s;
     slot_date := slot_date s;
     slot_startTime := slot_startTime s;
     slot_endTime := slot_endTime s;
     slot_status := Some "AVAILABLE";
     slot_heldBy := slot_heldBy s;
     slot_holdExpiresAt := slot_holdExpiresAt s;
     slot_bookingId := None;
     slot_updatedAt := Some (serverTimestamp env) |}.

(** The body of the transaction (lines 43-55).  Only the booking is
    read; the slot is written without being read. *)
Definition transaction (env : Env) (slotId bookingId : string) (db : Db)
    : Outcome (unit * list Write) :=
  match bookings db !! bookingId with
  | None => Throw 404 "Booking not found"
  | Some bookingData =>
      if negb (bool_decide (booking_bookingType bookingData = Some "physical"))
      then Throw 400 "Only physical bookings can be removed by manager"
      else
        Return (tt, [ DeleteBooking bookingId;
                      UpdateSlot slotId (slot_patch env) ])
  end.

Definition respond (r : Outcome unit) : Response :=
  match r with
  | Return _ => Ok None
  | Throw st msg => Error st msg
  | Crash => INTERNAL
  end.

Definition POST (env : Env) (req : Request) (db : Db) : Response * Db :=
  if negb (isAdminInitialized env) then (Error 500 "Server not configured", db)
  else
    if negb (JS.truthy (slotId req)) || negb (JS.truthy (bookingId req))
       || negb (JS.truthy (venueId req))
    then (Error 400 "Missing fields", db)
    else
      let sid := default "" (slotId req) in
      let bid := default "" (bookingId req) in
      match authenticate env (authorization req) with
      | inl resp => (resp, db)
      | inr uid =>
          if negb (callerIsManagerOrAdmin db uid) then (Error 403 "Forbidden", db)
          else
            let (result, db') := runTransaction (transaction env sid bid) db in
            (respond result, db')
      end.

End Unbook.

(** ** POST /api/slots/reserve *)

Module Reserve.

Record Request := mkRequest {
  slotId : option string;
  venueId : option string;
  customerName : option string;
  customerPhone : option string;
  notes : option string;
  authorization : option string
}.

(** The fields written on the slot (line 239). *)
Definition slot_patch (env : Env) (s : SlotDoc) : SlotDoc :=
  {| slot_groundId := slot_groundId s;
     slot_date := slot_date s;
     slot_startTime := slot_startTime s;
     slot_endTime := slot_endTime s;
     slot_status := Some "RESERVED";
     slot_heldBy := slot_heldBy s;
     slot_holdExpiresAt := slot_holdExpiresAt s;
     slot_bookingId := Some (newBookingId env);
     slot_updatedAt := Some (serverTimestamp env) |}.

Definition timeSlot (slotData : SlotDoc) : string :=
  JS.interpolate (slot_date slotData) +:+ " "
  +:+ JS.interpolate (slot_startTime slotData) +:+ " - "
  +:+ JS.or_else (slot_endTime slotData) "".

(** The physical booking record (line 223). *)
Definition bookingData (env : Env) (req : Request) (slotId venueId : string)
    (slotData : SlotDoc) : BookingDoc :=
  {| booking_venueId := Some venueId;
     booking_userId := None;
     booking_slotId := Some slotId;
     booking_date := slot_date slotData;
     booking_startTime := slot_startTime slotData;
     booking_timeSlot := Some (timeSlot slotData);
     booking_customerName := customerName req;
     booking_customerPhone := customerPhone req;
     booking_notes := JS.or_null (notes req);
     booking_bookingType := Some "physical";
     booking_status := Some "confirmed";
     booking_createdAt := Some (serverTimestamp env);
     booking_amount := None;
     booking_bookingExpiresAt := None |}.

(** [tx.set] refuses a record with an [undefined] field unless the
    store ignores undefined properties; [date] and [startTime] are
    copied from the slot as they are. *)
Definition storable (env : Env) (slotData : SlotDoc) : bool :=
  ignoreUndefinedProperties env
  || (bool_decide (is_Some (slot_date slotData))
      && bool_decide (is_Some (slot_startTime slotData))).

(** The body of the transaction (lines 213-246): only a slot whose
    status reads BOOKED is refused. *)
Definition transaction (env : Env) (req : Request) (slotId venueId : string)
    (db : Db) : Outcome (string * list Write) :=
  match slots db !! slotId with
  | None => Throw 404 "Slot not found"
  | Some slotData =>
      let status := JS.toUpperCase (JS.or_else (slot_status slotData) "") in
      if String.eqb status "BOOKED" then Throw 409 "Slot already booked"
      else if negb (storable env slotData) then Crash
      else
        Return (newBookingId env,
                [ SetBooking (newBookingId env)
                    (bookingData env req slotId venueId slotData);
                  UpdateSlot slotId (slot_patch env) ])
  end.

Definition POST (env : Env) (req : Request) (db : Db) : Response * Db :=
  if negb (isAdminInitialized env) then (Error 500 "Server not configured", db)
  else
    if negb (JS.truthy (slotId req)) || negb (JS.truthy (venueId req))
       || negb (JS.truthy (customerName req))
       || negb (JS.truthy (customerPhone req))
    then (Error 400 "Missing required fields", db)
    else
      let sid := default "" (slotId req) in
      let vid := default "" (venueId req) in
      match authenticate env (authorization req) with
      | inl resp => (resp, db)
      | inr uid =>
          if negb (callerIsManagerOrAdmin db uid) then (Error 403 "Forbidden", db)
          else
            let (result, db') :=
              runTransaction (transaction env req sid vid) db in
            (respond result, db')
      end.

End Reserve.

(** ** POST /api/slots/generate *)

Module Generate.

Record Request := mkRequest {
  venueId : option string;
  startTime : option string;
  endTime : option string;
  slotDuration : option Z;
  days : option Z;
  authorization : option string
}.

Definition getSlotId (groundId date startTime : string) : string :=
  groundId +:+ "_" +:+ date +:+ "_" +:+ JS.remove_first ":" startTime.

(** The hours visited by the inner [for] loop; [fuel] bounds the number
    of turns.  The loop of the route adds and compares doubles.  For
    hours and a duration of at most 2^53 in size every sum it forms below
    the closing hour is exact, and these are the hours it visits; beyond
    that size the sums round, and the loop can visit other hours or not
    end.  What is proved from the hours visited assumes that bound. *)
Fixpoint hours_loop (fuel : nat) (hour endHour step : Z) : list Z :=
  match fuel with
  | O => []
  | S fuel' =>
      if hour <? endHour
      then hour :: hours_loop fuel' (hour + step) endHour step
      else []
  end.

(** A comparison with [NaN] is false, so the loop has no turn when an
    hour does not parse.  The step is at least one hour, so
    [endHour - startHour] turns are enough. *)
Definition hours (startHour endHour : option Z) (slotDuration : Z) : list Z :=
  match startHour, endHour with
  | Some s, Some e =>
      hours_loop (Z.to_nat (e - s)) s e (Z.max 1 (slotDuration / 60))
  | _, _ => []
  end.

(** What [set(..., {merge: true})] writes on a slot: the four fields of
    the call replace the stored ones, the others stay. *)
Definition fresh_slot (venueId date hourString : string) : SlotDoc :=
  {| slot_groundId := Some venueId;
     slot_date := Some date;
     slot_startTime := Some hourString;
     slot_endTime := None;
     slot_status := Some "AVAILABLE";
     slot_heldBy := None;
     slot_holdExpiresAt := None;
     slot_bookingId := None;
     slot_updatedAt := None |}.

Definition merge_slot (venueId date hourString : string) (s : SlotDoc) : SlotDoc :=
  {| slot_groundId := Some venueId;
     slot_date := Some date;
     slot_startTime := Some hourString;
     slot_endTime := slot_endTime s;
     slot_status := Some "AVAILABLE";
     slot_heldBy := slot_heldBy s;
     slot_holdExpiresAt := slot_holdExpiresAt s;
     slot_bookingId := slot_bookingId s;
     slot_updatedAt := slot_updatedAt s |}.

Definition venue_patch (startTime endTime : string) (v : VenueDoc) : VenueDoc :=
  {| venue_managedBy := venue_managedBy v;
     venue_pricePerHour := venue_pricePerHour v;
     venue_startTime := Some startTime;
     venue_endTime := Some endTime |}.

Definition slot_write (venueId date : string) (hour : Z) : Write :=
  let hourString := JS.pad2 hour +:+ ":00" in
  MergeSlot (getSlotId venueId date hourString)
    (fresh_slot venueId date hourString)
    (merge_slot venueId date hourString).

(** The writes put in the batch (lines 136-158): a slot per date and
    hour, then the venue's hours. *)
Definition batch (env : Env) (venueId startTime endTime : string)
    (slotDuration : Z) (days : nat) : list Write :=
  let dates := map (dateString env) (seq 0 days) in
  let startHour := JS.parseInt (JS.before_first ":" startTime) in
  let endHour := JS.parseInt (JS.before_first ":" endTime) in
  List.concat (map (fun date =>
                 map (slot_write venueId date)
                     (hours startHour endHour slotDuration))
              dates)
  ++ [ UpdateVenue venueId (venue_patch startTime endTime) ].

Definition POST (env : Env) (req : Request) (db : Db) : Response * Db :=
  if negb (isAdminInitialized env) then (Error 500 "Server not configured", db)
  else
    let duration := default 60 (slotDuration req) in
    let ndays := default 7 (days req) in
    if negb (JS.truthy (venueId req)) || negb (JS.truthy (startTime req))
       || negb (JS.truthy (endTime req))
    then (Error 400 "Missing fields", db)
    else
      let vid := default "" (venueId req) in
      let st := default "" (startTime req) in
      let en := default "" (endTime req) in
      match authenticate env (authorization req) with
      | inl resp => (resp, db)
      | inr uid =>
          if negb (callerIsManagerOrAdmin db uid) then (Error 403 "Forbidden", db)
          else
            (* [Array(days)] throws on a negative or oversized length *)
            if (ndays <? 0) || (4294967295 <? ndays) then (INTERNAL, db)
            else
              match commit (batch env vid st en duration (Z.to_nat ndays)) db with
              | Some db' => (Ok None, db')
              | None => (INTERNAL, db)
              end
      end.

End Generate.

(** ** The reader: [renderSlot] of the weekly grid *)

Module Grid.

Record StatusInfo := mkInfo { text : string; isPhysical : bool }.

Definition getStatusInfo (status bookingType : option string) : StatusInfo :=
  if negb (JS.truthy status) then mkInfo "Avail." false
  else
    let s := JS.toUpperCase (default "" status) in
    if String.eqb s "AVAILABLE" then mkInfo "Avail." false
    else if String.eqb s "BOOKED"
         then mkInfo "Booked" (bool_decide (bookingType = Some "physical"))
    else if String.eqb s "HELD" then mkInfo "Held" false
    else if String.eqb s "RESERVED" then mkInfo "Reserv." true
    else if String.eqb s "BLOCKED" then mkInfo "Blocked" false
    else mkInfo "" false.

(** The variable [slotStatus] of [renderSlot]: the stored status, or
    AVAILABLE for a slot without a document, with a hold whose expiry is
    before the current instant read as AVAILABLE. *)
Definition slotStatus (slot : option SlotDoc) (now : Z) : option string :=
match slot with
| None => Some "AVAILABLE"
| Some s =>
    if bool_decide (slot_status s = Some "HELD")
    then
      match slot_holdExpiresAt s with
      | Some expires => if expires <? now then Some "AVAILABLE" else slot_status s
      | None => slot_status s
      end
    else slot_status s
end.

Record Cell := mkCell {
  status : option string;
  label : string;
  canClick : bool
}.

Definition renderSlot (slot : option SlotDoc) (booking : option BookingDoc)
    (isPast isManager : bool) (now : Z) : Cell :=
  let status := if isPast then None else slotStatus slot now in
  let bookingType :=
    match booking with
    | Some b => booking_bookingType b
    | None => None
    end in
  let statusInfo := getStatusInfo status bookingType in
  let available := bool_decide (status = Some "AVAILABLE") in
  let canClick :=
    negb isPast
    && ((isManager && (available || isPhysical statusInfo))
        || (negb isManager && available)) in
  mkCell status (if isPast then "Past" else text statusInfo) canClick.

End Grid.

(** ** The effective status of a slot *)

(** Rules 2 to 6 of the precedence rule of the design (section 4.1): the
    status that the stored entry of a slot stands for at an instant,
    whether or not the slot has started.  A stored status other than
    AVAILABLE and HELD occupies the slot, a hold occupies it only while
    its expiry is in the future, and everything else is available.  The
    routes have their own tests, which are compared with this one. *)
Inductive Entry :=
| Available
| Held (heldBy : option string)
| Occupied (status : string).

Definition entry_status (now : Z) (s : SlotDoc) : Entry :=
  let status := JS.toUpperCase (JS.or_else (slot_status s) "") in
  if String.eqb status "" || String.eqb status "AVAILABLE" then Available
  else if String.eqb status "HELD" then
    match slot_holdExpiresAt s with
    | Some expires => if now <? expires then Held (slot_heldBy s) else Available
    | None => Available
    end
  else Occupied status.

(** The effective status of section 4.1 in full.  Rule 1 comes first: a
    slot whose start has elapsed is past, whatever is stored on it, and
    is never to be changed; the other slots are read by their entry.
    [start] is the calendar of the venue: the instant at which a slot
    with the given date and start time begins.  A document that lacks
    the date or the start time is read by its entry. *)
Inductive Effective :=
| Past
| Current (entry : Entry).

Definition effective (start : string -> string -> Z) (now : Z) (s : SlotDoc)
    : Effective :=
  match slot_date s, slot_startTime s with
  | Some date, Some startTime =>
      if start date startTime <? now then Past
      else Current (entry_status now s)
  | _, _ => Current (entry_status now s)
  end.

(** ** A small world to run the routes in *)

Module Demo.

(** Tokens of two customers and two managers. *)
Definition verify (token : string) : option string :=
  if String.eqb token "token-asha" then Some "asha"
  else if String.eqb token "token-bikram" then Some "bikram"
  else if String.eqb token "token-mina" then Some "mina"
  else if String.eqb token "token-nabin" then Some "nabin"
  else None.

(** Dates counted from 2025-12-01. *)
Definition date (i : nat) : string := "2025-12-" +:+ JS.pad2 (Z.of_nat i + 1).

(** 2025-12-01T00:00:00Z in milliseconds. *)
Definition t0 : Z := 1764547200000.

(** The calendar of the demo venue, kept in UTC: the number of the day
    [y]-[m]-[d] counted from 1970-01-01 in the Gregorian calendar, and
    the instant at which a slot with a date written YYYY-MM-DD and a
    start time written HH:MM begins. *)
Definition days_from_civil (y m d : Z) : Z :=
  let y' := if m <=? 2 then y - 1 else y in
  let era := y' / 400 in
  let yoe := y' - era * 400 in
  let mp := (m + 9) mod 12 in
  let doy := (153 * mp + 2) / 5 + d - 1 in
  let doe := yoe * 365 + yoe / 4 - yoe / 100 + doy in
  era * 146097 + doe - 719468.

Definition start (date time : string) : Z :=
  let field (from len : nat) (s : string) : Z :=
    default 0 (JS.parseInt (String.substring from len s)) in
  days_from_civil (field 0%nat 4%nat date) (field 5%nat 2%nat date)
    (field 8%nat 2%nat date) * 86400000
  + field 0%nat 2%nat time * 3600000 + field 3%nat 2%nat time * 60000.

Definition env (bookingId : string) (now : Z) : Env :=
  {| isAdminInitialized := true;
     verifyIdToken := verify;
     newBookingId := bookingId;
     now_check := now;
     now_stamp := now;
     serverTimestamp := now;
     ignoreUndefinedProperties := false;
     dateString := date |}.

Definition slot (status : string) : SlotDoc :=
  {| slot_groundId := Some "arena";
     slot_date := Some "2025-12-01";
     slot_startTime := Some "14:00";
     slot_endTime := None;
     slot_status := Some status;
     slot_heldBy := None;
     slot_holdExpiresAt := None;
     slot_bookingId := None;
     slot_updatedAt := None |}.

Definition slot_key : string := "arena_2025-12-01_1400".

(** A hold of [uid] on the 14:00 slot, with its pending booking
    [bookingId]. *)
Definition held_slot (uid bookingId : string) (expires : Z) : SlotDoc :=
  {| slot_groundId := Some "arena";
     slot_date := Some "2025-12-01";
     slot_startTime := Some "14:00";
     slot_endTime := None;
     slot_status := Some "HELD";
     slot_heldBy := Some uid;
     slot_holdExpiresAt := Some expires;
     slot_bookingId := Some bookingId;
     slot_updatedAt := Some t0 |}.

(** [mina] manages the venue [arena]; [nabin] is the manager of another
    venue, [riverside]. *)
Definition people : gmap string UserDoc :=
  <["asha" := mkUser (Some "user") None]>
  (<["bikram" := mkUser (Some "user") None]>
  (<["mina" := mkUser (Some "manager") (Some "arena")]>
  (<["nabin" := mkUser (Some "manager") (Some "riverside")]> ∅))).

Definition places : gmap string VenueDoc :=
  <["arena" := mkVenue (Some "mina") (Some 1500) (Some "09:00") (Some "21:00")]>
  (<["riverside" := mkVenue (Some "nabin") (Some 1200) (Some "08:00") (Some "20:00")]> ∅).

(** A store with the one slot [s] under [slot_key] and the booking
    records [bs]. *)
Definition world (s : SlotDoc) (bs : gmap string BookingDoc) : Db :=
  {| slots := {[ slot_key := s ]};
     bookings := bs;
     venues := places;
     users := people |}.

Definition hold_request (token : string) (minutes : option Z) : Hold.Request :=
  Hold.mkRequest (Some slot_key) (Some "arena") minutes (Some ("Bearer " +:+ token)).

Definition book_request (token : string) : Book.Request :=
  Book.mkRequest (Some "arena") (Some slot_key) (Some ("Bearer " +:+ token)).

Definition reserve_request (token slotId venueId : string) : Reserve.Request :=
Reserve.mkRequest (Some slotId) (Some venueId) (Some "Walk-in") (Some "9800000000")
  None (Some ("Bearer " +:+ token)).

Definition unbook_request (token bookingId : string) : Unbook.Request :=
Unbook.mkRequest (Some slot_key) (Some bookingId) (Some "arena")
  (Some ("Bearer " +:+ token)).

Definition generate_request (token venueId : string) : Generate.Request :=
Generate.mkRequest (Some venueId) (Some "14:00") (Some "15:00") None (Some 1)
  (Some ("Bearer " +:+ token)).

(** The pending booking a hold of [uid] leaves behind. *)
Definition pending (uid : string) (expires : Z) : BookingDoc :=
Hold.bookingData (env "" t0) uid slot_key "arena" expires.

(** A confirmed online booking of [uid] and a physical one. *)
Definition online (uid : string) : BookingDoc :=
{| booking_venueId := Some "arena";
   booking_userId := Some uid;
   booking_slotId := Some slot_key;
   booking_date := None;
   booking_startTime := None;
   booking_timeSlot := Some "2025-12-01 14:00 - ";
   booking_customerName := None;
   booking_customerPhone := None;
   booking_notes := None;
   booking_bookingType := Some "website";
   booking_status := Some "confirmed";
   booking_createdAt := Some t0;
   booking_amount := Some 1500;
   booking_bookingExpiresAt := None |}.

Definition physical : BookingDoc :=
{| booking_venueId := Some "arena";
   booking_userId := None;
   booking_slotId := Some slot_key;
   booking_date := Some "2025-12-01";
   booking_startTime := Some "14:00";
   booking_timeSlot := Some "2025-12-01 14:00 - ";
   booking_customerName := Some "Walk-in";
   booking_customerPhone := Some "9800000000";
   booking_notes := None;
   booking_bookingType := Some "physical";
   booking_status := Some "confirmed";
   booking_createdAt := Some t0;
   booking_amount := None;
   booking_bookingExpiresAt := None |}.

(** A slot that carries a booking. *)
Definition taken_slot (status bookingId : string) : SlotDoc :=
{| slot_groundId := Some "arena";
   slot_date := Some "2025-12-01";
   slot_startTime := Some "14:00";
   slot_endTime := None;
   slot_status := Some status;
   slot_heldBy := None;
   slot_holdExpiresAt := None;
   slot_bookingId := Some bookingId;
   slot_updatedAt := Some t0 |}.

End Demo.

(** ** The stores after an accepted request *)

(** The store after an accepted hold. *)
Definition held_db (env : Env) (db : Db) (sid vid uid : string) (s : SlotDoc)
    (expiry : Z) : Db :=
  mkDb (<[sid := Hold.slot_patch env uid expiry s]> (slots db))
       (<[newBookingId env := Hold.bookingData env uid sid vid expiry]> (bookings db))
       (venues db) (users db).

(** The test of the book route (line 43) passes exactly on a stored
    status that is absent, empty or AVAILABLE in any letter case. *)
Definition book_refuses (s : SlotDoc) : bool :=
  let status := JS.toLowerCase (JS.or_else (slot_status s) "") in
  negb (String.eqb status "") && negb (String.eqb status "available").

Definition price (db : Db) (vid : string) : Z :=
  match venues db !! vid with
  | Some v => default 0 (venue_pricePerHour v)
  | None => 0
  end.

(** The store after an accepted book. *)
Definition booked_db (env : Env) (db : Db) (sid vid uid : string) (s : SlotDoc) : Db :=
  mkDb (<[sid := Book.slot_patch env s]> (slots db))
       (<[newBookingId env := Book.bookingData env uid sid vid s (price db vid)]>
          (bookings db))
       (venues db) (users db).

(** The caller's profile carries the role manager or admin. *)
Definition manager_or_admin (db : Db) (uid : string) : Prop :=
  exists doc, users db !! uid = Some doc
              /\ (user_role doc = Some "manager" \/ user_role doc = Some "admin").

(** Hold requests served one after the other, each as one transaction. *)
Fixpoint run_holds (attempts : list (Env * Hold.Request)) (db : Db)
    : list Response * Db :=
  match attempts with
  | [] => ([], db)
  | (env, req) :: rest =>
      let (r, db1) := Hold.POST env req db in
      let (rs, db2) := run_holds rest db1 in
      (r :: rs, db2)
  end.

(** A well-formed hold request of an authenticated caller on the slot
    [sid], served while the clock of its expiry test is before [expiry]. *)
Definition contends (expiry : Z) (sid : string) (a : Env * Hold.Request) : Prop :=
  isAdminInitialized a.1 = true
  /\ Hold.slotId a.2 = Some sid
  /\ JS.truthy (Hold.venueId a.2) = true
  /\ (exists uid, authenticate a.1 (Hold.authorization a.2) = inr uid)
  /\ now_check a.1 < expiry.

(** The writes of the generate route: slots and venues only. *)
Definition schedule_write (w : Write) : Prop :=
  match w with
  | MergeSlot _ _ _ | UpdateVenue _ _ => True
  | _ => False
  end.

(** The slot [id] has a document whose stored status is AVAILABLE. *)
Definition stored_available (db : Db) (id : string) : Prop :=
  exists s, slots db !! id = Some s /\ slot_status s = Some "AVAILABLE".

(** A write of the generate route, with what it does to the status. *)
Definition resetting (w : Write) : Prop :=
  match w with
  | MergeSlot _ fresh patch =>
      slot_status fresh = Some "AVAILABLE"
      /\ forall s, slot_status (patch s) = Some "AVAILABLE"
  | UpdateVenue _ _ => True
  | _ => False
  end.

(** The slot document a write is aimed at, if it is a slot. *)
Definition slot_target (w : Write) : option string :=
  match w with
  | UpdateSlot id _ | MergeSlot id _ _ => Some id
  | _ => None
  end.

(** The store after an accepted reserve. *)
Definition reserved_db (env : Env) (req : Reserve.Request) (db : Db)
    (sid vid : string) (s : SlotDoc) : Db :=
  mkDb (<[sid := Reserve.slot_patch env s]> (slots db))
       (<[newBookingId env := Reserve.bookingData env req sid vid s]> (bookings db))
       (venues db) (users db).

(** The fields of a slot document that the generate route does not
    write; a slot without a document has none of them. *)
Definition kept (o : option SlotDoc)
    : option string * option string * option Z * option string * option Z :=
  match o with
  | Some s => (slot_endTime s, slot_heldBy s, slot_holdExpiresAt s,
               slot_bookingId s, slot_updatedAt s)
  | None => (None, None, None, None, None)
  end.

(** A write of the generate route on a slot of its window. *)
Definition window_write (w : Write) : Prop :=
  match w with
  | MergeSlot _ fresh patch =>
      exists venueId date hourString,
        fresh = Generate.fresh_slot venueId date hourString
        /\ patch = Generate.merge_slot venueId date hourString
  | UpdateVenue _ _ => True
  | _ => False
  end.

(** Whether a write is a merge on the slot [id], and what it makes of the
    document of that slot. *)
Definition hits (id : string) (w : Write) : bool :=
  match w with
  | MergeSlot id' _ _ => bool_decide (id' = id)
  | _ => false
  end.

Definition step_slot (id : string) (o : option SlotDoc) (w : Write)
    : option SlotDoc :=
  match w with
  | MergeSlot id' fresh patch =>
      if bool_decide (id' = id)
      then Some (match o with Some s => patch s | None => fresh end)
      else o
  | _ => o
  end.

(** ** More of the weekly grid *)

Module WeeklyGrid.

(** [parseInt(s)] without a radix, as the grid calls it: after white
    space and a sign, a prefix 0x or 0X switches to hexadecimal digits,
    anything else is read in base ten.  [None] stands for [NaN].  As for
    [JS.parseInt], the result is the exact integer, which is the double
    the call returns up to 2^53 in size. *)
Definition hex_digit (c : ascii) : option Z :=
  let n := nat_of_ascii c in
  if (48 <=? n)%nat && (n <=? 57)%nat then Some (Z.of_nat n - 48)
  else if (65 <=? n)%nat && (n <=? 70)%nat then Some (Z.of_nat n - 55)
  else if (97 <=? n)%nat && (n <=? 102)%nat then Some (Z.of_nat n - 87)
  else None.

Fixpoint hex_value (acc : Z) (s : string) : Z :=
  match s with
  | String c r =>
      match hex_digit c with
      | Some d => hex_value (16 * acc + d) r
      | None => acc
      end
  | EmptyString => acc
  end.

Definition unsigned (t : string) : option Z :=
  match t with
  | String "0" (String x r) =>
      if Ascii.eqb x "x" || Ascii.eqb x "X"
      then
        match r with
        | String c _ =>
            match hex_digit c with
            | Some _ => Some (hex_value 0 r)
            | None => None
            end
        | EmptyString => None
        end
      else Some (JS.digits_value 0 t)
  | _ => if JS.starts_with_digit t then Some (JS.digits_value 0 t) else None
  end.

Definition parseInt (s : string) : option Z :=
  match JS.skip_spaces s with
  | String "-" r => Z.opp <$> unsigned r
  | String "+" r => unsigned r
  | t => unsigned t
  end.

(** [gridHours]: a row per hour from the opening hour up to the closing
    hour; no row when an hour does not parse.  [Array.from] throws a
    [RangeError] (here [None]) on a length above 2^32 - 1. *)
Definition gridHours (startTime endTime : string) : option (list string) :=
  match parseInt (JS.before_first ":" endTime),
        parseInt (JS.before_first ":" startTime) with
  | Some e, Some s =>
      if 4294967295 <? Z.max 0 (e - s) then None
      else
        Some (map (fun i => JS.pad2 (s + Z.of_nat i) +:+ ":00")
                  (seq 0 (Z.to_nat (Z.max 0 (e - s)))))
  | _, _ => Some []
  end.

(** The loop of [fetchData] that asks for the bookings of at most ten
    slots at a time: [i] is the loop variable, [fuel] bounds the turns. *)
Fixpoint batches_loop (fuel : nat) (i : nat) (slotIds : list string)
    : list (list string) :=
  match fuel with
  | O => []
  | S fuel' =>
      if (i <? List.length slotIds)%nat
      then take 10 (drop i slotIds) :: batches_loop fuel' (i + 10) slotIds
      else []
  end.

(** The loop variable grows by ten a turn, so one turn per id is
    enough. *)
Definition batches (slotIds : list string) : list (list string) :=
  batches_loop (List.length slotIds) 0 slotIds.

(** What a click on a cell ends in. *)
Inductive Action :=
| ToastInfo (message : string)
| ToastWarning (message : string)
| OpenSlotUpdateDialog
| OpenBookingConfirmDialog
| TypeError.

(** [handleSlotClick]: [isPast] is the comparison of the slot's start
    with the instant of the click, [booking] the loaded booking of the
    slot, if any.  The status is the stored one. *)
Definition handleSlotClick (slot : option SlotDoc) (booking : option BookingDoc)
    (isPast isManager : bool) : Action :=
  if isPast then ToastInfo "This slot is in the past."
  else
    let currentStatus :=
      match slot with
      | Some s => slot_status s
      | None => Some "AVAILABLE"
      end in
    let isPhysicalBooking :=
      match booking with
      | Some b => bool_decide (booking_bookingType b = Some "physical")
      | None => false
      end in
    if isManager then
      if bool_decide (currentStatus = Some "BOOKED")
         || bool_decide (currentStatus = Some "RESERVED")
      then
        if JS.truthy (slot ≫= slot_bookingId)
        then
          if bool_decide (booking = None) || isPhysicalBooking
          then OpenSlotUpdateDialog
          else ToastInfo "Website bookings cannot be unbooked by managers. Contact admin."
        else
          ToastInfo ("This slot is " +:+ JS.toLowerCase (default "" currentStatus)
                     +:+ " but has no booking record.")
      else if bool_decide (currentStatus = Some "AVAILABLE")
      then OpenSlotUpdateDialog
      else
        match currentStatus with
        | Some st =>
            ToastInfo ("This slot is " +:+ JS.toLowerCase st
                       +:+ " and cannot be modified.")
        | None => TypeError
        end
    else
      if bool_decide (currentStatus = Some "AVAILABLE")
      then OpenBookingConfirmDialog
      else if bool_decide (currentStatus = Some "HELD")
      then ToastWarning "This slot is currently on hold."
      else
        ToastInfo ("This slot is currently "
                   +:+ JS.interpolate (slot ≫= slot_status) +:+ ".").

(** The [onClick] of a cell: the handler runs only when the cell was
    rendered clickable and is not being processed. *)
Definition onClick (slot : option SlotDoc) (booking : option BookingDoc)
    (pastAtRender pastAtClick isManager isProcessing : bool) (renderedAt : Z)
    : option Action :=
  if Grid.canClick (Grid.renderSlot slot booking pastAtRender isManager renderedAt)
     && negb isProcessing
  then Some (handleSlotClick slot booking pastAtClick isManager)
  else None.

End WeeklyGrid.

(** Whether the digits of a numeral, after white space and a sign, begin
    with the prefix 0x or 0X. *)
Definition hex_prefixed (s : string) : bool :=
  let t := match JS.skip_spaces s with
           | String "-" r => r
           | String "+" r => r
           | t => t
           end in
  match t with
  | String "0" (String x _) => Ascii.eqb x "x" || Ascii.eqb x "X"
  | _ => false
  end.

(** The slot write of the generate route for a row of the grid. *)
Definition row_write (venueId date row : string) : Write :=
  MergeSlot (Generate.getSlotId venueId date row)
    (Generate.fresh_slot venueId date row)
    (Generate.merge_slot venueId date row).

(** ** User profiles and the writers of the role *)

Module Profiles.

(** A document of the users collection, with the fields its writers set;
    [null] and a missing field are both [None]. *)
Record Profile := mkProfile {
  profile_email : option string;
  profile_displayName : option string;
  profile_photoURL : option string;
  profile_lastSeen : option Z;
  profile_createdAt : option Z;
  profile_role : option string;
  profile_groundId : option string
}.

(** What the routes read of a profile. *)
Definition userDoc (p : Profile) : UserDoc :=
  mkUser (profile_role p) (profile_groundId p).

(** The store the routes see over a collection of profiles. *)
Definition store (slots : gmap string SlotDoc) (bookings : gmap string BookingDoc)
    (venues : gmap string VenueDoc) (profiles : gmap string Profile) : Db :=
  mkDb slots bookings venues (userDoc <$> profiles).

(** The claims of a decoded id token that the upsert route reads next to
    the uid. *)
Record Decoded := mkDecoded {
  decoded_email : option string;
  decoded_name : option string;
  decoded_picture : option string
}.

Record Request := mkRequest {
  displayName : option string;
  email : option string;
  photoURL : option string;
  role : option string;
  authorization : option string
}.

(** [a || b || null] *)
Definition first_truthy (a b : option string) : option string :=
  if JS.truthy a then a else JS.or_null b.

(** [set(base, {merge: true})] on an existing profile. *)
Definition merge_base (email displayName photoURL : option string) (lastSeen : Z)
    (p : Profile) : Profile :=
  {| profile_email := email;
     profile_displayName := displayName;
     profile_photoURL := photoURL;
     profile_lastSeen := Some lastSeen;
     profile_createdAt := profile_createdAt p;
     profile_role := profile_role p;
     profile_groundId := profile_groundId p |}.

(** [set({...base, role, createdAt})] for a profile that did not exist. *)
Definition new_profile (email displayName photoURL : option string) (stamp : Z)
    (role : string) : Profile :=
  {| profile_email := email;
     profile_displayName := displayName;
     profile_photoURL := photoURL;
     profile_lastSeen := Some stamp;
     profile_createdAt := Some stamp;
     profile_role := Some role;
     profile_groundId := None |}.

(** POST /api/users/upsert; [claims] gives the decoded claims of a
    verified token. *)
Definition POST (env : Env) (claims : string -> Decoded) (req : Request)
    (profiles : gmap string Profile) : Response * gmap string Profile :=
  if negb (isAdminInitialized env) then (Error 500 "Server not configured", profiles)
  else
    match JS.bearer (JS.or_else (authorization req) "") with
    | None => (Error 401 "Unauthorized", profiles)
    | Some idToken =>
        match verifyIdToken env idToken with
        | None => (Error 401 "Invalid token", profiles)
        | Some uid =>
            let decoded := claims idToken in
            let assignedRole :=
              if bool_decide (role req = Some "manager")
              then
                let callerRole :=
                  match profiles !! uid with
                  | Some callerDoc => profile_role callerDoc
                  | None => None
                  end in
                if bool_decide (callerRole = Some "admin") then "manager" else "user"
              else "user" in
            let e := first_truthy (email req) (decoded_email decoded) in
            let d := first_truthy (displayName req) (decoded_name decoded) in
            let p := first_truthy (photoURL req) (decoded_picture decoded) in
            match profiles !! uid with
            | None =>
                (Ok None,
                 <[uid := new_profile e d p (serverTimestamp env) assignedRole]> profiles)
            | Some snap =>
                (Ok None, <[uid := merge_base e d p (serverTimestamp env) snap]> profiles)
            end
        end
    end.

(** The toasts of the admin page. *)
Inductive Toast :=
| ToastError (message : string)
| ToastSuccess (message : string).

Definition with_role (role : string) (p : Profile) : Profile :=
  {| profile_email := profile_email p;
     profile_displayName := profile_displayName p;
     profile_photoURL := profile_photoURL p;
     profile_lastSeen := profile_lastSeen p;
     profile_createdAt := profile_createdAt p;
     profile_role := Some role;
     profile_groundId := profile_groundId p |}.

(** [toggleRole] of the admin page, on a listed user with the id and the
    role the list shows.  [updateDoc] rejects when the document is gone,
    which the handler turns into a toast. *)
Definition toggleRole (id : string) (listedRole : option string)
    (profiles : gmap string Profile) : option Toast * gmap string Profile :=
  if String.eqb id "" then (None, profiles)
  else if bool_decide (listedRole = Some "admin")
  then (Some (ToastError "Cannot change role of an admin account."), profiles)
  else
    let newRole := if bool_decide (listedRole = Some "manager") then "user" else "manager" in
    match profiles !! id with
    | Some p =>
        (Some (ToastSuccess ("Role changed to " +:+ newRole)),
         <[id := with_role newRole p]> profiles)
    | None => (Some (ToastError "Failed to update role"), profiles)
    end.

End Profiles.

(** Two profiles: an administrator and a customer. *)
Definition accounts : gmap string Profiles.Profile :=
  <["root" := Profiles.mkProfile (Some "root@example.org") None None None None
                (Some "admin") None]>
  (<["asha" := Profiles.mkProfile (Some "asha@example.org") None None None None
                 (Some "user") None]> ∅).

Definition no_claims (token : string) : Profiles.Decoded :=
  Profiles.mkDecoded None None None.

(** ** The manager's status buttons *)

Module ManagerGrid.

(** What [handleUpdateSlotStatus] of the manager's grid ends in: nothing
    without a selected slot, the success toast, or the failure toast. *)
Inductive Result :=
| NoSelection
| Updated
| Failed.

(** [updateDoc(slotRef, { status })]: the status is replaced, the other
    fields stay. *)
Definition with_status (status : string) (s : SlotDoc) : SlotDoc :=
  {| slot_groundId := slot_groundId s;
     slot_date := slot_date s;
     slot_startTime := slot_startTime s;
     slot_endTime := slot_endTime s;
     slot_status := Some status;
     slot_heldBy := slot_heldBy s;
     slot_holdExpiresAt := slot_holdExpiresAt s;
     slot_bookingId := slot_bookingId s;
     slot_updatedAt := slot_updatedAt s |}.

(** [handleUpdateSlotStatus]: [selectedSlot] is the id of the selected
    slot, and [permitted] whether the security rules of the store let the
    caller write the slot.  [updateDoc] rejects when the write is refused
    or the document is gone, which the handler turns into the failure
    toast. *)
Definition handleUpdateSlotStatus (permitted : bool) (selectedSlot : option string)
    (status : string) (db : Db) : Result * Db :=
  match selectedSlot with
  | None => (NoSelection, db)
  | Some id =>
      if negb permitted then (Failed, db)
      else
        match commit [ UpdateSlot id (with_status status) ] db with
        | Some db' => (Updated, db')
        | None => (Failed, db)
        end
  end.

End ManagerGrid.

(** ** The payment log *)

Module PaymentLog.

(** [PaymentLogData].  The fields are strings where the interface says
    so, and may be missing or empty at run time; the amount is only
    stored. *)
Record PaymentLogData := mkData {
  transactionUuid : option string;
  bookingId : option string;
  userId : option string;
  venueId : option string;
  amount : Z;
  status : string;
  method : string;
  productCode : option string;
  refId : option string;
  metadata : option string
}.

(** A document of the payments collection. *)
Record PaymentRecord := mkRecord {
  payment_data : PaymentLogData;
  payment_managerId : option string;
  payment_venueName : option string;
  payment_userEmail : option string;
  payment_createdAt : Z;
  payment_dateString : string
}.

(** The two fields of a venue document that the logger reads. *)
Record VenueInfo := mkInfo {
  info_managedBy : option string;
  info_name : option string
}.

(** [where('transactionUuid', '==', txn).limit(1)] is not empty *)
Definition logged_txn (txn : string) (payments : list PaymentRecord) : bool :=
  existsb (fun r => bool_decide (transactionUuid (payment_data r) = Some txn)) payments.

(** [where('bookingId', '==', bId).where('refId', '==', rId).limit(1)]
    is not empty *)
Definition logged_ref (bId rId : string) (payments : list PaymentRecord) : bool :=
  existsb (fun r => bool_decide (bookingId (payment_data r) = Some bId)
                    && bool_decide (refId (payment_data r) = Some rId)) payments.

(** The check and the [add] on one database handle. *)
Definition record (managerId venueName userEmail : option string) (stamp : Z)
    (dateString : string) (d : PaymentLogData) (payments : list PaymentRecord)
    : bool * list PaymentRecord :=
  let txn := transactionUuid d in
  let bId := bookingId d in
  let rId := refId d in
  if JS.truthy txn && logged_txn (default "" txn) payments then (true, payments)
  else if negb (JS.truthy txn) && JS.truthy bId && JS.truthy rId
          && logged_ref (default "" bId) (default "" rId) payments
  then (true, payments)
  else
    (true,
     payments ++ [ mkRecord d managerId venueName userEmail stamp dateString ])%list.

(** [logPayment]: the venue and the user are looked up for the manager,
    the venue's name and the user's e-mail, then the record is added
    unless one with the same keys is there.  The admin handle and the
    browser handle reach the same database. *)
Definition logPayment (env : Env) (venues : gmap string VenueInfo)
    (users : gmap string Profiles.Profile) (d : PaymentLogData)
    (payments : list PaymentRecord) : bool * list PaymentRecord :=
  let venueSnap := if JS.truthy (venueId d) then venues !! default "" (venueId d) else None in
  let managerId := JS.or_null (venueSnap ≫= info_managedBy) in
  let venueName := JS.or_null (venueSnap ≫= info_name) in
  let userSnap := if JS.truthy (userId d) then users !! default "" (userId d) else None in
  let userEmail := JS.or_null (userSnap ≫= Profiles.profile_email) in
  let dateString := dateString env 0%nat in
  if isAdminInitialized env
  then record managerId venueName userEmail (serverTimestamp env) dateString d payments
  else record managerId venueName userEmail (serverTimestamp env) dateString d payments.

End PaymentLog.

(** A payment report of asha for the booking bk-1. *)
Definition payment (txn : option string) (status : string)
    : PaymentLog.PaymentLogData :=
  PaymentLog.mkData txn (Some "bk-1") (Some "asha") (Some "arena") 1200 status
    "esewa" None None None.

(** A write of a transaction that stays within the slot [sid] and the
    booking [bid]. *)
Definition within (sid bid : string) (w : Write) : Prop :=
  match w with
  | SetBooking id _ | DeleteBooking id => id = bid
  | UpdateSlot id _ | MergeSlot id _ _ => id = sid
  | UpdateVenue _ _ => True
  end.

(** Every slot other than [sid] and every booking other than [bid] is
    in [db'] as it is in [db]. *)
Definition same_elsewhere (sid bid : string) (db db' : Db) : Prop :=
  (forall sid', sid' <> sid -> slots db' !! sid' = slots db !! sid')
  /\ (forall bid', bid' <> bid -> bookings db' !! bid' = bookings db !! bid').

(** Two answers that are the same refusal of a request that did not get
    past the checks made before the store is read. *)
Definition early_refusal (r1 r2 : Response) : Prop :=
  r1 = r2 /\ exists st msg, r1 = Error st msg /\ (st = 500 \/ st = 400 \/ st = 401).

(** Whether a string is free of the separator of slot ids. *)
Fixpoint no_underscore (s : string) : bool :=
  match s with
  | EmptyString => true
  | String c r => negb (Ascii.eqb c "_") && no_underscore r
  end.

(** The integers a double holds exactly, up to 2^53 in size: on them
    [parseInt] and the sums of the generate loop are what the
    definitions above compute. *)
Definition safe_integer (z : Z) : bool := (- 2 ^ 53 <=? z) && (z <=? 2 ^ 53).

(** The hour of a time is an integer of that size when it parses. *)
Definition safe_hour (time : string) : bool :=
  match JS.parseInt (JS.before_first ":" time) with
  | Some hour => safe_integer hour
  | None => true
  end.

(** The opening hour, the closing hour and the slot duration of a
    generate request are of that size. *)
Definition safe_hours (startTime endTime : string) (slotDuration : Z) : bool :=
  safe_hour startTime && safe_hour endTime && safe_integer slotDuration.

(** The double nearest to an integer, ties to even: an integer of at
    most 2^53 in size is a double, a larger one is rounded to 53
    significant bits.  (The integers from 2^1024 on, which round to
    infinity, play no part below.) *)
Definition to_double (n : Z) : Z :=
  if Z.abs n <=? 2 ^ 53 then n
  else
    let k := Z.log2 (Z.abs n) - 52 in
    let q := Z.abs n / 2 ^ k in
    let r := Z.abs n mod 2 ^ k in
    let up := (2 ^ (k - 1) <? r) || ((r =? 2 ^ (k - 1)) && Z.odd q) in
    Z.sgn n * ((if up then q + 1 else q) * 2 ^ k).

(** The inner loop of the generate route with every sum rounded to a
    double, and the hours it visits from the parsed numbers as doubles.
    Under [safe_hours] these are the hours of [Generate.hours] (lemma
    [generate_hours_exact]). *)
Fixpoint hours_loop_double (fuel : nat) (hour endHour step : Z) : list Z :=
  match fuel with
  | O => []
  | S fuel' =>
      if hour <? endHour
      then hour :: hours_loop_double fuel' (to_double (hour + step)) endHour step
      else []
  end.

Definition hours_double (startHour endHour : option Z) (slotDuration : Z) : list Z :=
  match startHour, endHour with
  | Some s, Some e =>
      hours_loop_double (Z.to_nat (e - s)) (to_double s) (to_double e)
        (Z.max 1 (slotDuration / 60))
  | _, _ => []
  end.


(** ** Helper lemmas *)

(** *** The hours of the generate loop in doubles *)

Example to_double_examples :
  to_double (2 ^ 53 + 1) = 2 ^ 53 /\ to_double (2 ^ 53 + 2) = 2 ^ 53 + 2
  /\ to_double (2 ^ 53 + 3) = 2 ^ 53 + 4 /\ to_double (- (2 ^ 53) - 1) = - 2 ^ 53
  /\ to_double (2 ^ 54 + 2) = 2 ^ 54 /\ to_double (2 ^ 54 + 6) = 2 ^ 54 + 8
  /\ to_double 14 = 14.
Proof. vm_compute. repeat split. Qed.

Lemma to_double_safe (n : Z) : safe_integer n = true -> to_double n = n.
Proof.
  unfold safe_integer, to_double. intros H.
  apply andb_true_iff in H as [H1 H2]. apply Z.leb_le in H1, H2.
  destruct (Z.leb_spec (Z.abs n) (2 ^ 53)); [reflexivity | lia].
Qed.

Lemma to_double_large (n : Z) : 2 ^ 53 < n -> 2 ^ 53 <= to_double n.
Proof.
  intros Hn. unfold to_double.
  assert (Habs : Z.abs n = n) by lia. rewrite Habs.
  destruct (Z.leb_spec n (2 ^ 53)); [lia|].
  assert (Hlog : 53 <= Z.log2 n) by (apply Z.log2_le_pow2; lia).
  set (k := Z.log2 n - 52).
  assert (Hk : 1 <= k) by (unfold k; lia).
  assert (Hpow : 2 ^ (52 + k) <= n).
  { replace (52 + k) with (Z.log2 n) by (unfold k; lia).
    apply Z.log2_spec. lia. }
  rewrite Z.pow_add_r in Hpow by lia.
  assert (H2k : 2 <= 2 ^ k).
  { change 2 with (2 ^ 1) at 1. apply Z.pow_le_mono_r; lia. }
  assert (Hq : 2 ^ 52 <= n / 2 ^ k).
  { apply Z.div_le_lower_bound; lia. }
  replace (Z.sgn n) with 1 by lia.
  destruct (_ || _); nia.
Qed.

Lemma loops_stop (fuel : nat) (hour endHour step : Z) :
  endHour <= hour ->
  hours_loop_double fuel hour endHour step = []
  /\ Generate.hours_loop fuel hour endHour step = [].
Proof.
  intros H. destruct fuel; simpl; [auto|].
  destruct (Z.ltb_spec hour endHour); [lia | auto].
Qed.

Lemma double_loop_exact (fuel : nat) :
  forall hour endHour step : Z,
    safe_integer hour = true -> safe_integer endHour = true -> 1 <= step ->
    hours_loop_double fuel hour endHour step
    = Generate.hours_loop fuel hour endHour step.
Proof.
  induction fuel as [|fuel IH]; intros hour endHour step Hh He Hstep;
    [reflexivity|].
  simpl. destruct (Z.ltb_spec hour endHour); [| reflexivity]. f_equal.
  pose proof Hh as Hh'. pose proof He as He'.
  unfold safe_integer in Hh', He'.
  apply andb_true_iff in Hh' as [Hh1 Hh2], He' as [He1 He2].
  apply Z.leb_le in Hh1, Hh2, He1, He2.
  destruct (Z_le_gt_dec (hour + step) (2 ^ 53)) as [Hle | Hgt].
  - assert (Hs : safe_integer (hour + step) = true).
    { unfold safe_integer. apply andb_true_iff.
      split; apply Z.leb_le; lia. }
    rewrite (to_double_safe _ Hs). apply IH; assumption.
  - pose proof (to_double_large (hour + step) ltac:(lia)) as Hbig.
    destruct (loops_stop fuel (to_double (hour + step)) endHour step ltac:(lia))
      as [-> _].
    destruct (loops_stop fuel (hour + step) endHour step ltac:(lia)) as [_ ->].
    reflexivity.
Qed.

(** For hours and a duration that a double holds exactly, the loop that
    rounds its sums visits the hours of the loop on integers. *)
Lemma generate_hours_exact (startTime endTime : string) (slotDuration : Z) :
  safe_hours startTime endTime slotDuration = true ->
  hours_double (JS.parseInt (JS.before_first ":" startTime))
    (JS.parseInt (JS.before_first ":" endTime)) slotDuration
  = Generate.hours (JS.parseInt (JS.before_first ":" startTime))
      (JS.parseInt (JS.before_first ":" endTime)) slotDuration.
Proof.
  unfold safe_hours, safe_hour, hours_double, Generate.hours. intros H.
  apply andb_true_iff in H as [H _]. apply andb_true_iff in H as [Hs He].
  destruct (JS.parseInt (JS.before_first ":" startTime)) as [s|]; [| reflexivity].
  destruct (JS.parseInt (JS.before_first ":" endTime)) as [e|]; [| reflexivity].
  rewrite (to_double_safe s Hs), (to_double_safe e He).
  apply double_loop_exact; [assumption | assumption | lia].
Qed.

Lemma truthy_Some (s : string) : s ≠ "" -> JS.truthy (Some s) = true.
Proof.
  intros Hs. unfold JS.truthy.
  destruct (String.eqb_spec s ""); [contradiction | reflexivity].
Qed.

Lemma truthy_inv (v : option string) :
  JS.truthy v = true -> exists s, v = Some s /\ s ≠ "".
Proof.
  destruct v as [s|]; simpl; [| discriminate].
  destruct (String.eqb_spec s ""); [discriminate|]. eauto.
Qed.

(** The test of the hold route agrees with the status of the entry. *)
Lemma hold_check_available (env : Env) (s : SlotDoc) :
  entry_status (now_check env) s = Available <-> Hold.check env s = None.
Proof.
  unfold entry_status, Hold.check.
  destruct (String.eqb _ "") eqn:E1; simpl; [tauto|].
  destruct (String.eqb _ "AVAILABLE") eqn:E2; simpl; [tauto|].
  destruct (String.eqb _ "HELD") eqn:E3; simpl.
  - destruct (slot_holdExpiresAt s) as [e|]; [| tauto].
    rewrite Z.gtb_ltb. destruct (now_check env <? e); split; congruence.
  - split; congruence.
Qed.

Lemma hold_check_conflict (env : Env) (s : SlotDoc) (st : Z) (msg : string) :
  Hold.check env s = Some (st, msg) -> st = 409.
Proof.
  unfold Hold.check.
  repeat (match goal with
          | |- context [if ?b then _ else _] => destruct b
          | |- context [match ?o with Some _ => _ | None => _ end] => destruct o
          end; simpl); congruence.
Qed.

(** What a route does once the request has passed the configuration,
    field and token checks. *)
Lemma hold_POST_authenticated (env : Env) (req : Hold.Request) (db : Db)
    (sid vid uid : string) :
  isAdminInitialized env = true ->
  Hold.slotId req = Some sid -> sid ≠ "" ->
  Hold.venueId req = Some vid -> vid ≠ "" ->
  authenticate env (Hold.authorization req) = inr uid ->
  Hold.POST env req db =
    let (result, db') :=
      runTransaction
        (Hold.transaction env uid sid vid (default 5 (Hold.holdDurationMinutes req)))
        db in
    (respond result, db').
Proof.
  intros Hinit Hs Hsne Hv Hvne Hauth. unfold Hold.POST.
  rewrite Hinit, Hs, Hv, !truthy_Some, Hauth by assumption. reflexivity.
Qed.

Lemma hold_commits (env : Env) (req : Hold.Request) (db : Db)
    (sid vid uid : string) (s : SlotDoc) :
  isAdminInitialized env = true ->
  Hold.slotId req = Some sid -> sid ≠ "" ->
  Hold.venueId req = Some vid -> vid ≠ "" ->
  authenticate env (Hold.authorization req) = inr uid ->
  slots db !! sid = Some s ->
  Hold.check env s = None ->
  let expiry := now_stamp env + default 5 (Hold.holdDurationMinutes req) * 60 * 1000 in
  fromMillis expiry = Some expiry ->
  Hold.POST env req db =
    (Ok (Some (newBookingId env)), held_db env db sid vid uid s expiry).
Proof.
  intros Hinit Hs Hsne Hv Hvne Hauth Hlk Hc expiry Hexp.
  rewrite (hold_POST_authenticated env req db sid vid uid) by assumption.
  unfold runTransaction, Hold.transaction.
  rewrite Hlk, Hc. fold expiry. rewrite Hexp. simpl. rewrite Hlk. reflexivity.
Qed.

Lemma hold_conflicts (env : Env) (req : Hold.Request) (db : Db)
    (sid vid uid : string) (s : SlotDoc) :
  isAdminInitialized env = true ->
  Hold.slotId req = Some sid -> sid ≠ "" ->
  Hold.venueId req = Some vid -> vid ≠ "" ->
  authenticate env (Hold.authorization req) = inr uid ->
  slots db !! sid = Some s ->
  Hold.check env s ≠ None ->
  exists msg, Hold.POST env req db = (Error 409 msg, db).
Proof.
  intros Hinit Hs Hsne Hv Hvne Hauth Hlk Hc.
  rewrite (hold_POST_authenticated env req db sid vid uid) by assumption.
  unfold runTransaction, Hold.transaction. rewrite Hlk.
  destruct (Hold.check env s) as [[st msg]|] eqn:E; [| contradiction].
  apply hold_check_conflict in E as ->. eauto.
Qed.

(** The hold route decides on the stored entry of the slot and does not
    look at its date.  For a well-formed request of an authenticated user
    whose hold expiry is a storable timestamp: a slot without a document
    is answered 404; a slot whose entry does not read available by rules
    2 to 6 of the precedence rule is answered 409 and nothing is written;
    a slot whose entry reads available, a slot that has started included,
    becomes HELD by the caller with [holdExpiresAt] equal to the current
    instant plus the hold duration, and in the same step a booking record
    with status PENDING_PAYMENT is created under the returned id. *)
Theorem hold_spec (env : Env) (req : Hold.Request) (db : Db)
    (sid vid uid : string) :
  isAdminInitialized env = true ->
  Hold.slotId req = Some sid -> sid ≠ "" ->
  Hold.venueId req = Some vid -> vid ≠ "" ->
  authenticate env (Hold.authorization req) = inr uid ->
  let expiry := now_stamp env + default 5 (Hold.holdDurationMinutes req) * 60 * 1000 in
  fromMillis expiry = Some expiry ->
  (slots db !! sid = None ->
     Hold.POST env req db = (Error 404 "Slot not found", db))
  /\ (forall s, slots db !! sid = Some s ->
        entry_status (now_check env) s ≠ Available ->
        exists msg, Hold.POST env req db = (Error 409 msg, db))
  /\ (forall s, slots db !! sid = Some s ->
        entry_status (now_check env) s = Available ->
        exists db' s' b,
          Hold.POST env req db = (Ok (Some (newBookingId env)), db')
          /\ slots db' !! sid = Some s'
          /\ slot_status s' = Some "HELD"
          /\ slot_heldBy s' = Some uid
          /\ slot_holdExpiresAt s' = Some expiry
          /\ slot_bookingId s' = Some (newBookingId env)
          /\ bookings db' !! newBookingId env = Some b
          /\ booking_status b = Some "PENDING_PAYMENT"
          /\ booking_userId b = Some uid
          /\ booking_slotId b = Some sid
          /\ booking_venueId b = Some vid
          /\ booking_bookingExpiresAt b = Some expiry
          /\ (forall k, k ≠ sid -> slots db' !! k = slots db !! k)
          /\ (forall k, k ≠ newBookingId env -> bookings db' !! k = bookings db !! k)
          /\ venues db' = venues db /\ users db' = users db).
Proof.
  intros Hinit Hs Hsne Hv Hvne Hauth expiry Hexp. repeat split.
  - intros Hlk.
    rewrite (hold_POST_authenticated env req db sid vid uid) by assumption.
    unfold runTransaction, Hold.transaction. rewrite Hlk. reflexivity.
  - intros s Hlk Hne. rewrite hold_check_available in Hne.
    eapply hold_conflicts; eassumption.
  - intros s Hlk Hav. apply hold_check_available in Hav.
    exists (held_db env db sid vid uid s expiry). eexists _, _.
    split; [apply hold_commits; assumption|].
    unfold held_db. simpl. rewrite !lookup_insert_eq.
    repeat split; try reflexivity.
    + intros k Hk. apply lookup_insert_ne. congruence.
    + intros k Hk. apply lookup_insert_ne. congruence.
Qed.

Lemma fromMillis_Some (ms t : Z) : fromMillis ms = Some t -> t = ms.
Proof.
  unfold fromMillis. destruct (_ && _); congruence.
Qed.

Lemma authenticate_error (env : Env) (h : option string) (resp : Response) :
  authenticate env h = inl resp -> exists msg, resp = Error 401 msg.
Proof.
  unfold authenticate.
  destruct (JS.bearer _) as [tok|]; [destruct (verifyIdToken env tok)|];
    intros [= <-]; eauto.
Qed.

(** A hold that is answered 200 went through every check and wrote the
    booking and the slot. *)
Lemma hold_POST_ok_inv (env : Env) (req : Hold.Request) (db db' : Db)
    (r : option string) :
  Hold.POST env req db = (Ok r, db') ->
  exists sid vid uid s,
    let expiry := now_stamp env + default 5 (Hold.holdDurationMinutes req) * 60 * 1000 in
    Hold.slotId req = Some sid /\ sid ≠ ""
    /\ Hold.venueId req = Some vid /\ vid ≠ ""
    /\ authenticate env (Hold.authorization req) = inr uid
    /\ slots db !! sid = Some s /\ Hold.check env s = None
    /\ fromMillis expiry = Some expiry
    /\ r = Some (newBookingId env)
    /\ db' = mkDb (<[sid := Hold.slot_patch env uid expiry s]> (slots db))
                  (<[newBookingId env := Hold.bookingData env uid sid vid expiry]>
                     (bookings db))
                  (venues db) (users db).
Proof.
  unfold Hold.POST.
  destruct (isAdminInitialized env); simpl; [| discriminate].
  destruct (JS.truthy (Hold.slotId req)) eqn:Hs; simpl; [| discriminate].
  destruct (JS.truthy (Hold.venueId req)) eqn:Hv; simpl; [| discriminate].
  apply truthy_inv in Hs as (sid & Hs & Hsne), Hv as (vid & Hv & Hvne).
  rewrite Hs, Hv. simpl.
  destruct (authenticate env _) as [resp|uid] eqn:Hauth.
  { apply authenticate_error in Hauth as (msg & ->). discriminate. }
  unfold runTransaction, Hold.transaction.
  destruct (slots db !! sid) as [s|] eqn:Hlk; [| discriminate].
  destruct (Hold.check env s) as [[st msg]|] eqn:Hc; [discriminate|].
  destruct (fromMillis _) as [t|] eqn:Hf; [| discriminate].
  pose proof (fromMillis_Some _ _ Hf) as ->.
  simpl. rewrite Hlk. intros [= <- <-].
  exists sid, vid, uid, s. simpl. repeat split; try assumption; reflexivity.
Qed.

(** C10: a hold request without [holdDurationMinutes] that is accepted
    holds the slot for exactly five minutes: the slot's [holdExpiresAt]
    and the pending booking's [bookingExpiresAt] are both the current
    instant plus 300000 ms. *)
Theorem hold_default_duration (env : Env) (req : Hold.Request) (db db' : Db)
    (bookingId : string) :
  Hold.holdDurationMinutes req = None ->
  Hold.POST env req db = (Ok (Some bookingId), db') ->
  exists sid s b,
    Hold.slotId req = Some sid
    /\ slots db' !! sid = Some s
    /\ slot_status s = Some "HELD"
    /\ slot_bookingId s = Some bookingId
    /\ slot_holdExpiresAt s = Some (now_stamp env + 5 * 60 * 1000)
    /\ bookings db' !! bookingId = Some b
    /\ booking_status b = Some "PENDING_PAYMENT"
    /\ booking_bookingExpiresAt b = Some (now_stamp env + 5 * 60 * 1000).
Proof.
  intros Hnone Hok.
  apply hold_POST_ok_inv in Hok
    as (sid & vid & uid & s & Hs & _ & _ & _ & _ & _ & _ & _ & [= ->] & ->).
  rewrite Hnone. simpl.
  eexists sid, _, _. rewrite !lookup_insert_eq.
  repeat split; try reflexivity; assumption.
Qed.

(** The five-minute default at work on an available slot. *)
Lemma hold_default_duration_witness :
  exists s,
    slots (Hold.POST (Demo.env "bk-1" Demo.t0)
             (Demo.hold_request "token-asha" None)
             (Demo.world (Demo.slot "AVAILABLE") ∅)).2 !! Demo.slot_key = Some s
    /\ slot_holdExpiresAt s = Some (Demo.t0 + 300000).
Proof.
  destruct (hold_default_duration (Demo.env "bk-1" Demo.t0)
              (Demo.hold_request "token-asha" None)
              (Demo.world (Demo.slot "AVAILABLE") ∅)
              (Hold.POST (Demo.env "bk-1" Demo.t0)
                 (Demo.hold_request "token-asha" None)
                 (Demo.world (Demo.slot "AVAILABLE") ∅)).2
              "bk-1")
    as (sid & s & b & Hsid & Hs & _ & _ & He & _).
  - reflexivity.
  - vm_compute. reflexivity.
  - injection Hsid as <-. exists s. split; [exact Hs | exact He].
Defined.

(** The hold route on the demo store: an available slot is held for ten
    minutes by the caller. *)
Lemma hold_spec_witness :
  exists db' s',
    Hold.POST (Demo.env "bk-1" Demo.t0)
      (Demo.hold_request "token-asha" (Some 10))
      (Demo.world (Demo.slot "AVAILABLE") ∅) = (Ok (Some "bk-1"), db')
    /\ slots db' !! Demo.slot_key = Some s'
    /\ slot_heldBy s' = Some "asha"
    /\ slot_holdExpiresAt s' = Some (Demo.t0 + 600000).
Proof.
  destruct (hold_spec (Demo.env "bk-1" Demo.t0)
              (Demo.hold_request "token-asha" (Some 10))
              (Demo.world (Demo.slot "AVAILABLE") ∅)
              Demo.slot_key "arena" "asha") as (_ & _ & H).
  - reflexivity.
  - reflexivity.
  - discriminate.
  - reflexivity.
  - discriminate.
  - reflexivity.
  - reflexivity.
  - destruct (H (Demo.slot "AVAILABLE")) as (db' & s' & b & H1 & H2 & _ & H4 & H5 & _).
    + reflexivity.
    + reflexivity.
    + exists db', s'. repeat split; assumption.
Defined.

(** A hold whose expiry is in the past does not stop the hold route: a
    hold request of any user, another user than the holder included, is
    accepted on it and replaces the holder, the expiry and the booking
    id on the slot.  The booking records already there, the pending one
    of the expired hold among them, stay as they are. *)
Theorem expired_hold_is_taken_over (env : Env) (req : Hold.Request) (db : Db)
    (sid vid uid : string) (s : SlotDoc) (expires : Z) :
  isAdminInitialized env = true ->
  Hold.slotId req = Some sid -> sid ≠ "" ->
  Hold.venueId req = Some vid -> vid ≠ "" ->
  authenticate env (Hold.authorization req) = inr uid ->
  slots db !! sid = Some s ->
  slot_status s = Some "HELD" ->
  slot_holdExpiresAt s = Some expires ->
  expires <= now_check env ->
  let expiry := now_stamp env + default 5 (Hold.holdDurationMinutes req) * 60 * 1000 in
  fromMillis expiry = Some expiry ->
  exists db' s',
    Hold.POST env req db = (Ok (Some (newBookingId env)), db')
    /\ slots db' !! sid = Some s'
    /\ slot_status s' = Some "HELD"
    /\ slot_heldBy s' = Some uid
    /\ slot_holdExpiresAt s' = Some expiry
    /\ slot_bookingId s' = Some (newBookingId env)
    /\ (forall k, k ≠ newBookingId env -> bookings db' !! k = bookings db !! k).
Proof.
  intros Hinit Hs Hsne Hv Hvne Hauth Hlk Hst Hexp Hpast expiry Hok.
  exists (held_db env db sid vid uid s expiry). eexists.
  split.
  - apply hold_commits; try assumption.
    unfold Hold.check. rewrite Hst, Hexp. simpl.
    destruct (Z.gtb_spec expires (now_check env)); [lia | reflexivity].
  - unfold held_db. simpl. rewrite lookup_insert_eq.
    repeat split. intros k Hk. apply lookup_insert_ne. congruence.
Qed.

(** An expired hold of asha is taken over by bikram, and asha's pending
    booking record stays. *)
Lemma expired_hold_is_taken_over_witness :
  exists db' s',
    Hold.POST (Demo.env "bk-1" Demo.t0) (Demo.hold_request "token-bikram" None)
      (Demo.world (Demo.held_slot "asha" "bk-0" (Demo.t0 - 1))
         {[ "bk-0" := Demo.pending "asha" (Demo.t0 - 1) ]})
      = (Ok (Some "bk-1"), db')
    /\ slots db' !! Demo.slot_key = Some s'
    /\ slot_heldBy s' = Some "bikram"
    /\ bookings db' !! "bk-0" = Some (Demo.pending "asha" (Demo.t0 - 1)).
Proof.
  destruct (expired_hold_is_taken_over (Demo.env "bk-1" Demo.t0)
              (Demo.hold_request "token-bikram" None)
              (Demo.world (Demo.held_slot "asha" "bk-0" (Demo.t0 - 1))
                 {[ "bk-0" := Demo.pending "asha" (Demo.t0 - 1) ]})
              Demo.slot_key "arena" "bikram"
              (Demo.held_slot "asha" "bk-0" (Demo.t0 - 1)) (Demo.t0 - 1))
    as (db' & s' & H1 & H2 & _ & H4 & _ & _ & H7).
  - reflexivity.
  - reflexivity.
  - discriminate.
  - reflexivity.
  - discriminate.
  - reflexivity.
  - reflexivity.
  - reflexivity.
  - reflexivity.
  - vm_compute. discriminate.
  - reflexivity.
  - exists db', s'. split; [exact H1|]. split; [exact H2|]. split; [exact H4|].
    rewrite (H7 "bk-0" ltac:(discriminate)). reflexivity.
Defined.

(** *** Letter case *)








(** *** The book route *)

Lemma book_POST_authenticated (env : Env) (req : Book.Request) (db : Db)
    (sid vid uid : string) :
  isAdminInitialized env = true ->
  Book.slotId req = Some sid -> sid ≠ "" ->
  Book.venueId req = Some vid -> vid ≠ "" ->
  authenticate env (Book.authorization req) = inr uid ->
  Book.POST env req db =
    let (result, db') := runTransaction (Book.transaction env uid sid vid) db in
    (Book.respond result, db').
Proof.
  intros Hinit Hs Hsne Hv Hvne Hauth. unfold Book.POST.
  rewrite Hinit, Hs, Hv, !truthy_Some, Hauth by assumption. reflexivity.
Qed.

Lemma book_commits (env : Env) (req : Book.Request) (db : Db)
    (sid vid uid : string) (s : SlotDoc) :
  isAdminInitialized env = true ->
  Book.slotId req = Some sid -> sid ≠ "" ->
  Book.venueId req = Some vid -> vid ≠ "" ->
  authenticate env (Book.authorization req) = inr uid ->
  slots db !! sid = Some s ->
  book_refuses s = false ->
  Book.POST env req db = (Ok (Some (newBookingId env)), booked_db env db sid vid uid s).
Proof.
  intros Hinit Hs Hsne Hv Hvne Hauth Hlk Hfree.
  rewrite (book_POST_authenticated env req db sid vid uid) by assumption.
  unfold runTransaction, Book.transaction. rewrite Hlk.
  unfold book_refuses in Hfree. rewrite Hfree. simpl. rewrite Hlk. reflexivity.
Qed.

Lemma book_conflicts (env : Env) (req : Book.Request) (db : Db)
    (sid vid uid : string) (s : SlotDoc) :
  isAdminInitialized env = true ->
  Book.slotId req = Some sid -> sid ≠ "" ->
  Book.venueId req = Some vid -> vid ≠ "" ->
  authenticate env (Book.authorization req) = inr uid ->
  slots db !! sid = Some s ->
  book_refuses s = true ->
  Book.POST env req db = (Error 409 "Slot is not available", db).
Proof.
  intros Hinit Hs Hsne Hv Hvne Hauth Hlk Hbusy.
  rewrite (book_POST_authenticated env req db sid vid uid) by assumption.
  unfold runTransaction, Book.transaction. rewrite Hlk.
  unfold book_refuses in Hbusy. rewrite Hbusy. reflexivity.
Qed.

(** A book that is answered 200 found the slot with an available stored
    status and wrote the booking and the slot. *)
Lemma book_POST_ok_inv (env : Env) (req : Book.Request) (db db' : Db)
    (r : option string) :
  Book.POST env req db = (Ok r, db') ->
  exists sid vid uid s,
    Book.slotId req = Some sid /\ sid ≠ ""
    /\ Book.venueId req = Some vid /\ vid ≠ ""
    /\ authenticate env (Book.authorization req) = inr uid
    /\ slots db !! sid = Some s /\ book_refuses s = false
    /\ r = Some (newBookingId env)
    /\ db' = booked_db env db sid vid uid s.
Proof.
  unfold Book.POST.
  destruct (isAdminInitialized env); simpl; [| discriminate].
  destruct (JS.truthy (Book.venueId req)) eqn:Hv; simpl; [| discriminate].
  destruct (JS.truthy (Book.slotId req)) eqn:Hs; simpl; [| discriminate].
  apply truthy_inv in Hs as (sid & Hs & Hsne), Hv as (vid & Hv & Hvne).
  rewrite Hs, Hv. simpl.
  destruct (authenticate env _) as [resp|uid] eqn:Hauth.
  { apply authenticate_error in Hauth as (msg & ->). discriminate. }
  unfold runTransaction, Book.transaction.
  destruct (slots db !! sid) as [s|] eqn:Hlk; [| discriminate].
  destruct (negb _ && negb _) eqn:Hbusy; [discriminate|].
  simpl. rewrite Hlk. intros [= <- <-].
  exists sid, vid, uid, s. repeat split; try assumption; reflexivity.
Qed.





(** Asha's hold on the available 14:00 slot is accepted with booking
    bk-1; her book request a second later is answered 409 and the slot
    stays HELD under bk-1. *)
Lemma hold_then_book_conflict :
  let db0 := Demo.world (Demo.slot "AVAILABLE") ∅ in
  let held := Hold.POST (Demo.env "bk-1" Demo.t0) (Demo.hold_request "token-asha" None) db0 in
  let booked := Book.POST (Demo.env "bk-2" (Demo.t0 + 1000))
                  (Demo.book_request "token-asha") held.2 in
  held.1 = Ok (Some "bk-1")
  /\ booked.1 = Error 409 "Slot is not available"
  /\ booked.2 = held.2
  /\ (slots booked.2 !! Demo.slot_key) ≫= slot_status = Some "HELD"
  /\ (slots booked.2 !! Demo.slot_key) ≫= slot_bookingId = Some "bk-1".
Proof. vm_compute. repeat split. Qed.



(** *** The manager routes *)

Lemma reserve_POST_allowed (env : Env) (req : Reserve.Request) (db : Db)
    (sid vid uid : string) :
  isAdminInitialized env = true ->
  Reserve.slotId req = Some sid -> sid ≠ "" ->
  Reserve.venueId req = Some vid -> vid ≠ "" ->
  JS.truthy (Reserve.customerName req) = true ->
  JS.truthy (Reserve.customerPhone req) = true ->
  authenticate env (Reserve.authorization req) = inr uid ->
  Reserve.POST env req db =
    if callerIsManagerOrAdmin db uid
    then
      let (result, db') := runTransaction (Reserve.transaction env req sid vid) db in
      (respond result, db')
    else (Error 403 "Forbidden", db).
Proof.
  intros Hinit Hs Hsne Hv Hvne Hn Hp Hauth. unfold Reserve.POST.
  rewrite Hinit, Hs, Hv, !truthy_Some, Hn, Hp, Hauth by assumption. simpl.
  destruct (callerIsManagerOrAdmin db uid); reflexivity.
Qed.

Lemma unbook_POST_allowed (env : Env) (req : Unbook.Request) (db : Db)
    (sid bid uid : string) :
  isAdminInitialized env = true ->
  Unbook.slotId req = Some sid -> sid ≠ "" ->
  Unbook.bookingId req = Some bid -> bid ≠ "" ->
  JS.truthy (Unbook.venueId req) = true ->
  authenticate env (Unbook.authorization req) = inr uid ->
  Unbook.POST env req db =
    if callerIsManagerOrAdmin db uid
    then
      let (result, db') := runTransaction (Unbook.transaction env sid bid) db in
      (Unbook.respond result, db')
    else (Error 403 "Forbidden", db).
Proof.
  intros Hinit Hs Hsne Hb Hbne Hv Hauth. unfold Unbook.POST.
  rewrite Hinit, Hs, Hb, !truthy_Some, Hv, Hauth by assumption. simpl.
  destruct (callerIsManagerOrAdmin db uid); reflexivity.
Qed.

Lemma generate_POST_allowed (env : Env) (req : Generate.Request) (db : Db)
    (uid : string) :
  isAdminInitialized env = true ->
  JS.truthy (Generate.venueId req) = true ->
  JS.truthy (Generate.startTime req) = true ->
  JS.truthy (Generate.endTime req) = true ->
  authenticate env (Generate.authorization req) = inr uid ->
  callerIsManagerOrAdmin db uid = false ->
  Generate.POST env req db = (Error 403 "Forbidden", db).
Proof.
  intros Hinit Hv Hs He Hauth Hrole. unfold Generate.POST.
  rewrite Hinit, Hv, Hs, He, Hauth, Hrole. reflexivity.
Qed.

(** The role test reads the role of the caller's profile and nothing
    else. *)
Lemma callerIsManagerOrAdmin_iff (db : Db) (uid : string) :
  callerIsManagerOrAdmin db uid = true <-> manager_or_admin db uid.
Proof.
  unfold callerIsManagerOrAdmin, manager_or_admin. split.
  - destruct (users db !! uid) as [doc|]; [| discriminate].
    destruct (user_role doc) as [r|] eqn:Hr; [| discriminate].
    intros H. exists doc. split; [reflexivity|].
    apply orb_true_iff in H as [H|H]; apply String.eqb_eq in H; subst; auto.
  - intros (doc & -> & [-> | ->]); reflexivity.
Qed.

(** The inner loop of the generate route stops by its own test: more
    fuel gives the same hours. *)
Lemma hours_loop_enough (fuel : nat) :
  forall (hour endHour step : Z) (more : nat),
    1 <= step ->
    (Z.to_nat (endHour - hour) <= fuel)%nat ->
    (fuel <= more)%nat ->
    Generate.hours_loop more hour endHour step
    = Generate.hours_loop fuel hour endHour step.
Proof.
  induction fuel as [|fuel IH]; intros hour endHour step more Hstep Hfuel Hmore.
  - destruct more as [|more]; [reflexivity|]. simpl.
    destruct (Z.ltb_spec hour endHour); [lia | reflexivity].
  - destruct more as [|more]; [lia|]. simpl.
    destruct (Z.ltb_spec hour endHour); [| reflexivity].
    f_equal. apply IH; lia.
Qed.

(** The reserve route refuses a slot only when its stored status reads
    BOOKED: every other slot document is reserved for a manager. *)
Lemma reserve_accepts_unless_booked (env : Env) (req : Reserve.Request) (db : Db)
    (sid vid uid : string) (s : SlotDoc) :
  isAdminInitialized env = true ->
  Reserve.slotId req = Some sid -> sid ≠ "" ->
  Reserve.venueId req = Some vid -> vid ≠ "" ->
  JS.truthy (Reserve.customerName req) = true ->
  JS.truthy (Reserve.customerPhone req) = true ->
  authenticate env (Reserve.authorization req) = inr uid ->
  callerIsManagerOrAdmin db uid = true ->
  slots db !! sid = Some s ->
  JS.toUpperCase (JS.or_else (slot_status s) "") ≠ "BOOKED" ->
  Reserve.storable env s = true ->
  Reserve.POST env req db =
    (Ok (Some (newBookingId env)),
     mkDb (<[sid := Reserve.slot_patch env s]> (slots db))
          (<[newBookingId env := Reserve.bookingData env req sid vid s]> (bookings db))
          (venues db) (users db)).
Proof.
  intros Hinit Hs Hsne Hv Hvne Hn Hp Hauth Hrole Hlk Hst Hstore.
  rewrite (reserve_POST_allowed env req db sid vid uid) by assumption.
  rewrite Hrole. unfold runTransaction, Reserve.transaction. rewrite Hlk.
  apply String.eqb_neq in Hst. rewrite Hst, Hstore. simpl. rewrite Hlk.
  reflexivity.
Qed.

(** C6, at the failing input: asha holds the 14:00 slot, her hold has
    almost five minutes to run and her pending booking bk-1 is on record;
    the manager's reserve request is accepted all the same.  The slot
    turns RESERVED under the new booking bk-2, still carrying asha as
    holder, and both booking records stand. *)
Theorem reserve_over_running_hold :
  let s := Demo.held_slot "asha" "bk-1" (Demo.t0 + 300000) in
  let db := Demo.world s {[ "bk-1" := Demo.pending "asha" (Demo.t0 + 300000) ]} in
  let env := Demo.env "bk-2" (Demo.t0 + 1000) in
  let out := Reserve.POST env (Demo.reserve_request "token-mina" Demo.slot_key "arena") db in
  effective Demo.start (now_check env) s = Current (Held (Some "asha"))
  /\ out.1 = Ok (Some "bk-2")
  /\ (slots out.2 !! Demo.slot_key) ≫= slot_status = Some "RESERVED"
  /\ (slots out.2 !! Demo.slot_key) ≫= slot_bookingId = Some "bk-2"
  /\ (slots out.2 !! Demo.slot_key) ≫= slot_heldBy = Some "asha"
  /\ (bookings out.2 !! "bk-1") ≫= booking_status = Some "PENDING_PAYMENT"
  /\ (bookings out.2 !! "bk-2") ≫= booking_bookingType = Some "physical".
Proof. vm_compute. repeat split. Qed.




Lemma not_manager_or_admin (db : Db) (uid : string) :
  ~ manager_or_admin db uid -> callerIsManagerOrAdmin db uid = false.
Proof.
  intros Hno. destruct (callerIsManagerOrAdmin db uid) eqn:E; [| reflexivity].
  apply callerIsManagerOrAdmin_iff in E. contradiction.
Qed.


(** C9, at the failing input: nabin is the manager of the venue
    riverside, the venue arena is managed by mina, and nabin's reserve
    request on a slot of arena is accepted: the route tests the role of
    the caller and not the venue the caller manages. *)
Lemma reserve_by_manager_of_other_venue :
  let db := Demo.world (Demo.slot "AVAILABLE") ∅ in
  let out := Reserve.POST (Demo.env "bk-9" Demo.t0)
               (Demo.reserve_request "token-nabin" Demo.slot_key "arena") db in
  (users db !! "nabin") ≫= user_groundId = Some "riverside"
  /\ (venues db !! "arena") ≫= venue_managedBy = Some "mina"
  /\ (slots db !! Demo.slot_key) ≫= slot_groundId = Some "arena"
  /\ out.1 = Ok (Some "bk-9")
  /\ (slots out.2 !! Demo.slot_key) ≫= slot_status = Some "RESERVED".
Proof. vm_compute. repeat split. Qed.

(** The reserve, unbook and generate routes refuse callers without the
    role: they test the role of the caller's profile.  A well-formed
    request of an authenticated caller whose profile is missing or has
    another role than manager or admin is answered 403 and the store is
    left as it was; and whenever one of the three routes answers 200, the
    caller is authenticated with the role manager or admin. *)
Theorem manager_routes_need_role (env : Env) (db : Db) :
  isAdminInitialized env = true ->
  (forall (req : Reserve.Request) (uid : string),
      JS.truthy (Reserve.slotId req) = true ->
      JS.truthy (Reserve.venueId req) = true ->
      JS.truthy (Reserve.customerName req) = true ->
      JS.truthy (Reserve.customerPhone req) = true ->
      authenticate env (Reserve.authorization req) = inr uid ->
      ~ manager_or_admin db uid ->
      Reserve.POST env req db = (Error 403 "Forbidden", db))
  /\ (forall (req : Unbook.Request) (uid : string),
        JS.truthy (Unbook.slotId req) = true ->
        JS.truthy (Unbook.bookingId req) = true ->
        JS.truthy (Unbook.venueId req) = true ->
        authenticate env (Unbook.authorization req) = inr uid ->
        ~ manager_or_admin db uid ->
        Unbook.POST env req db = (Error 403 "Forbidden", db))
  /\ (forall (req : Generate.Request) (uid : string),
        JS.truthy (Generate.venueId req) = true ->
        JS.truthy (Generate.startTime req) = true ->
        JS.truthy (Generate.endTime req) = true ->
        authenticate env (Generate.authorization req) = inr uid ->
        ~ manager_or_admin db uid ->
        Generate.POST env req db = (Error 403 "Forbidden", db))
  /\ (forall (req : Reserve.Request) (r : option string) (db' : Db),
        Reserve.POST env req db = (Ok r, db') ->
        exists uid, authenticate env (Reserve.authorization req) = inr uid
                    /\ manager_or_admin db uid)
  /\ (forall (req : Unbook.Request) (r : option string) (db' : Db),
        Unbook.POST env req db = (Ok r, db') ->
        exists uid, authenticate env (Unbook.authorization req) = inr uid
                    /\ manager_or_admin db uid)
  /\ (forall (req : Generate.Request) (r : option string) (db' : Db),
        Generate.POST env req db = (Ok r, db') ->
        exists uid, authenticate env (Generate.authorization req) = inr uid
                    /\ manager_or_admin db uid).
Proof.
  intros Hinit. repeat split.
  - intros req uid Hs Hv Hn Hp Hauth Hno. unfold Reserve.POST.
    rewrite Hinit, Hs, Hv, Hn, Hp, Hauth, (not_manager_or_admin db uid Hno).
    reflexivity.
  - intros req uid Hs Hb Hv Hauth Hno. unfold Unbook.POST.
    rewrite Hinit, Hs, Hb, Hv, Hauth, (not_manager_or_admin db uid Hno).
    reflexivity.
  - intros req uid Hv Hs He Hauth Hno.
    apply generate_POST_allowed with (uid := uid); try assumption.
    apply not_manager_or_admin; assumption.
  - intros req r db'. unfold Reserve.POST. rewrite Hinit. simpl.
    destruct (negb _ || negb _ || negb _ || negb _); [discriminate|].
    destruct (authenticate env _) as [resp|uid] eqn:Hauth.
    { apply authenticate_error in Hauth as (msg & ->). discriminate. }
    destruct (callerIsManagerOrAdmin db uid) eqn:Hrole; simpl; [| discriminate].
    intros _. exists uid. split; [reflexivity|].
    apply callerIsManagerOrAdmin_iff; assumption.
  - intros req r db'. unfold Unbook.POST. rewrite Hinit. simpl.
    destruct (negb _ || negb _ || negb _); [discriminate|].
    destruct (authenticate env _) as [resp|uid] eqn:Hauth.
    { apply authenticate_error in Hauth as (msg & ->). discriminate. }
    destruct (callerIsManagerOrAdmin db uid) eqn:Hrole; simpl; [| discriminate].
    intros _. exists uid. split; [reflexivity|].
    apply callerIsManagerOrAdmin_iff; assumption.
  - intros req r db'. unfold Generate.POST. rewrite Hinit. simpl.
    destruct (negb _ || negb _ || negb _); [discriminate|].
    destruct (authenticate env _) as [resp|uid] eqn:Hauth.
    { apply authenticate_error in Hauth as (msg & ->). discriminate. }
    destruct (callerIsManagerOrAdmin db uid) eqn:Hrole; simpl; [| discriminate].
    intros _. exists uid. split; [reflexivity|].
    apply callerIsManagerOrAdmin_iff; assumption.
Qed.

(** A customer's reserve request is answered 403 on the demo store. *)
Lemma manager_routes_need_role_witness :
  Reserve.POST (Demo.env "bk-9" Demo.t0)
    (Demo.reserve_request "token-asha" Demo.slot_key "arena")
    (Demo.world (Demo.slot "AVAILABLE") ∅)
  = (Error 403 "Forbidden", Demo.world (Demo.slot "AVAILABLE") ∅).
Proof.
  destruct (manager_routes_need_role (Demo.env "bk-9" Demo.t0)
              (Demo.world (Demo.slot "AVAILABLE") ∅)) as (H & _).
  - reflexivity.
  - apply (H _ "asha"); try reflexivity.
    intros (doc & Hdoc & Hrole). vm_compute in Hdoc.
    injection Hdoc as <-. destruct Hrole as [Hr | Hr]; discriminate Hr.
Defined.

(** *** Holds served one after the other *)

(** After an accepted hold, a further hold request on the slot that is
    served before the hold expires is answered 409 and writes nothing. *)
Lemma hold_on_running_hold (env env' : Env) (req req' : Hold.Request)
    (db db1 : Db) (bookingId sid : string) :
  Hold.POST env req db = (Ok (Some bookingId), db1) ->
  Hold.slotId req = Some sid ->
  contends (now_stamp env + default 5 (Hold.holdDurationMinutes req) * 60 * 1000)
    sid (env', req') ->
  Hold.POST env' req' db1 = (Error 409 "Slot currently held", db1).
Proof.
  intros Hok Hsid (Hinit & Hsid' & Hvid & (uid & Hauth) & Hnow). simpl in *.
  apply hold_POST_ok_inv in Hok
    as (sid0 & vid0 & uid0 & s & Hs0 & Hsne & _ & _ & _ & Hlk & _ & _ & _ & ->).
  assert (sid0 = sid) as -> by congruence.
  apply truthy_inv in Hvid as (vid & Hvid & Hvne).
  rewrite (hold_POST_authenticated env' req' _ sid vid uid) by assumption.
  unfold runTransaction, Hold.transaction. simpl.
  rewrite lookup_insert_eq. unfold Hold.check. simpl.
  destruct (Z.gtb_spec (now_stamp env + default 5 (Hold.holdDurationMinutes req) * 60 * 1000)
              (now_check env')); [reflexivity | lia].
Qed.

(** Mutual exclusion of holds in a serial run: when a hold is accepted and
    every later request on the slot is served before that hold expires,
    each of the later requests is answered 409 and the store stays as the
    accepted hold left it. *)
Theorem serial_holds_one_winner (env : Env) (req : Hold.Request) (db db1 : Db)
    (bookingId sid : string) (rest : list (Env * Hold.Request)) :
  Hold.POST env req db = (Ok (Some bookingId), db1) ->
  Hold.slotId req = Some sid ->
  Forall (contends (now_stamp env + default 5 (Hold.holdDurationMinutes req) * 60 * 1000)
            sid) rest ->
  run_holds ((env, req) :: rest) db
  = (Ok (Some bookingId) :: map (fun _ => Error 409 "Slot currently held") rest, db1).
Proof.
  intros Hok Hsid Hrest. simpl. rewrite Hok.
  assert (Hrun : run_holds rest db1
                 = (map (fun _ => Error 409 "Slot currently held") rest, db1)).
  { induction Hrest as [|[env' req'] rest Hc _ IH]; [reflexivity|].
    simpl. rewrite (hold_on_running_hold env env' req req' db db1 bookingId sid)
      by assumption.
    rewrite IH. reflexivity. }
  rewrite Hrun. reflexivity.
Qed.

(** Three hold requests on the available demo slot, served within two
    seconds: the first wins. *)
Lemma serial_holds_one_winner_witness :
  (run_holds [ (Demo.env "bk-1" Demo.t0, Demo.hold_request "token-asha" None);
               (Demo.env "bk-2" (Demo.t0 + 1000), Demo.hold_request "token-bikram" None);
               (Demo.env "bk-3" (Demo.t0 + 2000), Demo.hold_request "token-asha" (Some 1)) ]
     (Demo.world (Demo.slot "AVAILABLE") ∅)).1
  = [ Ok (Some "bk-1"); Error 409 "Slot currently held"; Error 409 "Slot currently held" ].
Proof.
  rewrite (serial_holds_one_winner (Demo.env "bk-1" Demo.t0)
             (Demo.hold_request "token-asha" None)
             (Demo.world (Demo.slot "AVAILABLE") ∅)
             (Hold.POST (Demo.env "bk-1" Demo.t0) (Demo.hold_request "token-asha" None)
                (Demo.world (Demo.slot "AVAILABLE") ∅)).2
             "bk-1" Demo.slot_key).
  - reflexivity.
  - vm_compute. reflexivity.
  - reflexivity.
  - repeat constructor; try (eexists; reflexivity).
Defined.

(** *** What the generate route leaves alone *)

Lemma schedule_commit_frame (ws : list Write) :
  Forall schedule_write ws ->
  forall db db', commit ws db = Some db' ->
                 bookings db' = bookings db /\ users db' = users db.
Proof.
  induction 1 as [|w ws Hw _ IH]; intros db db'; simpl.
  - intros [= <-]. split; reflexivity.
  - destruct (apply_write w db) as [db1|] eqn:Hap; [| discriminate].
    intros Hc. apply IH in Hc as [-> ->].
    destruct w; simpl in Hw; try contradiction; simpl in Hap.
    + destruct (slots db !! id); injection Hap as <-; split; reflexivity.
    + destruct (venues db !! id); [| discriminate].
      injection Hap as <-. split; reflexivity.
Qed.

Lemma batch_schedule_writes (env : Env) (vid st en : string) (duration : Z)
    (days : nat) :
  Forall schedule_write (Generate.batch env vid st en duration days).
Proof.
  unfold Generate.batch. apply Forall_app. split.
  - apply Forall_concat, Forall_map, Forall_forall. intros date _.
    apply Forall_map, Forall_forall. intros hour _. exact I.
  - repeat constructor.
Qed.

(** The generate route never touches a booking record or a user
    profile, whatever it answers. *)
Theorem generate_keeps_bookings (env : Env) (req : Generate.Request) (db : Db) :
  bookings (Generate.POST env req db).2 = bookings db
  /\ users (Generate.POST env req db).2 = users db.
Proof.
  unfold Generate.POST.
  destruct (negb (isAdminInitialized env)); [split; reflexivity|].
  destruct (negb _ || negb _ || negb _); [split; reflexivity|].
  destruct (authenticate env _) as [resp|uid]; [split; reflexivity|].
  destruct (negb (callerIsManagerOrAdmin db uid)); [split; reflexivity|].
  destruct ((_ <? 0) || _); [split; reflexivity|].
  destruct (commit _ db) as [db'|] eqn:Hc; [| split; reflexivity].
  simpl. eapply schedule_commit_frame; [| exact Hc].
  apply batch_schedule_writes.
Qed.

(** A second reservation over a reserved slot is accepted too. *)
Lemma reserve_accepts_unless_booked_witness :
  (Reserve.POST (Demo.env "bk-2" Demo.t0)
     (Demo.reserve_request "token-mina" Demo.slot_key "arena")
     (Demo.world (Demo.taken_slot "RESERVED" "bk-1") {[ "bk-1" := Demo.physical ]})).1
  = Ok (Some "bk-2").
Proof.
  rewrite (reserve_accepts_unless_booked (Demo.env "bk-2" Demo.t0)
             (Demo.reserve_request "token-mina" Demo.slot_key "arena")
             (Demo.world (Demo.taken_slot "RESERVED" "bk-1") {[ "bk-1" := Demo.physical ]})
             Demo.slot_key "arena" "mina" (Demo.taken_slot "RESERVED" "bk-1"));
    try reflexivity; try discriminate.
Defined.

(** *** The window of the generate route *)

Lemma resetting_keeps (w : Write) (db db' : Db) (id : string) :
  resetting w -> apply_write w db = Some db' ->
  stored_available db id -> stored_available db' id.
Proof.
  intros Hw Hap (s & Hlk & Hst). destruct w; simpl in Hw; try contradiction.
  - destruct Hw as [Hfresh Hpatch]. simpl in Hap.
    destruct (decide (id0 = id)) as [-> | Hne].
    + rewrite Hlk in Hap. injection Hap as <-.
      exists (patch s). simpl. rewrite lookup_insert_eq. auto.
    + destruct (slots db !! id0); injection Hap as <-;
        exists s; simpl; rewrite lookup_insert_ne by assumption; auto.
  - simpl in Hap. destruct (venues db !! id0); [| discriminate].
    injection Hap as <-. exists s. auto.
Qed.

Lemma resetting_sets (id : string) (fresh : SlotDoc) (patch : SlotDoc -> SlotDoc)
    (db db' : Db) :
  resetting (MergeSlot id fresh patch) ->
  apply_write (MergeSlot id fresh patch) db = Some db' ->
  stored_available db' id.
Proof.
  intros [Hfresh Hpatch]. simpl.
  destruct (slots db !! id) as [s|]; intros [= <-].
  - exists (patch s). simpl. rewrite lookup_insert_eq. auto.
  - exists fresh. simpl. rewrite lookup_insert_eq. auto.
Qed.

Lemma commit_resets (ws : list Write) :
  Forall resetting ws ->
  forall (db db' : Db) (id : string),
    commit ws db = Some db' ->
    stored_available db id
    \/ (exists fresh patch, In (MergeSlot id fresh patch) ws) ->
    stored_available db' id.
Proof.
  induction 1 as [|w ws Hw _ IH]; intros db db' id; simpl.
  - intros [= <-] [Hav | (fresh & patch & [])]. exact Hav.
  - destruct (apply_write w db) as [db1|] eqn:Hap; [| discriminate].
    intros Hc Hcase. apply (IH db1 db' id Hc).
    destruct Hcase as [Hav | (fresh & patch & [-> | Hin])].
    + left. eapply resetting_keeps; eassumption.
    + left. eapply resetting_sets; eassumption.
    + right. eauto.
Qed.

Lemma commit_other_slots (ws : list Write) (id : string) :
  Forall (fun w => slot_target w ≠ Some id) ws ->
  forall db db', commit ws db = Some db' -> slots db' !! id = slots db !! id.
Proof.
  induction 1 as [|w ws Hw _ IH]; intros db db'; simpl.
  - intros [= <-]. reflexivity.
  - destruct (apply_write w db) as [db1|] eqn:Hap; [| discriminate].
    intros Hc. rewrite (IH _ _ Hc).
    destruct w; simpl in Hap, Hw.
    + injection Hap as <-. reflexivity.
    + injection Hap as <-. reflexivity.
    + destruct (slots db !! id0); [| discriminate]. injection Hap as <-.
      simpl. apply lookup_insert_ne. congruence.
    + destruct (slots db !! id0); injection Hap as <-;
        simpl; apply lookup_insert_ne; congruence.
    + destruct (venues db !! id0); [| discriminate]. injection Hap as <-.
      reflexivity.
Qed.

Lemma batch_resetting (env : Env) (vid st en : string) (duration : Z) (days : nat) :
  Forall resetting (Generate.batch env vid st en duration days).
Proof.
  unfold Generate.batch. apply Forall_app. split.
  - apply Forall_concat, Forall_map, Forall_forall. intros date _.
    apply Forall_map, Forall_forall. intros hour _. simpl. auto.
  - repeat constructor.
Qed.

Lemma batch_window (env : Env) (vid st en : string) (duration : Z) (days i : nat)
    (hour : Z) :
  (i < days)%nat ->
  In hour (Generate.hours (JS.parseInt (JS.before_first ":" st))
             (JS.parseInt (JS.before_first ":" en)) duration) ->
  In (Generate.slot_write vid (dateString env i) hour)
     (Generate.batch env vid st en duration days).
Proof.
  intros Hi Hh. unfold Generate.batch. apply in_or_app. left.
  apply in_concat.
  exists (map (Generate.slot_write vid (dateString env i))
            (Generate.hours (JS.parseInt (JS.before_first ":" st))
               (JS.parseInt (JS.before_first ":" en)) duration)).
  split.
  - apply in_map_iff. exists (dateString env i). split; [reflexivity|].
    apply in_map, in_seq. lia.
  - apply in_map. exact Hh.
Qed.

(** An accepted generate request went through every check and committed
    its batch. *)
Lemma generate_POST_ok_inv (env : Env) (req : Generate.Request) (db db' : Db)
    (r : option string) :
  Generate.POST env req db = (Ok r, db') ->
  exists vid st en,
    Generate.venueId req = Some vid /\ Generate.startTime req = Some st
    /\ Generate.endTime req = Some en
    /\ 0 <= default 7 (Generate.days req)
    /\ commit (Generate.batch env vid st en (default 60 (Generate.slotDuration req))
                 (Z.to_nat (default 7 (Generate.days req)))) db = Some db'.
Proof.
  unfold Generate.POST.
  destruct (isAdminInitialized env); simpl; [| discriminate].
  destruct (JS.truthy (Generate.venueId req)) eqn:Hv; simpl; [| discriminate].
  destruct (JS.truthy (Generate.startTime req)) eqn:Hs; simpl; [| discriminate].
  destruct (JS.truthy (Generate.endTime req)) eqn:He; simpl; [| discriminate].
  apply truthy_inv in Hv as (vid & Hv & _), Hs as (st & Hs & _), He as (en & He & _).
  rewrite Hv, Hs, He. simpl.
  destruct (authenticate env _) as [resp|uid] eqn:Hauth.
  { apply authenticate_error in Hauth as (msg & ->). discriminate. }
  destruct (callerIsManagerOrAdmin db uid); simpl; [| discriminate].
  destruct (Z.ltb_spec (default 7 (Generate.days req)) 0); simpl; [discriminate|].
  destruct (4294967295 <? _); [discriminate|].
  destruct (commit _ db) as [db1|] eqn:Hc; [| discriminate].
  intros [= <- <-]. exists vid, st, en. auto.
Qed.

(** An accepted generate request whose hours and duration are integers
    that a double holds exactly leaves every slot of its window (each
    requested day, each hour that the loop of the route visits), the ones
    that had a document before included, with the stored status
    AVAILABLE. *)
Theorem generate_resets_window (env : Env) (req : Generate.Request) (db db' : Db)
    (r : option string) (i : nat) (hour : Z) :
  Generate.POST env req db = (Ok r, db') ->
  safe_hours (default "" (Generate.startTime req)) (default "" (Generate.endTime req))
    (default 60 (Generate.slotDuration req)) = true ->
  Z.of_nat i < default 7 (Generate.days req) ->
  In hour (hours_double
             (JS.parseInt (JS.before_first ":" (default "" (Generate.startTime req))))
             (JS.parseInt (JS.before_first ":" (default "" (Generate.endTime req))))
             (default 60 (Generate.slotDuration req))) ->
  stored_available db'
    (Generate.getSlotId (default "" (Generate.venueId req)) (dateString env i)
       (JS.pad2 hour +:+ ":00")).
Proof.
  intros Hok Hsafe Hi Hh.
  rewrite (generate_hours_exact _ _ _ Hsafe) in Hh.
  apply generate_POST_ok_inv in Hok as (vid & st & en & Hv & Hs & He & Hd & Hc).
  rewrite Hv, Hs, He in *. simpl in *.
  eapply commit_resets; [apply batch_resetting | exact Hc |].
  right. eexists _, _.
  apply (batch_window env vid st en _ _ i hour); [lia | exact Hh].
Qed.

(** The booked 14:00 slot of the demo store after the manager's
    regeneration. *)
Lemma generate_resets_window_witness :
  stored_available
    (Generate.POST (Demo.env "" Demo.t0) (Demo.generate_request "token-mina" "arena")
       (Demo.world (Demo.taken_slot "booked" "bk-1") {[ "bk-1" := Demo.online "asha" ]})).2
    Demo.slot_key.
Proof.
  apply (generate_resets_window (Demo.env "" Demo.t0)
           (Demo.generate_request "token-mina" "arena")
           (Demo.world (Demo.taken_slot "booked" "bk-1") {[ "bk-1" := Demo.online "asha" ]})
           _ None 0%nat 14).
  - vm_compute. reflexivity.
  - vm_compute. reflexivity.
  - vm_compute. reflexivity.
  - vm_compute. left. reflexivity.
Defined.

(** The fuel of the inner loop is enough: the hours do not change with
    more of it. *)
Lemma hours_fuel_independent (s e duration : Z) (more : nat) :
  (Z.to_nat (e - s) <= more)%nat ->
  Generate.hours_loop more s e (Z.max 1 (duration / 60))
  = Generate.hours (Some s) (Some e) duration.
Proof.
  intros Hmore. unfold Generate.hours. apply hours_loop_enough; lia.
Qed.

(** *** The definitions at work *)

Example parseInt_examples :
  JS.parseInt "09" = Some 9 /\ JS.parseInt " 21x" = Some 21
  /\ JS.parseInt "-3" = Some (-3) /\ JS.parseInt "nine" = None
  /\ JS.parseInt "" = None.
Proof. repeat split. Qed.

Example pad2_examples :
  JS.pad2 9 = "09" /\ JS.pad2 14 = "14" /\ JS.pad2 0 = "00" /\ JS.pad2 (-3) = "-3".
Proof. vm_compute. repeat split. Qed.

Example bearer_examples :
  JS.bearer "Bearer abc" = Some "abc" /\ JS.bearer "Bearer " = Some ""
  /\ JS.bearer "bearer abc" = None /\ JS.bearer "" = None.
Proof. vm_compute. repeat split. Qed.

Example getSlotId_example :
  Generate.getSlotId "arena" "2025-12-01" "14:00" = Demo.slot_key.
Proof. vm_compute. reflexivity. Qed.

Example hours_examples :
  Generate.hours (Some 9) (Some 12) 60 = [9; 10; 11]
  /\ Generate.hours (Some 9) (Some 14) 120 = [9; 11; 13]
  /\ Generate.hours (Some 9) (Some 11) 30 = [9; 10]
  /\ Generate.hours None (Some 11) 60 = []
  /\ Generate.hours (Some 12) (Some 9) 60 = [].
Proof. vm_compute. repeat split. Qed.

(** [holdDurationMinutes] is taken as it comes: a hold of zero minutes is
    accepted and keeps nobody out, the next request a second later is
    accepted too. *)
Example zero_minute_hold :
  (run_holds [ (Demo.env "bk-1" Demo.t0, Demo.hold_request "token-asha" (Some 0));
               (Demo.env "bk-2" (Demo.t0 + 1000), Demo.hold_request "token-bikram" None) ]
     (Demo.world (Demo.slot "AVAILABLE") ∅)).1
  = [ Ok (Some "bk-1"); Ok (Some "bk-2") ].
Proof. vm_compute. reflexivity. Qed.

(** *** All or nothing *)

(** A hold request either leaves the store as it was or is accepted and
    writes the pending booking and the hold together: no answer leaves one
    of the two documents written without the other. *)
Theorem hold_all_or_nothing (env : Env) (req : Hold.Request) (db : Db) :
  (Hold.POST env req db).2 = db
  \/ exists sid vid uid s expiry,
       slots db !! sid = Some s
       /\ Hold.POST env req db
          = (Ok (Some (newBookingId env)), held_db env db sid vid uid s expiry).
Proof.
  destruct (Hold.POST env req db) as [resp db'] eqn:Hpost.
  destruct resp as [r | st msg].
  - right. apply hold_POST_ok_inv in Hpost
      as (sid & vid & uid & s & _ & _ & _ & _ & _ & Hlk & _ & _ & -> & ->).
    exists sid, vid, uid, s. eexists. split; [exact Hlk | reflexivity].
  - left. revert Hpost. unfold Hold.POST. simpl.
    destruct (negb (isAdminInitialized env)); [congruence|].
    destruct (negb _ || negb _); [congruence|].
    destruct (authenticate env _) as [resp|uid]; [congruence|].
    unfold runTransaction.
    destruct (Hold.transaction env uid _ _ _ db) as [[a ws]| |];
      [| congruence | congruence].
    destruct (commit ws db); [discriminate | congruence].
Qed.

(** * Further properties of the routes *)

(** ** Who a route writes for *)

Lemma reserve_POST_changes (env : Env) (req : Reserve.Request) (db : Db) :
  (Reserve.POST env req db).2 = db
  \/ exists r uid,
       (Reserve.POST env req db).1 = Ok r
       /\ authenticate env (Reserve.authorization req) = inr uid
       /\ manager_or_admin db uid.
Proof.
  unfold Reserve.POST.
  destruct (negb (isAdminInitialized env)); [left; reflexivity|].
  destruct (negb _ || negb _ || negb _ || negb _); [left; reflexivity|].
  destruct (authenticate env _) as [resp|uid] eqn:Hauth; [left; reflexivity|].
  destruct (callerIsManagerOrAdmin db uid) eqn:Hrole; simpl; [| left; reflexivity].
  apply callerIsManagerOrAdmin_iff in Hrole.
  unfold runTransaction.
  destruct (Reserve.transaction env req _ _ db) as [[a ws]| |];
    [| left; reflexivity | left; reflexivity].
  destruct (commit ws db); [| left; reflexivity].
  right. exists (Some a), uid. auto.
Qed.

Lemma unbook_POST_changes (env : Env) (req : Unbook.Request) (db : Db) :
  (Unbook.POST env req db).2 = db
  \/ exists r uid,
       (Unbook.POST env req db).1 = Ok r
       /\ authenticate env (Unbook.authorization req) = inr uid
       /\ manager_or_admin db uid.
Proof.
  unfold Unbook.POST.
  destruct (negb (isAdminInitialized env)); [left; reflexivity|].
  destruct (negb _ || negb _ || negb _); [left; reflexivity|].
  destruct (authenticate env _) as [resp|uid] eqn:Hauth; [left; reflexivity|].
  destruct (callerIsManagerOrAdmin db uid) eqn:Hrole; simpl; [| left; reflexivity].
  apply callerIsManagerOrAdmin_iff in Hrole.
  unfold runTransaction.
  destruct (Unbook.transaction env _ _ db) as [[a ws]| |];
    [| left; reflexivity | left; reflexivity].
  destruct (commit ws db); [| left; reflexivity].
  right. exists None, uid. auto.
Qed.

Lemma generate_POST_changes (env : Env) (req : Generate.Request) (db : Db) :
  (Generate.POST env req db).2 = db
  \/ exists r uid,
       (Generate.POST env req db).1 = Ok r
       /\ authenticate env (Generate.authorization req) = inr uid
       /\ manager_or_admin db uid.
Proof.
  unfold Generate.POST.
  destruct (negb (isAdminInitialized env)); [left; reflexivity|].
  destruct (negb _ || negb _ || negb _); [left; reflexivity|].
  destruct (authenticate env _) as [resp|uid] eqn:Hauth; [left; reflexivity|].
  destruct (callerIsManagerOrAdmin db uid) eqn:Hrole; simpl; [| left; reflexivity].
  apply callerIsManagerOrAdmin_iff in Hrole.
  destruct ((_ <? 0) || _); [left; reflexivity|].
  destruct (commit _ db); [| left; reflexivity].
  right. exists None, uid. auto.
Qed.

Lemma book_POST_changes (env : Env) (req : Book.Request) (db : Db) :
  (Book.POST env req db).2 = db
  \/ exists r uid,
       (Book.POST env req db).1 = Ok r
       /\ authenticate env (Book.authorization req) = inr uid.
Proof.
  unfold Book.POST.
  destruct (negb (isAdminInitialized env)); [left; reflexivity|].
  destruct (negb _ || negb _); [left; reflexivity|].
  destruct (authenticate env _) as [resp|uid] eqn:Hauth; [left; reflexivity|].
  unfold runTransaction.
  destruct (Book.transaction env uid _ _ db) as [[a ws]| |];
    [| left; reflexivity | left; reflexivity].
  destruct (commit ws db); [| left; reflexivity].
  right. exists (Some a), uid. auto.
Qed.

Lemma hold_POST_changes (env : Env) (req : Hold.Request) (db : Db) :
  (Hold.POST env req db).2 = db
  \/ exists r uid,
       (Hold.POST env req db).1 = Ok r
       /\ authenticate env (Hold.authorization req) = inr uid.
Proof.
  unfold Hold.POST.
  destruct (negb (isAdminInitialized env)); [left; reflexivity|].
  destruct (negb _ || negb _); [left; reflexivity|].
  destruct (authenticate env _) as [resp|uid] eqn:Hauth; [left; reflexivity|].
  unfold runTransaction.
  destruct (Hold.transaction env uid _ _ _ db) as [[a ws]| |];
    [| left; reflexivity | left; reflexivity].
  destruct (commit ws db); [| left; reflexivity].
  right. exists (Some a), uid. auto.
Qed.

(** No route writes on an error answer, and none writes for a caller
    whose token did not verify: whenever one of the five routes leaves the
    store different from what it was, it answered 200 to an authenticated
    caller, who for the reserve, unbook and generate routes has the role
    manager or admin. *)
Theorem routes_write_only_when_accepted (env : Env) (db : Db) :
  (forall req, (Hold.POST env req db).2 ≠ db ->
     exists r uid, (Hold.POST env req db).1 = Ok r
                   /\ authenticate env (Hold.authorization req) = inr uid)
  /\ (forall req, (Book.POST env req db).2 ≠ db ->
        exists r uid, (Book.POST env req db).1 = Ok r
                      /\ authenticate env (Book.authorization req) = inr uid)
  /\ (forall req, (Reserve.POST env req db).2 ≠ db ->
        exists r uid, (Reserve.POST env req db).1 = Ok r
                      /\ authenticate env (Reserve.authorization req) = inr uid
                      /\ manager_or_admin db uid)
  /\ (forall req, (Unbook.POST env req db).2 ≠ db ->
        exists r uid, (Unbook.POST env req db).1 = Ok r
                      /\ authenticate env (Unbook.authorization req) = inr uid
                      /\ manager_or_admin db uid)
  /\ (forall req, (Generate.POST env req db).2 ≠ db ->
        exists r uid, (Generate.POST env req db).1 = Ok r
                      /\ authenticate env (Generate.authorization req) = inr uid
                      /\ manager_or_admin db uid).
Proof.
  repeat split; intros req Hne.
  - destruct (hold_POST_changes env req db); [contradiction | assumption].
  - destruct (book_POST_changes env req db); [contradiction | assumption].
  - destruct (reserve_POST_changes env req db); [contradiction | assumption].
  - destruct (unbook_POST_changes env req db); [contradiction | assumption].
  - destruct (generate_POST_changes env req db); [contradiction | assumption].
Qed.

(** On the demo store the accepted hold of asha changes the store, and
    the theorem names her as the authenticated caller. *)
Lemma routes_write_only_when_accepted_witness :
  exists r uid,
    (Hold.POST (Demo.env "bk-1" Demo.t0) (Demo.hold_request "token-asha" None)
       (Demo.world (Demo.slot "AVAILABLE") ∅)).1 = Ok r
    /\ authenticate (Demo.env "bk-1" Demo.t0)
         (Hold.authorization (Demo.hold_request "token-asha" None)) = inr uid.
Proof.
  destruct (routes_write_only_when_accepted (Demo.env "bk-1" Demo.t0)
              (Demo.world (Demo.slot "AVAILABLE") ∅)) as (H & _).
  apply H. vm_compute. discriminate.
Defined.

(** ** What the routes leave alone *)

Lemma commit_two_frame (w1 w2 : Write) (db db' : Db) :
  commit [w1; w2] db = Some db' ->
  (forall id p, w1 ≠ UpdateVenue id p) -> (forall id p, w2 ≠ UpdateVenue id p) ->
  users db' = users db /\ venues db' = venues db.
Proof.
  simpl. intros Hc H1 H2.
  destruct (apply_write w1 db) as [db1|] eqn:E1; [| discriminate].
  destruct (apply_write w2 db1) as [db2|] eqn:E2; [| discriminate].
  injection Hc as <-.
  assert (Hstep : forall w a b, apply_write w a = Some b ->
                    (forall id p, w ≠ UpdateVenue id p) ->
                    users b = users a /\ venues b = venues a).
  { intros w a b Hap Hw. destruct w; simpl in Hap.
    - injection Hap as <-. auto.
    - injection Hap as <-. auto.
    - destruct (slots a !! id); [| discriminate]. injection Hap as <-. auto.
    - destruct (slots a !! id); injection Hap as <-; auto.
    - exfalso. eapply Hw. reflexivity. }
  destruct (Hstep _ _ _ E1 H1) as [Hu1 Hv1].
  destruct (Hstep _ _ _ E2 H2) as [Hu2 Hv2].
  split; congruence.
Qed.

(** No route writes a user profile, and only the generate route writes a
    venue: whatever the request and the answer, the [users] collection
    is the same after each of the five routes, and the [venues]
    collection is the same after the hold, book, reserve and unbook
    routes.  Roles and venue ownership cannot be changed through them. *)
Theorem routes_keep_users_and_venues (env : Env) (db : Db) :
  (forall req, users (Hold.POST env req db).2 = users db
               /\ venues (Hold.POST env req db).2 = venues db)
  /\ (forall req, users (Book.POST env req db).2 = users db
                  /\ venues (Book.POST env req db).2 = venues db)
  /\ (forall req, users (Reserve.POST env req db).2 = users db
                  /\ venues (Reserve.POST env req db).2 = venues db)
  /\ (forall req, users (Unbook.POST env req db).2 = users db
                  /\ venues (Unbook.POST env req db).2 = venues db)
  /\ (forall req, users (Generate.POST env req db).2 = users db).
Proof.
  repeat apply conj; intros req.
  - unfold Hold.POST.
    destruct (negb (isAdminInitialized env)); [auto|].
    destruct (negb _ || negb _); [auto|].
    destruct (authenticate env _) as [resp|uid]; [auto|].
    unfold runTransaction, Hold.transaction.
    destruct (slots db !! _) as [s|]; [| auto].
    destruct (Hold.check env s) as [[st msg]|]; [auto|].
    destruct (fromMillis _) as [e|]; [| auto].
    match goal with |- context [commit ?ws db] =>
      destruct (commit ws db) as [db'|] eqn:Hc; [| auto] end.
    simpl. eapply commit_two_frame; [exact Hc | discriminate | discriminate].
  - unfold Book.POST.
    destruct (negb (isAdminInitialized env)); [auto|].
    destruct (negb _ || negb _); [auto|].
    destruct (authenticate env _) as [resp|uid]; [auto|].
    unfold runTransaction, Book.transaction.
    destruct (slots db !! _) as [s|]; [| auto].
    destruct (negb _ && negb _); [auto|].
    match goal with |- context [commit ?ws db] =>
      destruct (commit ws db) as [db'|] eqn:Hc; [| auto] end.
    simpl. eapply commit_two_frame; [exact Hc | discriminate | discriminate].
  - unfold Reserve.POST.
    destruct (negb (isAdminInitialized env)); [auto|].
    destruct (negb _ || negb _ || negb _ || negb _); [auto|].
    destruct (authenticate env _) as [resp|uid]; [auto|].
    destruct (negb (callerIsManagerOrAdmin db uid)); [auto|].
    unfold runTransaction, Reserve.transaction.
    destruct (slots db !! _) as [s|]; [| auto].
    destruct (String.eqb _ "BOOKED"); [auto|].
    destruct (negb (Reserve.storable env s)); [auto|].
    match goal with |- context [commit ?ws db] =>
      destruct (commit ws db) as [db'|] eqn:Hc; [| auto] end.
    simpl. eapply commit_two_frame; [exact Hc | discriminate | discriminate].
  - unfold Unbook.POST.
    destruct (negb (isAdminInitialized env)); [auto|].
    destruct (negb _ || negb _ || negb _); [auto|].
    destruct (authenticate env _) as [resp|uid]; [auto|].
    destruct (negb (callerIsManagerOrAdmin db uid)); [auto|].
    unfold runTransaction, Unbook.transaction.
    destruct (bookings db !! _) as [b|]; [| auto].
    destruct (negb (bool_decide _)); [auto|].
    match goal with |- context [commit ?ws db] =>
      destruct (commit ws db) as [db'|] eqn:Hc; [| auto] end.
    simpl. eapply commit_two_frame; [exact Hc | discriminate | discriminate].
  - unfold Generate.POST.
    destruct (negb (isAdminInitialized env)); [reflexivity|].
    destruct (negb _ || negb _ || negb _); [reflexivity|].
    destruct (authenticate env _) as [resp|uid]; [reflexivity|].
    destruct (negb (callerIsManagerOrAdmin db uid)); [reflexivity|].
    destruct ((_ <? 0) || _); [reflexivity|].
    destruct (commit _ db) as [db'|] eqn:Hc; [| reflexivity].
    simpl. eapply schedule_commit_frame; [| exact Hc].
    apply batch_schedule_writes.
Qed.

(** ** Reserve and unbook *)

Lemma reserve_POST_commits (env : Env) (req : Reserve.Request) (db : Db)
    (sid vid uid : string) (s : SlotDoc) :
  isAdminInitialized env = true ->
  Reserve.slotId req = Some sid -> sid ≠ "" ->
  Reserve.venueId req = Some vid -> vid ≠ "" ->
  JS.truthy (Reserve.customerName req) = true ->
  JS.truthy (Reserve.customerPhone req) = true ->
  authenticate env (Reserve.authorization req) = inr uid ->
  callerIsManagerOrAdmin db uid = true ->
  slots db !! sid = Some s ->
  JS.toUpperCase (JS.or_else (slot_status s) "") ≠ "BOOKED" ->
  Reserve.storable env s = true ->
  Reserve.POST env req db
  = (Ok (Some (newBookingId env)), reserved_db env req db sid vid s).
Proof.
  intros Hinit Hs Hsne Hv Hvne Hn Hp Hauth Hrole Hlk Hst Hstore.
  rewrite (reserve_POST_allowed env req db sid vid uid) by assumption.
  rewrite Hrole. unfold runTransaction, Reserve.transaction. rewrite Hlk.
  apply String.eqb_neq in Hst. rewrite Hst, Hstore. simpl. rewrite Hlk.
  reflexivity.
Qed.

(** A reservation that is taken back leaves no trace in the bookings: when
    a manager's reserve request is accepted under a booking id that was
    not in use, and the unbook request for that id and that slot follows,
    the unbook request is accepted, the [bookings] collection is what it
    was before the reservation, and the slot has its old fields with the
    status AVAILABLE and no booking id.  Nothing else has changed. *)
Theorem reserve_unbook_round_trip (env env' : Env) (req : Reserve.Request)
    (req' : Unbook.Request) (db : Db) (sid vid uid uid' : string) (s : SlotDoc) :
  isAdminInitialized env = true ->
  Reserve.slotId req = Some sid -> sid ≠ "" ->
  Reserve.venueId req = Some vid -> vid ≠ "" ->
  JS.truthy (Reserve.customerName req) = true ->
  JS.truthy (Reserve.customerPhone req) = true ->
  authenticate env (Reserve.authorization req) = inr uid ->
  callerIsManagerOrAdmin db uid = true ->
  slots db !! sid = Some s ->
  JS.toUpperCase (JS.or_else (slot_status s) "") ≠ "BOOKED" ->
  Reserve.storable env s = true ->
  bookings db !! newBookingId env = None ->
  newBookingId env ≠ "" ->
  isAdminInitialized env' = true ->
  Unbook.slotId req' = Some sid ->
  Unbook.bookingId req' = Some (newBookingId env) ->
  JS.truthy (Unbook.venueId req') = true ->
  authenticate env' (Unbook.authorization req') = inr uid' ->
  callerIsManagerOrAdmin db uid' = true ->
  Unbook.POST env' req' (Reserve.POST env req db).2
  = (Ok None,
     mkDb (<[sid := Unbook.slot_patch env' s]> (slots db)) (bookings db)
          (venues db) (users db)).
Proof.
  intros Hinit Hs Hsne Hv Hvne Hn Hp Hauth Hrole Hlk Hst Hstore Hfresh Hidne
    Hinit' Hs' Hb' Hv' Hauth' Hrole'.
  rewrite (reserve_POST_commits env req db sid vid uid s) by assumption.
  simpl.
  rewrite (unbook_POST_allowed env' req' _ sid (newBookingId env) uid')
    by assumption.
  unfold reserved_db, callerIsManagerOrAdmin at 1. simpl.
  fold (callerIsManagerOrAdmin db uid'). rewrite Hrole'.
  unfold runTransaction, Unbook.transaction. simpl.
  rewrite lookup_insert_eq. simpl. rewrite lookup_insert_eq.
  rewrite delete_insert_id by assumption. rewrite insert_insert_eq.
  reflexivity.
Qed.

(** The manager reserves the available demo slot and takes the
    reservation back. *)
Lemma reserve_unbook_round_trip_witness :
  bookings
    (Unbook.POST (Demo.env "" (Demo.t0 + 1000)) (Demo.unbook_request "token-mina" "bk-7")
       (Reserve.POST (Demo.env "bk-7" Demo.t0)
          (Demo.reserve_request "token-mina" Demo.slot_key "arena")
          (Demo.world (Demo.slot "AVAILABLE") ∅)).2).2
  = ∅.
Proof.
  rewrite (reserve_unbook_round_trip (Demo.env "bk-7" Demo.t0)
             (Demo.env "" (Demo.t0 + 1000))
             (Demo.reserve_request "token-mina" Demo.slot_key "arena")
             (Demo.unbook_request "token-mina" "bk-7")
             (Demo.world (Demo.slot "AVAILABLE") ∅)
             Demo.slot_key "arena" "mina" "mina" (Demo.slot "AVAILABLE"));
    try reflexivity; try discriminate.
Defined.

(** ** A booked slot *)

(** On the store that an accepted book request leaves, the slot is out
    of reach of the three routes that take slots: a well-formed hold or
    book request of an authenticated caller and a reserve request of a
    manager on that slot is answered 409, whatever the clock of that
    request, and writes nothing, so that the store is still the one the
    book left.  This is about that store only: a write that reaches the
    slot in between, such as a generate request, lifts it. *)
Theorem booked_slot_is_refused (env0 : Env) (req0 : Book.Request) (db0 db : Db)
    (r : option string) (sid : string) :
  Book.POST env0 req0 db0 = (Ok r, db) ->
  Book.slotId req0 = Some sid ->
  (forall env req vid uid,
      isAdminInitialized env = true ->
      Hold.slotId req = Some sid ->
      Hold.venueId req = Some vid -> vid ≠ "" ->
      authenticate env (Hold.authorization req) = inr uid ->
      Hold.POST env req db = (Error 409 "Slot not available", db))
  /\ (forall env req vid uid,
        isAdminInitialized env = true ->
        Book.slotId req = Some sid ->
        Book.venueId req = Some vid -> vid ≠ "" ->
        authenticate env (Book.authorization req) = inr uid ->
        Book.POST env req db = (Error 409 "Slot is not available", db))
  /\ (forall env req vid uid,
        isAdminInitialized env = true ->
        Reserve.slotId req = Some sid ->
        Reserve.venueId req = Some vid -> vid ≠ "" ->
        JS.truthy (Reserve.customerName req) = true ->
        JS.truthy (Reserve.customerPhone req) = true ->
        authenticate env (Reserve.authorization req) = inr uid ->
        callerIsManagerOrAdmin db uid = true ->
        Reserve.POST env req db = (Error 409 "Slot already booked", db)).
Proof.
  intros Hok Hsid0.
  apply book_POST_ok_inv in Hok
    as (sid0 & vid0 & uid0 & s & Hs0 & Hsne & _ & _ & _ & Hlk & _ & _ & ->).
  assert (sid0 = sid) as -> by congruence.
  assert (Hnow : slots (booked_db env0 db0 sid vid0 uid0 s) !! sid
                 = Some (Book.slot_patch env0 s)).
  { simpl. apply lookup_insert_eq. }
  repeat split.
  - intros env req vid uid Hinit Hs Hv Hvne Hauth.
    rewrite (hold_POST_authenticated env req _ sid vid uid) by assumption.
    unfold runTransaction, Hold.transaction. rewrite Hnow. reflexivity.
  - intros env req vid uid Hinit Hs Hv Hvne Hauth.
    eapply book_conflicts; try eassumption. reflexivity.
  - intros env req vid uid Hinit Hs Hv Hvne Hn Hp Hauth Hrole.
    rewrite (reserve_POST_allowed env req _ sid vid uid) by assumption.
    rewrite Hrole. unfold runTransaction, Reserve.transaction.
    rewrite Hnow. reflexivity.
Qed.

(** After bikram's accepted book on the demo store, asha's hold request
    is answered 409. *)
Lemma booked_slot_is_refused_witness :
  (Hold.POST (Demo.env "bk-2" (Demo.t0 + 1000)) (Demo.hold_request "token-asha" None)
     (Book.POST (Demo.env "bk-1" Demo.t0) (Demo.book_request "token-bikram")
        (Demo.world (Demo.slot "AVAILABLE") ∅)).2).1
  = Error 409 "Slot not available".
Proof.
  destruct (booked_slot_is_refused (Demo.env "bk-1" Demo.t0)
              (Demo.book_request "token-bikram")
              (Demo.world (Demo.slot "AVAILABLE") ∅)
              (Book.POST (Demo.env "bk-1" Demo.t0) (Demo.book_request "token-bikram")
                 (Demo.world (Demo.slot "AVAILABLE") ∅)).2
              (Some "bk-1") Demo.slot_key) as (Hhold & _).
  - vm_compute. reflexivity.
  - reflexivity.
  - rewrite (Hhold (Demo.env "bk-2" (Demo.t0 + 1000))
               (Demo.hold_request "token-asha" None) "arena" "asha");
      try reflexivity; try discriminate.
Defined.

(** ** Generating twice *)

Lemma commit_app (l1 l2 : list Write) (db : Db) :
  commit (l1 ++ l2) db = commit l1 db ≫= commit l2.
Proof.
  revert db. induction l1 as [|w l1 IH]; intros db; simpl; [reflexivity|].
  destruct (apply_write w db); simpl; [apply IH | reflexivity].
Qed.

Lemma commit_slot_fold (ws : list Write) (id : string) :
  Forall schedule_write ws ->
  forall db db', commit ws db = Some db' ->
                 slots db' !! id = fold_left (step_slot id) ws (slots db !! id).
Proof.
  induction 1 as [|w ws Hw _ IH]; intros db db'; simpl.
  - intros [= <-]. reflexivity.
  - destruct (apply_write w db) as [db1|] eqn:Hap; [| discriminate].
    intros Hc. rewrite (IH _ _ Hc). f_equal.
    destruct w; simpl in Hw; try contradiction; simpl in Hap |- *.
    + case_bool_decide as Hid.
      * subst. destruct (slots db !! id); injection Hap as <-;
          simpl; apply lookup_insert_eq.
      * destruct (slots db !! id0); injection Hap as <-;
          simpl; apply lookup_insert_ne; assumption.
    + destruct (venues db !! id0); [| discriminate]. injection Hap as <-.
      reflexivity.
Qed.

Lemma step_slot_kept (id : string) (o : option SlotDoc) (w : Write) :
  window_write w -> kept (step_slot id o w) = kept o.
Proof.
  destruct w; simpl; try contradiction; [| reflexivity].
  intros (v & d & h & -> & ->). case_bool_decide; [| reflexivity].
  destruct o; reflexivity.
Qed.

Lemma step_slot_same (id : string) (o o' : option SlotDoc) (w : Write) :
  window_write w -> hits id w = true -> kept o = kept o' ->
  step_slot id o w = step_slot id o' w.
Proof.
  destruct w; simpl; try contradiction; try discriminate.
  intros (v & d & h & -> & ->) Hhit Hk. rewrite Hhit. f_equal.
  destruct o as [s|], o' as [s'|]; simpl in Hk; unfold Generate.merge_slot,
    Generate.fresh_slot; congruence.
Qed.

Lemma fold_step_no_hit (id : string) (ws : list Write) (o : option SlotDoc) :
  existsb (hits id) ws = false -> fold_left (step_slot id) ws o = o.
Proof.
  revert o. induction ws as [|w ws IH]; intros o; simpl; [reflexivity|].
  intros H. apply orb_false_iff in H as [Hw Hws]. rewrite (IH _ Hws).
  destruct w; simpl in *; try reflexivity. rewrite Hw. reflexivity.
Qed.

Lemma fold_step_kept (id : string) (ws : list Write) :
  Forall window_write ws ->
  forall o, kept (fold_left (step_slot id) ws o) = kept o.
Proof.
  induction 1 as [|w ws Hw _ IH]; intros o; simpl; [reflexivity|].
  rewrite IH. apply step_slot_kept. exact Hw.
Qed.

Lemma fold_step_same (id : string) (ws : list Write) :
  Forall window_write ws ->
  forall o o', existsb (hits id) ws = true -> kept o = kept o' ->
               fold_left (step_slot id) ws o = fold_left (step_slot id) ws o'.
Proof.
  induction 1 as [|w ws Hw Hws IH]; intros o o'; simpl; [discriminate|].
  intros Hhit Hk.
  destruct (existsb (hits id) ws) eqn:Hrest.
  - apply IH; [reflexivity|]. rewrite !step_slot_kept by assumption. exact Hk.
  - rewrite orb_false_r in Hhit. rewrite !fold_step_no_hit by assumption.
    apply step_slot_same; assumption.
Qed.

Lemma fold_step_twice (id : string) (ws : list Write) (o : option SlotDoc) :
  Forall window_write ws ->
  fold_left (step_slot id) ws (fold_left (step_slot id) ws o)
  = fold_left (step_slot id) ws o.
Proof.
  intros Hws. destruct (existsb (hits id) ws) eqn:Hhit.
  - apply fold_step_same; [assumption | assumption |].
    apply fold_step_kept. assumption.
  - rewrite !fold_step_no_hit by assumption. reflexivity.
Qed.

Lemma slot_writes_window (venueId : string) (dates : list string) (hs : list Z) :
  Forall window_write
    (List.concat (map (fun date => map (Generate.slot_write venueId date) hs) dates)).
Proof.
  apply Forall_concat, Forall_map, Forall_forall. intros date _.
  apply Forall_map, Forall_forall. intros hour _. simpl. eauto.
Qed.

Lemma slot_writes_commit (ws : list Write) :
  Forall window_write ws -> Forall (fun w => forall id p, w ≠ UpdateVenue id p) ws ->
  forall db, exists db', commit ws db = Some db' /\ venues db' = venues db.
Proof.
  induction 1 as [|w ws Hw _ IH]; intros Hnv db; simpl.
  - eauto.
  - apply Forall_cons in Hnv as [Hnw Hnv].
    destruct w; simpl in Hw; try contradiction.
    + simpl. destruct (slots db !! id);
        match goal with |- context [commit ws ?d] =>
          destruct (IH Hnv d) as (db' & -> & Hv) end; eauto.
    + exfalso. eapply Hnw. reflexivity.
Qed.

Lemma slot_writes_no_venue (venueId : string) (dates : list string) (hs : list Z) :
  Forall (fun w => forall id p, w ≠ UpdateVenue id p)
    (List.concat (map (fun date => map (Generate.slot_write venueId date) hs) dates)).
Proof.
  apply Forall_concat, Forall_map, Forall_forall. intros date _.
  apply Forall_map, Forall_forall. intros hour _. discriminate.
Qed.

Lemma batch_window_writes (env : Env) (vid st en : string) (duration : Z) (days : nat) :
  Forall window_write (Generate.batch env vid st en duration days).
Proof.
  unfold Generate.batch. apply Forall_app. split.
  - apply slot_writes_window.
  - repeat constructor.
Qed.

(** Committing the batch of the generate route a second time changes
    nothing. *)
Lemma batch_commit_twice (env : Env) (vid st en : string) (duration : Z) (days : nat)
    (db db1 : Db) :
  commit (Generate.batch env vid st en duration days) db = Some db1 ->
  commit (Generate.batch env vid st en duration days) db1 = Some db1.
Proof.
  intros Hc.
  pose proof (batch_schedule_writes env vid st en duration days) as Hsched.
  pose proof (batch_window_writes env vid st en duration days) as Hwin.
  pose proof (schedule_commit_frame _ Hsched _ _ Hc) as [Hb Hu].
  pose proof Hc as Hc0. unfold Generate.batch in Hc0 |- *.
  set (l := List.concat _) in *.
  assert (Hl : Forall window_write l) by apply slot_writes_window.
  assert (Hlv : Forall (fun w => forall id p, w ≠ UpdateVenue id p) l)
    by apply slot_writes_no_venue.
  rewrite commit_app in Hc0 |- *.
  destruct (slot_writes_commit l Hl Hlv db) as (dbm & Hm & Hvm).
  destruct (slot_writes_commit l Hl Hlv db1) as (dbm' & Hm' & Hvm').
  rewrite Hm in Hc0. rewrite Hm'. simpl in Hc0 |- *.
  rewrite Hvm in Hc0. rewrite Hvm'.
  destruct (venues db !! vid) as [v|] eqn:Hv; [| discriminate].
  injection Hc0 as Hdb1.
  assert (Hv1 : venues db1 = <[vid := Generate.venue_patch st en v]> (venues db)).
  { rewrite <- Hdb1. reflexivity. }
  rewrite Hv1, lookup_insert_eq. f_equal.
  assert (Hc2 : commit (Generate.batch env vid st en duration days) db1
                = Some (mkDb (slots dbm') (bookings dbm')
                          (<[vid := Generate.venue_patch st en
                                      (Generate.venue_patch st en v)]>
                             (<[vid := Generate.venue_patch st en v]> (venues db)))
                          (users dbm'))).
  { unfold Generate.batch. fold l. rewrite commit_app, Hm'. simpl.
    rewrite Hvm', Hv1, lookup_insert_eq. reflexivity. }
  pose proof (schedule_commit_frame _ Hsched _ _ Hc2) as [Hb2 Hu2].
  simpl in Hb2, Hu2.
  assert (Hs2 : slots dbm' = slots db1).
  { apply map_eq. intros id.
    pose proof (commit_slot_fold _ id Hsched _ _ Hc2) as H2. simpl in H2.
    rewrite H2, (commit_slot_fold _ id Hsched _ _ Hc).
    apply fold_step_twice. exact Hwin. }
  rewrite Hs2, Hb2, Hu2, insert_insert_eq.
  change (Generate.venue_patch st en (Generate.venue_patch st en v))
    with (Generate.venue_patch st en v).
  rewrite <- Hv1. destruct db1; reflexivity.
Qed.

(** The generate route is idempotent: when a request is accepted, the
    same request served again on the resulting store (with the calendar
    unchanged) is accepted and leaves that store exactly as it is. *)
Theorem generate_twice (env : Env) (req : Generate.Request) (db db1 : Db)
    (r : option string) :
  Generate.POST env req db = (Ok r, db1) ->
  Generate.POST env req db1 = (Ok None, db1).
Proof.
  intros Hok.
  pose proof (generate_POST_ok_inv _ _ _ _ _ Hok)
    as (vid & st & en & Hv & Hs & He & Hd & Hc).
  pose proof (schedule_commit_frame _ (batch_schedule_writes _ _ _ _ _ _) _ _ Hc)
    as [_ Hu].
  revert Hok. unfold Generate.POST.
  destruct (negb (isAdminInitialized env)); [discriminate|].
  destruct (negb _ || negb _ || negb _); [discriminate|].
  destruct (authenticate env _) as [resp|uid] eqn:Hauth.
  { apply authenticate_error in Hauth as (msg & ->). discriminate. }
  unfold callerIsManagerOrAdmin. rewrite Hu.
  destruct (negb _); [discriminate|].
  destruct ((_ <? 0) || _); [discriminate|].
  rewrite Hv, Hs, He. simpl. rewrite Hc. intros _.
  rewrite (batch_commit_twice _ _ _ _ _ _ _ _ Hc). reflexivity.
Qed.

(** The manager regenerates the demo day twice. *)
Lemma generate_twice_witness :
  let db1 := (Generate.POST (Demo.env "" Demo.t0)
                (Demo.generate_request "token-mina" "arena")
                (Demo.world (Demo.taken_slot "booked" "bk-1") ∅)).2 in
  Generate.POST (Demo.env "" Demo.t0) (Demo.generate_request "token-mina" "arena") db1
  = (Ok None, db1).
Proof.
  apply (generate_twice (Demo.env "" Demo.t0)
           (Demo.generate_request "token-mina" "arena")
           (Demo.world (Demo.taken_slot "booked" "bk-1") ∅) _ None).
  vm_compute. reflexivity.
Defined.


(** * The weekly grid and the routes *)

Lemma unsigned_decimal (t : string) :
  match t with
  | String "0" (String x _) => Ascii.eqb x "x" || Ascii.eqb x "X"
  | _ => false
  end = false ->
  WeeklyGrid.unsigned t
  = if JS.starts_with_digit t then Some (JS.digits_value 0 t) else None.
Proof.
  destruct t as [|c t]; [reflexivity|].
  destruct c as [[] [] [] [] [] [] [] []]; try reflexivity.
  destruct t as [|x t]; [reflexivity|].
  intros Hx. unfold WeeklyGrid.unsigned. rewrite Hx. reflexivity.
Qed.

Lemma parseInt_radix (s : string) :
  hex_prefixed s = false -> WeeklyGrid.parseInt s = JS.parseInt s.
Proof.
  unfold hex_prefixed, WeeklyGrid.parseInt, JS.parseInt.
  destruct (JS.skip_spaces s) as [|c t]; [reflexivity|].
  destruct c as [[] [] [] [] [] [] [] []];
    intros H; cbv beta iota in H |- *;
    match goal with |- context [WeeklyGrid.unsigned ?u] =>
      rewrite (unsigned_decimal u H) end;
    try reflexivity;
    match goal with |- context [JS.starts_with_digit ?u] =>
      destruct (JS.starts_with_digit u) end; reflexivity.
Qed.

Lemma hours_loop_hourly (n : nat) :
  forall s e : Z, Z.to_nat (e - s) = n ->
    Generate.hours_loop n s e 1
    = map (fun i => s + Z.of_nat i) (seq 0 n).
Proof.
  induction n as [|n IH]; intros s e Hn; [reflexivity|].
  simpl. destruct (Z.ltb_spec s e); [|lia].
  rewrite Z.add_0_r. f_equal.
  rewrite (IH (s + 1) e) by lia.
  rewrite <- seq_shift, map_map. apply map_ext. intros i. lia.
Qed.

Lemma gridHours_hours (st en : string) (duration : Z) (rows : list string) :
  hex_prefixed (JS.before_first ":" st) = false ->
  hex_prefixed (JS.before_first ":" en) = false ->
  duration < 120 ->
  WeeklyGrid.gridHours st en = Some rows ->
  rows
  = map (fun h => JS.pad2 h +:+ ":00")
      (Generate.hours (JS.parseInt (JS.before_first ":" st))
                      (JS.parseInt (JS.before_first ":" en)) duration).
Proof.
  intros Hst Hen Hd. unfold WeeklyGrid.gridHours, Generate.hours.
  rewrite (parseInt_radix _ Hst), (parseInt_radix _ Hen).
  destruct (JS.parseInt (JS.before_first ":" en)) as [e|];
    destruct (JS.parseInt (JS.before_first ":" st)) as [s|];
    try (intros [= <-]; reflexivity).
  destruct (4294967295 <? Z.max 0 (e - s)); [discriminate|]. intros [= <-].
  assert (Hstep : Z.max 1 (duration / 60) = 1).
  { assert (duration / 60 <= 1) by (apply Z.lt_succ_r, Z.div_lt_upper_bound; lia).
    lia. }
  rewrite Hstep, (hours_loop_hourly _ s e eq_refl), map_map.
  replace (Z.to_nat (Z.max 0 (e - s))) with (Z.to_nat (e - s)) by lia.
  reflexivity.
Qed.

(** The generate route and the grid agree on the hours: for times
    whose hour is not written with a hexadecimal prefix and is an integer
    that a double holds exactly, and a slot duration of that size under
    two hours, the batch of the route holds, for each of its dates, one
    slot write per row of the grid drawn from the same opening and
    closing time, on the slot id the grid looks the cell up with,
    followed by the update of the venue's hours. *)
Theorem generate_writes_the_grid_rows (env : Env) (venueId st en : string)
    (duration : Z) (days : nat) (rows : list string) :
  hex_prefixed (JS.before_first ":" st) = false ->
  hex_prefixed (JS.before_first ":" en) = false ->
  safe_hours st en duration = true ->
  duration < 120 ->
  WeeklyGrid.gridHours st en = Some rows ->
  Generate.batch env venueId st en duration days
  = (List.concat
       (map (fun date => map (row_write venueId date) rows)
            (map (dateString env) (seq 0 days)))
     ++ [ UpdateVenue venueId (Generate.venue_patch st en) ])%list.
Proof.
  intros Hst Hen _ Hd Hrows. unfold Generate.batch.
  rewrite (gridHours_hours st en duration rows Hst Hen Hd Hrows).
  f_equal. f_equal. apply map_ext. intros date.
  rewrite map_map. reflexivity.
Qed.

Lemma generate_writes_the_grid_rows_witness :
  Generate.batch (Demo.env "bk-1" Demo.t0) "arena" "14:00" "16:00" 60 1
  = [ row_write "arena" "2025-12-01" "14:00";
      row_write "arena" "2025-12-01" "15:00";
      UpdateVenue "arena" (Generate.venue_patch "14:00" "16:00") ].
Proof.
  exact (generate_writes_the_grid_rows (Demo.env "bk-1" Demo.t0)
           "arena" "14:00" "16:00" 60 1 ["14:00"; "15:00"]
           eq_refl eq_refl eq_refl ltac:(lia) eq_refl).
Defined.

Lemma batches_loop_spec (slotIds : list string) (fuel : nat) :
  forall i : nat,
    (List.length slotIds - i <= fuel)%nat ->
    List.concat (WeeklyGrid.batches_loop fuel i slotIds) = drop i slotIds
    /\ Forall (fun batch => (1 <= List.length batch <= 10)%nat)
         (WeeklyGrid.batches_loop fuel i slotIds).
Proof.
  induction fuel as [|fuel IH]; intros i Hfuel; simpl.
  - split; [|constructor]. symmetry. apply drop_ge. lia.
  - destruct (Nat.ltb_spec i (List.length slotIds)) as [Hi|Hi].
    + destruct (IH (i + 10)%nat ltac:(lia)) as [Hc Hf]. split.
      * simpl. rewrite Hc, <- drop_drop. apply take_drop.
      * constructor; [|exact Hf].
        rewrite length_take, length_drop. lia.
    + split; [|constructor]. symmetry. apply drop_ge. lia.
Qed.

(** The grid asks for the bookings of its slots in batches that,
    put end to end, are the list of slot ids, each batch holding at least
    one and at most ten ids. *)
Theorem fetch_batches_cover (slotIds : list string) :
  List.concat (WeeklyGrid.batches slotIds) = slotIds
  /\ Forall (fun batch => (1 <= List.length batch <= 10)%nat)
       (WeeklyGrid.batches slotIds).
Proof.
  unfold WeeklyGrid.batches.
  destruct (batches_loop_spec slotIds (List.length slotIds) 0%nat ltac:(lia))
    as [Hc Hf].
  split; [exact Hc | exact Hf].
Qed.


(** ** Clicks on a cell *)

(** A customer's click opens the booking dialog exactly on a cell that
    was rendered and clicked before its start, is not being processed,
    and whose slot has no document or the stored status AVAILABLE. *)
Theorem booking_dialog_opens_iff (slot : option SlotDoc) (booking : option BookingDoc)
    (pastAtRender pastAtClick isProcessing : bool) (renderedAt : Z) :
  WeeklyGrid.onClick slot booking pastAtRender pastAtClick false isProcessing renderedAt
  = Some WeeklyGrid.OpenBookingConfirmDialog
  <-> pastAtRender = false /\ pastAtClick = false /\ isProcessing = false
      /\ (slot = None \/ exists s, slot = Some s /\ slot_status s = Some "AVAILABLE").
Proof.
  unfold WeeklyGrid.onClick, WeeklyGrid.handleSlotClick, Grid.renderSlot, Grid.slotStatus.
  destruct pastAtRender, pastAtClick, isProcessing, slot as [s|]; simpl;
    repeat case_match; simpl; repeat case_bool_decide; simpl;
    (split;
     [ intros Hc; try discriminate Hc; repeat split; try reflexivity; simplify_eq; eauto
     | intros (? & ? & ? & [? | (s' & ? & ?)]); try discriminate; simplify_eq; try congruence ]).
Qed.

(** A manager's click opens the update dialog exactly on a cell that was
    rendered and clicked before its start, is not being processed, and
    whose slot has no document, the stored status AVAILABLE, the status
    BOOKED with a booking id and a loaded physical booking, or the status
    RESERVED with a booking id and no loaded booking of another type. *)
Theorem update_dialog_opens_iff (slot : option SlotDoc) (booking : option BookingDoc)
    (pastAtRender pastAtClick isProcessing : bool) (renderedAt : Z) :
  WeeklyGrid.onClick slot booking pastAtRender pastAtClick true isProcessing renderedAt
  = Some WeeklyGrid.OpenSlotUpdateDialog
  <-> pastAtRender = false /\ pastAtClick = false /\ isProcessing = false
      /\ (slot = None
          \/ exists s, slot = Some s
             /\ (slot_status s = Some "AVAILABLE"
                 \/ (slot_status s = Some "BOOKED"
                     /\ JS.truthy (slot_bookingId s) = true
                     /\ exists b, booking = Some b
                          /\ booking_bookingType b = Some "physical")
                 \/ (slot_status s = Some "RESERVED"
                     /\ JS.truthy (slot_bookingId s) = true
                     /\ (booking = None
                         \/ exists b, booking = Some b
                              /\ booking_bookingType b = Some "physical")))).
Proof.
  unfold WeeklyGrid.onClick, WeeklyGrid.handleSlotClick, Grid.renderSlot, Grid.slotStatus.
  destruct pastAtRender, pastAtClick, isProcessing, slot as [s|]; simpl;
    rewrite ?andb_false_r, ?andb_true_r;
    try (split; [intros ?; repeat case_match; congruence | intros (? & ? & ? & _); congruence]).
  - destruct (slot_status s) as [st|] eqn:Hst; simpl.
    2:{ split; [discriminate|]. intros (_ & _ & _ & [? | (s' & ? & [?|[(?&_)|(?&_)]])]); simplify_eq; congruence. }
    destruct (decide (st = "AVAILABLE")) as [->|Ha].
    { simpl. split; [|reflexivity]. intros _. repeat split. right. eauto. }
    destruct (decide (st = "BOOKED")) as [->|Hb].
    { simpl. 
      destruct booking as [b|]; simpl.
      - case_bool_decide as Hp; simpl.
        + destruct (JS.truthy (slot_bookingId s)) eqn:Ht; simpl.
          * split; [|reflexivity]. intros _. repeat split. right. exists s. split; [reflexivity|].
            right. left. eauto.
          * split; [discriminate|].
            intros (_ & _ & _ & [? | (s' & ? & [?|[(?&?&_)|(?&_)]])]); simplify_eq; congruence. 
        + split; [discriminate|].
          intros (_ & _ & _ & [? | (s' & ? & [?|[(?&?&b'&?&?)|(?&_)]])]); simplify_eq; congruence.
      - split; [discriminate|].
        intros (_ & _ & _ & [? | (s' & ? & [?|[(?&?&b'&?&?)|(?&_)]])]); simplify_eq; congruence. }
    destruct (decide (st = "RESERVED")) as [->|Hr].
    { simpl.
      destruct (JS.truthy (slot_bookingId s)) eqn:Ht; simpl.
      - destruct booking as [b|]; simpl.
        + case_bool_decide as Hp; simpl.
          * split; [|reflexivity]. intros _. repeat split. right. exists s. split; [reflexivity|].
            right. right. eauto 10.
          * split; [discriminate|].
            intros (_ & _ & _ & [? | (s' & ? & [?|[(?&_)|(?&?&[?|(b'&?&?)])]])]); simplify_eq; congruence.
        + split; [|reflexivity]. intros _. repeat split. right. exists s. split; [reflexivity|].
          right. right. eauto 10.
      - split; [discriminate|].
        intros (_ & _ & _ & [? | (s' & ? & [?|[(?&_)|(?&?&_)]])]); simplify_eq; congruence. }
    split.
    + repeat case_bool_decide; repeat case_match; simplify_eq; discriminate.
    + intros (_ & _ & _ & [? | (s' & ? & [?|[(?&_)|(?&_)]])]); simplify_eq; congruence.
  - split; [|reflexivity]. intros _. repeat split. left. reflexivity.
Qed.

(** The handler calls [toLowerCase] on the stored status, which a slot
    document without a status does not have; the cell of such a slot is
    never clickable, so no click ends in that error. *)
Theorem click_never_throws (slot : option SlotDoc) (booking : option BookingDoc)
    (pastAtRender pastAtClick isManager isProcessing : bool) (renderedAt : Z) :
  WeeklyGrid.onClick slot booking pastAtRender pastAtClick isManager isProcessing
    renderedAt <> Some WeeklyGrid.TypeError.
Proof.
  unfold WeeklyGrid.onClick, WeeklyGrid.handleSlotClick, Grid.renderSlot, Grid.slotStatus.
  destruct pastAtRender, pastAtClick, isManager, isProcessing, slot as [s|]; simpl;
    rewrite ?andb_false_r, ?andb_true_r;
    try (intros H; repeat case_match; congruence).
  destruct (slot_status s) as [st|] eqn:Hst; simpl.
  - intros H; repeat case_match; congruence.
  - discriminate.
Qed.

(** A slot whose hold has expired is drawn as an available, clickable
    cell, but a click on it does not open a dialog: the handler reads the
    stored status and tells a customer that the slot is on hold and a
    manager that it cannot be modified. *)
Theorem expired_hold_click_warns (s : SlotDoc) (booking : option BookingDoc)
    (expires renderedAt : Z) :
  slot_status s = Some "HELD" ->
  slot_holdExpiresAt s = Some expires ->
  expires < renderedAt ->
  forall isManager : bool,
    let cell := Grid.renderSlot (Some s) booking false isManager renderedAt in
    Grid.status cell = Some "AVAILABLE"
    /\ Grid.label cell = "Avail."
    /\ Grid.canClick cell = true
    /\ WeeklyGrid.onClick (Some s) booking false false isManager false renderedAt
       = Some (if isManager
               then WeeklyGrid.ToastInfo "This slot is held and cannot be modified."
               else WeeklyGrid.ToastWarning "This slot is currently on hold.").
Proof.
  intros Hst Hexp Hlt isManager.
  unfold WeeklyGrid.onClick, WeeklyGrid.handleSlotClick, Grid.renderSlot, Grid.slotStatus.
  simpl. rewrite Hst, Hexp. simpl.
  destruct (Z.ltb_spec expires renderedAt); [|lia].
  destruct isManager; simpl; repeat split.
Qed.

Lemma expired_hold_click_warns_witness :
  WeeklyGrid.onClick
    (Some (Demo.held_slot "asha" "bk-1" (Demo.t0 - 1))) None
    false false false false Demo.t0
  = Some (WeeklyGrid.ToastWarning "This slot is currently on hold.").
Proof.
  exact (proj2 (proj2 (proj2
    (expired_hold_click_warns (Demo.held_slot "asha" "bk-1" (Demo.t0 - 1)) None
       (Demo.t0 - 1) Demo.t0 eq_refl eq_refl ltac:(unfold Demo.t0; lia) false)))).
Defined.


(** * The writers of the role *)

Lemma manager_check_role (sl : gmap string SlotDoc) (bk : gmap string BookingDoc)
    (vn : gmap string VenueDoc) (ps : gmap string Profiles.Profile) (id : string) :
  callerIsManagerOrAdmin (Profiles.store sl bk vn ps) id
  = match ps !! id with
    | Some p =>
        match Profiles.profile_role p with
        | Some r => String.eqb r "manager" || String.eqb r "admin"
        | None => false
        end
    | None => false
    end.
Proof.
  unfold callerIsManagerOrAdmin, Profiles.store. simpl.
  rewrite lookup_fmap. destruct (ps !! id); reflexivity.
Qed.

Lemma upsert_roles (env : Env) (claims : string -> Profiles.Decoded)
    (req : Profiles.Request) (ps : gmap string Profiles.Profile) (id : string) :
  match (Profiles.POST env claims req ps).2 !! id, ps !! id with
  | Some p', Some p =>
      Profiles.profile_role p' = Profiles.profile_role p
      /\ Profiles.profile_groundId p' = Profiles.profile_groundId p
  | Some p', None => Profiles.profile_role p' = Some "user"
  | None, Some _ => False
  | None, None => True
  end.
Proof.
  unfold Profiles.POST.
  destruct (isAdminInitialized env); simpl.
  2:{ destruct (ps !! id); auto. }
  destruct (JS.bearer _) as [token|] eqn:Hb; simpl.
  2:{ destruct (ps !! id); auto. }
  destruct (verifyIdToken env token) as [uid|] eqn:Hv; simpl.
  2:{ destruct (ps !! id); auto. }
  destruct (ps !! uid) as [snap|] eqn:Hsnap; simpl.
  - destruct (decide (uid = id)) as [->|Hne].
    + rewrite lookup_insert_eq, Hsnap. auto.
    + rewrite lookup_insert_ne by exact Hne. destruct (ps !! id); auto.
  - destruct (decide (uid = id)) as [->|Hne].
    + rewrite lookup_insert_eq, Hsnap.
      simpl. repeat case_bool_decide; try reflexivity; congruence.
    + rewrite lookup_insert_ne by exact Hne. destruct (ps !! id); auto.
Qed.

(** The upsert route grants no role: whatever the request asks for, a
    profile it creates has the role user, a profile that exists keeps
    its role and its venue, and so the answer of the manager check is
    the same after the request as before it, for every account.  (The
    branch that assigns the role manager needs the caller's own profile
    to exist with the role admin, and the role is only written when that
    profile does not exist.) *)
Theorem upsert_grants_no_role (env : Env) (claims : string -> Profiles.Decoded)
    (req : Profiles.Request) (sl : gmap string SlotDoc) (bk : gmap string BookingDoc)
    (vn : gmap string VenueDoc) (ps : gmap string Profiles.Profile) (id : string) :
  let ps' := (Profiles.POST env claims req ps).2 in
  (ps !! id = None ->
     forall p', ps' !! id = Some p' -> Profiles.profile_role p' = Some "user")
  /\ (forall p, ps !! id = Some p ->
        exists p', ps' !! id = Some p'
          /\ Profiles.profile_role p' = Profiles.profile_role p
          /\ Profiles.profile_groundId p' = Profiles.profile_groundId p)
  /\ callerIsManagerOrAdmin (Profiles.store sl bk vn ps') id
     = callerIsManagerOrAdmin (Profiles.store sl bk vn ps) id.
Proof.
  intros ps'.
  pose proof (upsert_roles env claims req ps id) as H. fold ps' in H.
  rewrite !manager_check_role.
  destruct (ps' !! id) as [p1|], (ps !! id) as [p0|]; try contradiction.
  - destruct H as (H1 & H2). rewrite H1.
    repeat split; intros; simplify_eq; eauto.
  - rewrite H. repeat split; intros; simplify_eq; eauto.
  - repeat split; intros; simplify_eq; eauto.
Qed.

Lemma upsert_grants_no_role_witness :
  callerIsManagerOrAdmin
    (Profiles.store ∅ ∅ ∅
       (Profiles.POST (Demo.env "bk-1" Demo.t0) no_claims
          (Profiles.mkRequest None None None (Some "manager")
             (Some "Bearer token-bikram")) accounts).2) "bikram"
  = false.
Proof.
  exact (proj2 (proj2
    (upsert_grants_no_role (Demo.env "bk-1" Demo.t0) no_claims
       (Profiles.mkRequest None None None (Some "manager")
          (Some "Bearer token-bikram")) ∅ ∅ ∅ accounts "bikram"))).
Defined.

(** The role switch of the admin page, on a listed account whose shown
    role is the stored one: an administrator is left as stored; for any
    other account the answer of the manager check is turned into its
    opposite, the account is never made an administrator, and no other
    profile changes. *)
Theorem toggle_role_flips_manager_check (id : string) (p : Profiles.Profile)
    (sl : gmap string SlotDoc) (bk : gmap string BookingDoc)
    (vn : gmap string VenueDoc) (ps : gmap string Profiles.Profile) :
  id <> "" ->
  ps !! id = Some p ->
  let ps' := (Profiles.toggleRole id (Profiles.profile_role p) ps).2 in
  (Profiles.profile_role p = Some "admin" -> ps' = ps)
  /\ (Profiles.profile_role p <> Some "admin" ->
        callerIsManagerOrAdmin (Profiles.store sl bk vn ps') id
        = negb (callerIsManagerOrAdmin (Profiles.store sl bk vn ps) id)
        /\ exists p', ps' !! id = Some p'
             /\ Profiles.profile_role p' <> Some "admin")
  /\ (forall id', id' <> id -> ps' !! id' = ps !! id').
Proof.
  intros Hid Hp ps'. subst ps'. unfold Profiles.toggleRole.
  destruct (String.eqb_spec id "") as [|_]; [contradiction|].
  rewrite Hp.
  case_bool_decide as Hadmin; simpl.
  - repeat split; intros; congruence.
  - split; [intros; congruence|]. split.
    + intros _. rewrite !manager_check_role, lookup_insert_eq, Hp. simpl.
      split.
      * case_bool_decide as Hm.
        -- rewrite Hm. reflexivity.
        -- simpl. destruct (Profiles.profile_role p) as [r|]; [|reflexivity].
           destruct (String.eqb_spec r "manager"); [congruence|].
           destruct (String.eqb_spec r "admin"); [congruence|]. reflexivity.
      * eexists. split; [reflexivity|]. simpl. case_bool_decide; discriminate.
    + intros id' Hne. apply lookup_insert_ne. congruence.
Qed.

Lemma toggle_role_flips_manager_check_witness :
  callerIsManagerOrAdmin
    (Profiles.store ∅ ∅ ∅ (Profiles.toggleRole "asha" (Some "user") accounts).2) "asha"
  = negb (callerIsManagerOrAdmin (Profiles.store ∅ ∅ ∅ accounts) "asha").
Proof.
  refine (proj1 (proj1 (proj2
    (toggle_role_flips_manager_check "asha"
       (Profiles.mkProfile (Some "asha@example.org") None None None None
          (Some "user") None) ∅ ∅ ∅ accounts _ _)) _)).
  - discriminate.
  - reflexivity.
  - discriminate.
Defined.


(** * The manager's status buttons and the customers' routes *)

Lemma status_update_slot (sid status : string) (s : SlotDoc) (db : Db) :
  slots db !! sid = Some s ->
  ManagerGrid.handleUpdateSlotStatus true (Some sid) status db
  = (ManagerGrid.Updated,
     mkDb (<[sid := ManagerGrid.with_status status s]> (slots db))
          (bookings db) (venues db) (users db)).
Proof.
  intros Hlk. unfold ManagerGrid.handleUpdateSlotStatus. simpl.
  rewrite Hlk. reflexivity.
Qed.

(** The status buttons of the manager's grid settle what the customers'
    routes answer on the slot, whatever was stored on it before.  When
    the write is permitted, the button answers with the success toast
    and changes the status of the slot only; after Block or Reserved
    every well-formed hold or book request on the slot is answered 409
    and writes nothing; after Available a hold request (with a storable
    expiry) and a book request are accepted, also on a slot that was
    booked or held when the button was used. *)
Theorem status_buttons_decide_customers (sid : string) (s : SlotDoc) (db : Db) :
  slots db !! sid = Some s ->
  sid <> "" ->
  let press status := ManagerGrid.handleUpdateSlotStatus true (Some sid) status db in
  (forall status,
      (press status).1 = ManagerGrid.Updated
      /\ slots (press status).2 !! sid = Some (ManagerGrid.with_status status s)
      /\ (forall id, id <> sid -> slots (press status).2 !! id = slots db !! id)
      /\ bookings (press status).2 = bookings db)
  /\ (forall status env req vid uid,
        status = "BLOCKED" \/ status = "RESERVED" ->
        isAdminInitialized env = true ->
        Hold.slotId req = Some sid ->
        Hold.venueId req = Some vid -> vid <> "" ->
        authenticate env (Hold.authorization req) = inr uid ->
        Hold.POST env req (press status).2
        = (Error 409 "Slot not available", (press status).2))
  /\ (forall status env req vid uid,
        status = "BLOCKED" \/ status = "RESERVED" ->
        isAdminInitialized env = true ->
        Book.slotId req = Some sid ->
        Book.venueId req = Some vid -> vid <> "" ->
        authenticate env (Book.authorization req) = inr uid ->
        Book.POST env req (press status).2
        = (Error 409 "Slot is not available", (press status).2))
  /\ (forall env req vid uid,
        isAdminInitialized env = true ->
        Hold.slotId req = Some sid ->
        Hold.venueId req = Some vid -> vid <> "" ->
        authenticate env (Hold.authorization req) = inr uid ->
        (let expiry :=
           now_stamp env + default 5 (Hold.holdDurationMinutes req) * 60 * 1000 in
         fromMillis expiry = Some expiry) ->
        (Hold.POST env req (press "AVAILABLE").2).1 = Ok (Some (newBookingId env)))
  /\ (forall env req vid uid,
        isAdminInitialized env = true ->
        Book.slotId req = Some sid ->
        Book.venueId req = Some vid -> vid <> "" ->
        authenticate env (Book.authorization req) = inr uid ->
        (Book.POST env req (press "AVAILABLE").2).1 = Ok (Some (newBookingId env))).
Proof.
  intros Hlk Hne press.
  assert (Hpress : forall status,
             press status
             = (ManagerGrid.Updated,
                mkDb (<[sid := ManagerGrid.with_status status s]> (slots db))
                     (bookings db) (venues db) (users db)))
    by (intros status; apply status_update_slot; exact Hlk).
  assert (Hnow : forall status,
             slots (press status).2 !! sid = Some (ManagerGrid.with_status status s))
    by (intros status; rewrite Hpress; simpl; apply lookup_insert_eq).
  split; [| split; [| split; [| split]]].
  - intros status. rewrite Hpress. simpl. split; [reflexivity|].
    split; [apply lookup_insert_eq|]. split; [|reflexivity].
    intros id Hid. apply lookup_insert_ne. congruence.
  - intros status env req vid uid Hst Hinit Hs Hv Hvne Hauth.
    rewrite (hold_POST_authenticated env req _ sid vid uid) by assumption.
    unfold runTransaction, Hold.transaction, Hold.check. rewrite Hnow.
    destruct Hst as [-> | ->]; reflexivity.
  - intros status env req vid uid Hst Hinit Hs Hv Hvne Hauth.
    eapply book_conflicts; try eassumption; [apply Hnow|].
    destruct Hst as [-> | ->]; reflexivity.
  - intros env req vid uid Hinit Hs Hv Hvne Hauth Hexp.
    rewrite (hold_commits env req _ sid vid uid
               (ManagerGrid.with_status "AVAILABLE" s)); try assumption.
    + reflexivity.
    + apply Hnow.
    + reflexivity.
  - intros env req vid uid Hinit Hs Hv Hvne Hauth.
    rewrite (book_commits env req _ sid vid uid
               (ManagerGrid.with_status "AVAILABLE" s)); try assumption.
    + reflexivity.
    + apply Hnow.
    + reflexivity.
Qed.

(** Mina blocks the slot of the demo store and asha's hold is
    refused. *)
Lemma status_buttons_decide_customers_witness :
  let blocked :=
    (ManagerGrid.handleUpdateSlotStatus true (Some Demo.slot_key) "BLOCKED"
       (Demo.world (Demo.slot "AVAILABLE") ∅)).2 in
  Hold.POST (Demo.env "bk-1" (Demo.t0 + 1000)) (Demo.hold_request "token-asha" None)
    blocked
  = (Error 409 "Slot not available", blocked).
Proof.
  intros blocked.
  exact (proj1 (proj2
    (status_buttons_decide_customers Demo.slot_key (Demo.slot "AVAILABLE")
       (Demo.world (Demo.slot "AVAILABLE") ∅) eq_refl ltac:(discriminate)))
    "BLOCKED" (Demo.env "bk-1" (Demo.t0 + 1000)) (Demo.hold_request "token-asha" None)
    "arena" "asha" (or_introl eq_refl) eq_refl eq_refl eq_refl ltac:(discriminate)
    eq_refl).
Defined.

(** * The payment log *)

Lemma logPayment_record (env : Env) (venues : gmap string PaymentLog.VenueInfo)
    (users : gmap string Profiles.Profile) (d : PaymentLog.PaymentLogData)
    (ps : list PaymentLog.PaymentRecord) :
  exists m v e,
    PaymentLog.logPayment env venues users d ps
    = PaymentLog.record m v e (serverTimestamp env) (dateString env 0%nat) d ps.
Proof.
  unfold PaymentLog.logPayment. destruct (isAdminInitialized env); eauto.
Qed.

Lemma truthy_default (v : option string) :
  JS.truthy v = true -> v = Some (default "" v).
Proof. destruct v; [reflexivity | discriminate]. Qed.

Lemma record_logged_txn (m v e : option string) (stamp : Z) (date : string)
    (d : PaymentLog.PaymentLogData) (ps : list PaymentLog.PaymentRecord) :
  JS.truthy (PaymentLog.transactionUuid d) = true ->
  PaymentLog.logged_txn (default "" (PaymentLog.transactionUuid d))
    (PaymentLog.record m v e stamp date d ps).2 = true.
Proof.
  intros Ht. unfold PaymentLog.record. rewrite Ht. simpl.
  destruct (PaymentLog.logged_txn _ ps) eqn:Hl; simpl; [exact Hl|].
  unfold PaymentLog.logged_txn. rewrite existsb_app. simpl.
  rewrite <- (truthy_default _ Ht), bool_decide_eq_true_2 by reflexivity.
  apply orb_true_iff. right. reflexivity.
Qed.

Lemma record_logged_ref (m v e : option string) (stamp : Z) (date : string)
    (d : PaymentLog.PaymentLogData) (ps : list PaymentLog.PaymentRecord) :
  JS.truthy (PaymentLog.transactionUuid d) = false ->
  JS.truthy (PaymentLog.bookingId d) = true ->
  JS.truthy (PaymentLog.refId d) = true ->
  PaymentLog.logged_ref (default "" (PaymentLog.bookingId d))
    (default "" (PaymentLog.refId d))
    (PaymentLog.record m v e stamp date d ps).2 = true.
Proof.
  intros Ht Hb Hr. unfold PaymentLog.record. rewrite Ht, Hb, Hr. simpl.
  destruct (PaymentLog.logged_ref _ _ ps) eqn:Hl; simpl; [exact Hl|].
  unfold PaymentLog.logged_ref. rewrite existsb_app. simpl.
  rewrite <- (truthy_default _ Hb), <- (truthy_default _ Hr).
  rewrite !bool_decide_eq_true_2 by reflexivity.
  apply orb_true_iff. right. reflexivity.
Qed.

(** The payment log keeps one record per key.  After a payment with a
    transaction id has been logged, every later report with that
    transaction id - whatever its status or amount - is answered [true]
    and writes nothing; the same holds for reports without a transaction
    id that carry a booking id and a reference id, keyed by that pair.
    A report with neither key is logged again on every call. *)
Theorem payment_logged_once_per_key (env : Env)
    (venues : gmap string PaymentLog.VenueInfo)
    (users : gmap string Profiles.Profile) (d : PaymentLog.PaymentLogData)
    (ps : list PaymentLog.PaymentRecord) :
  let ps1 := (PaymentLog.logPayment env venues users d ps).2 in
  (JS.truthy (PaymentLog.transactionUuid d) = true ->
     forall env' venues' users' d',
       PaymentLog.transactionUuid d' = PaymentLog.transactionUuid d ->
       PaymentLog.logPayment env' venues' users' d' ps1 = (true, ps1))
  /\ (JS.truthy (PaymentLog.transactionUuid d) = false ->
      JS.truthy (PaymentLog.bookingId d) = true ->
      JS.truthy (PaymentLog.refId d) = true ->
      forall env' venues' users' d',
        JS.truthy (PaymentLog.transactionUuid d') = false ->
        PaymentLog.bookingId d' = PaymentLog.bookingId d ->
        PaymentLog.refId d' = PaymentLog.refId d ->
        PaymentLog.logPayment env' venues' users' d' ps1 = (true, ps1))
  /\ (JS.truthy (PaymentLog.transactionUuid d) = false ->
      JS.truthy (PaymentLog.bookingId d) && JS.truthy (PaymentLog.refId d) = false ->
      List.length ps1 = S (List.length ps)
      /\ List.length (PaymentLog.logPayment env venues users d ps1).2
         = S (S (List.length ps))).
Proof.
  intros ps1.
  destruct (logPayment_record env venues users d ps) as (m & v & e & Hrec).
  assert (Hps1 : ps1 = (PaymentLog.record m v e (serverTimestamp env)
                          (dateString env 0%nat) d ps).2)
    by (unfold ps1; rewrite Hrec; reflexivity).
  split; [|split].
  - intros Ht env' venues' users' d' Hsame.
    destruct (logPayment_record env' venues' users' d' ps1) as (m' & v' & e' & ->).
    pose proof (record_logged_txn m v e (serverTimestamp env) (dateString env 0%nat)
                  d ps Ht) as Hl.
    rewrite <- Hps1 in Hl.
    unfold PaymentLog.record. rewrite Hsame, Ht, Hl. reflexivity.
  - intros Ht Hb Hr env' venues' users' d' Ht' Hb' Hr'.
    destruct (logPayment_record env' venues' users' d' ps1) as (m' & v' & e' & ->).
    pose proof (record_logged_ref m v e (serverTimestamp env) (dateString env 0%nat)
                  d ps Ht Hb Hr) as Hl.
    rewrite <- Hps1 in Hl.
    unfold PaymentLog.record. rewrite Ht', Hb', Hr', Hb, Hr, Hl. reflexivity.
  - intros Ht Hbr. split.
    + rewrite Hps1. unfold PaymentLog.record. rewrite Ht.
      destruct (JS.truthy (PaymentLog.bookingId d)), (JS.truthy (PaymentLog.refId d));
        try discriminate; simpl; rewrite length_app; simpl; lia.
    + destruct (logPayment_record env venues users d ps1) as (m' & v' & e' & ->).
      rewrite Hps1. unfold PaymentLog.record. rewrite Ht.
      destruct (JS.truthy (PaymentLog.bookingId d)), (JS.truthy (PaymentLog.refId d));
        try discriminate; simpl; rewrite !length_app; simpl; lia.
Qed.

(** After the pending report of a transaction, its success report is
    dropped. *)
Lemma payment_logged_once_per_key_witness :
  let logged :=
    (PaymentLog.logPayment (Demo.env "bk-1" Demo.t0) ∅ ∅
       (payment (Some "tx-1") "pending") []).2 in
  PaymentLog.logPayment (Demo.env "bk-1" Demo.t0) ∅ ∅
    (payment (Some "tx-1") "success") logged
  = (true, logged).
Proof.
  intros logged.
  exact (proj1
    (payment_logged_once_per_key (Demo.env "bk-1" Demo.t0) ∅ ∅
       (payment (Some "tx-1") "pending") [])
    eq_refl (Demo.env "bk-1" Demo.t0) ∅ ∅ (payment (Some "tx-1") "success") eq_refl).
Defined.


(** * What a request leaves alone *)

Lemma same_elsewhere_refl (sid bid : string) (db : Db) : same_elsewhere sid bid db db.
Proof. split; reflexivity. Qed.

Lemma apply_write_within (sid bid : string) (w : Write) (db db' : Db) :
  within sid bid w -> apply_write w db = Some db' -> same_elsewhere sid bid db db'.
Proof.
  intros Hw Ha. destruct w; simpl in Hw, Ha; subst.
  - injection Ha as <-. split; simpl; [reflexivity|].
    intros bid' Hne. apply lookup_insert_ne. congruence.
  - injection Ha as <-. split; simpl; [reflexivity|].
    intros bid' Hne. apply lookup_delete_ne. congruence.
  - destruct (slots db !! sid); [|discriminate]. injection Ha as <-.
    split; simpl; [|reflexivity].
    intros sid' Hne. apply lookup_insert_ne. congruence.
  - destruct (slots db !! sid); injection Ha as <-;
      (split; simpl; [|reflexivity]);
      intros sid' Hne; apply lookup_insert_ne; congruence.
  - destruct (venues db !! id); [|discriminate]. injection Ha as <-.
    split; reflexivity.
Qed.

Lemma commit_within (sid bid : string) (ws : list Write) :
  Forall (within sid bid) ws ->
  forall db db', commit ws db = Some db' -> same_elsewhere sid bid db db'.
Proof.
  induction 1 as [|w ws Hw _ IH]; intros db db' Hc; simpl in Hc.
  - injection Hc as <-. apply same_elsewhere_refl.
  - destruct (apply_write w db) as [db1|] eqn:Ha; [|discriminate].
    destruct (apply_write_within sid bid w db db1 Hw Ha) as [Hs1 Hb1].
    destruct (IH db1 db' Hc) as [Hs2 Hb2].
    split; intros id Hne.
    + rewrite Hs2, Hs1 by exact Hne. reflexivity.
    + rewrite Hb2, Hb1 by exact Hne. reflexivity.
Qed.

Lemma runTransaction_within {A : Type} (sid bid : string)
    (body : Db -> Outcome (A * list Write)) (db : Db) :
  (forall a ws, body db = Return (a, ws) -> Forall (within sid bid) ws) ->
  same_elsewhere sid bid db (runTransaction body db).2.
Proof.
  intros Hbody. unfold runTransaction.
  destruct (body db) as [[a ws]| |] eqn:Hb; simpl; try apply same_elsewhere_refl.
  destruct (commit ws db) as [db'|] eqn:Hc; simpl; [|apply same_elsewhere_refl].
  eapply commit_within; [|exact Hc]. eapply Hbody. reflexivity.
Qed.

Lemma hold_within (env : Env) (req : Hold.Request) (db : Db) :
  same_elsewhere (default "" (Hold.slotId req)) (newBookingId env) db
    (Hold.POST env req db).2.
Proof.
  unfold Hold.POST.
  repeat (case_match; simpl; try apply same_elsewhere_refl).
  match goal with H : runTransaction ?b db = _ |- _ =>
    pose proof (runTransaction_within (default "" (Hold.slotId req)) (newBookingId env)
                  b db) as Hw; rewrite H in Hw end.
  apply Hw. intros a ws. unfold Hold.transaction.
  repeat case_match; try discriminate; intros [= <- <-]; repeat constructor.
Qed.

Lemma book_within (env : Env) (req : Book.Request) (db : Db) :
  same_elsewhere (default "" (Book.slotId req)) (newBookingId env) db
    (Book.POST env req db).2.
Proof.
  unfold Book.POST.
  repeat (case_match; simpl; try apply same_elsewhere_refl).
  match goal with H : runTransaction ?b db = _ |- _ =>
    pose proof (runTransaction_within (default "" (Book.slotId req)) (newBookingId env)
                  b db) as Hw; rewrite H in Hw end.
  apply Hw. intros a ws. unfold Book.transaction.
  repeat case_match; try discriminate; intros [= <- <-]; repeat constructor.
Qed.

Lemma reserve_within (env : Env) (req : Reserve.Request) (db : Db) :
  same_elsewhere (default "" (Reserve.slotId req)) (newBookingId env) db
    (Reserve.POST env req db).2.
Proof.
  unfold Reserve.POST.
  repeat (case_match; simpl; try apply same_elsewhere_refl).
  match goal with H : runTransaction ?b db = _ |- _ =>
    pose proof (runTransaction_within (default "" (Reserve.slotId req)) (newBookingId env)
                  b db) as Hw; rewrite H in Hw end.
  apply Hw. intros a ws. unfold Reserve.transaction.
  repeat case_match; try discriminate; intros [= <- <-]; repeat constructor.
Qed.

Lemma unbook_within (env : Env) (req : Unbook.Request) (db : Db) :
  same_elsewhere (default "" (Unbook.slotId req)) (default "" (Unbook.bookingId req)) db
    (Unbook.POST env req db).2.
Proof.
  unfold Unbook.POST.
  repeat (case_match; simpl; try apply same_elsewhere_refl).
  match goal with H : runTransaction ?b db = _ |- _ =>
    pose proof (runTransaction_within (default "" (Unbook.slotId req))
                  (default "" (Unbook.bookingId req)) b db) as Hw; rewrite H in Hw end.
  apply Hw. intros a ws. unfold Unbook.transaction.
  repeat case_match; try discriminate; intros [= <- <-]; repeat constructor.
Qed.

(** A request touches only the documents it names: the hold, book and
    reserve routes leave every slot other than the one of the request and
    every booking record other than the one under the new booking id as
    they were, and the unbook route every slot and every booking record
    other than the two of the request - whatever the routes answer. *)
Theorem routes_touch_only_named_documents (env : Env) (db : Db) :
  (forall req,
      (forall sid, Hold.slotId req <> Some sid ->
         slots (Hold.POST env req db).2 !! sid = slots db !! sid)
      /\ (forall bid, bid <> newBookingId env ->
            bookings (Hold.POST env req db).2 !! bid = bookings db !! bid))
  /\ (forall req,
        (forall sid, Book.slotId req <> Some sid ->
           slots (Book.POST env req db).2 !! sid = slots db !! sid)
        /\ (forall bid, bid <> newBookingId env ->
              bookings (Book.POST env req db).2 !! bid = bookings db !! bid))
  /\ (forall req,
        (forall sid, Reserve.slotId req <> Some sid ->
           slots (Reserve.POST env req db).2 !! sid = slots db !! sid)
        /\ (forall bid, bid <> newBookingId env ->
              bookings (Reserve.POST env req db).2 !! bid = bookings db !! bid))
  /\ (forall req,
        (forall sid, Unbook.slotId req <> Some sid ->
           slots (Unbook.POST env req db).2 !! sid = slots db !! sid)
        /\ (forall bid, Unbook.bookingId req <> Some bid ->
              bookings (Unbook.POST env req db).2 !! bid = bookings db !! bid)).
Proof.
  repeat split.
  - intros sid Hne. destruct (Hold.slotId req) as [x|] eqn:Hx.
    + pose proof (hold_within env req db) as [Hs _]. rewrite Hx in Hs.
      apply Hs. simpl. congruence.
    + unfold Hold.POST. rewrite Hx. simpl.
      destruct (isAdminInitialized env); reflexivity.
  - intros bid Hne. apply (hold_within env req db). exact Hne.
  - intros sid Hne. destruct (Book.slotId req) as [x|] eqn:Hx.
    + pose proof (book_within env req db) as [Hs _]. rewrite Hx in Hs.
      apply Hs. simpl. congruence.
    + unfold Book.POST. rewrite Hx. simpl. rewrite orb_true_r.
      destruct (isAdminInitialized env); reflexivity.
  - intros bid Hne. apply (book_within env req db). exact Hne.
  - intros sid Hne. destruct (Reserve.slotId req) as [x|] eqn:Hx.
    + pose proof (reserve_within env req db) as [Hs _]. rewrite Hx in Hs.
      apply Hs. simpl. congruence.
    + unfold Reserve.POST. rewrite Hx. simpl.
      destruct (isAdminInitialized env); reflexivity.
  - intros bid Hne. apply (reserve_within env req db). exact Hne.
  - intros sid Hne. destruct (Unbook.slotId req) as [x|] eqn:Hx.
    + pose proof (unbook_within env req db) as [Hs _]. rewrite Hx in Hs.
      apply Hs. simpl. congruence.
    + unfold Unbook.POST. rewrite Hx. simpl.
      destruct (isAdminInitialized env); reflexivity.
  - intros bid Hne. destruct (Unbook.bookingId req) as [x|] eqn:Hx.
    + pose proof (unbook_within env req db) as [_ Hb]. rewrite Hx in Hb.
      apply Hb. simpl. congruence.
    + unfold Unbook.POST. rewrite Hx. simpl. rewrite orb_true_r. simpl.
      destruct (isAdminInitialized env); reflexivity.
Qed.


(** * More on what the routes check *)

(** The amount of a booking is the hourly price of the venue named in
    the request, and 0 when no such venue exists; the venue the slot
    belongs to is not looked at. *)
Theorem book_price_follows_request (env : Env) (req : Book.Request) (db db' : Db)
    (bid : string) :
  Book.POST env req db = (Ok (Some bid), db') ->
  exists vid b,
    Book.venueId req = Some vid
    /\ bookings db' !! bid = Some b
    /\ booking_venueId b = Some vid
    /\ booking_amount b
       = Some (match venues db !! vid with
               | Some v => default 0 (venue_pricePerHour v)
               | None => 0
               end).
Proof.
  intros Hok.
  apply book_POST_ok_inv in Hok
    as (sid & vid & uid & s & _ & _ & Hv & _ & _ & _ & _ & [= ->] & ->).
  exists vid. eexists. split; [exact Hv|]. split.
  - simpl. apply lookup_insert_eq.
  - split; reflexivity.
Qed.

(** Asha books the slot of the arena under a venue id that does not
    exist: the booking is recorded with the amount 0. *)
Lemma book_price_follows_request_witness :
  exists b,
    bookings (Book.POST (Demo.env "bk-1" Demo.t0)
                (Book.mkRequest (Some "nowhere") (Some Demo.slot_key)
                   (Some "Bearer token-asha"))
                (Demo.world (Demo.slot "AVAILABLE") ∅)).2 !! "bk-1" = Some b
    /\ booking_amount b = Some 0.
Proof.
  destruct (book_price_follows_request (Demo.env "bk-1" Demo.t0)
              (Book.mkRequest (Some "nowhere") (Some Demo.slot_key)
                 (Some "Bearer token-asha"))
              (Demo.world (Demo.slot "AVAILABLE") ∅) _ "bk-1" eq_refl)
    as (vid & b & Hv & Hb & _ & Ha).
  exists b. split; [exact Hb|].
  injection Hv as <-. exact Ha.
Defined.

(** For a manager the unbook route needs a physical booking record and
    an existing slot, and does not compare the two: the slot named in the
    request is set free whatever booking occupies it, the other booking
    records stay, and a book request on the slot is then accepted. *)
Theorem unbook_frees_the_named_slot (env : Env) (req : Unbook.Request) (db : Db)
    (sid bid uid : string) (b : BookingDoc) (s : SlotDoc) :
  isAdminInitialized env = true ->
  Unbook.slotId req = Some sid -> sid <> "" ->
  Unbook.bookingId req = Some bid -> bid <> "" ->
  JS.truthy (Unbook.venueId req) = true ->
  authenticate env (Unbook.authorization req) = inr uid ->
  callerIsManagerOrAdmin db uid = true ->
  bookings db !! bid = Some b ->
  booking_bookingType b = Some "physical" ->
  slots db !! sid = Some s ->
  let db' := (Unbook.POST env req db).2 in
  (Unbook.POST env req db).1 = Ok None
  /\ (forall bid', bid' <> bid -> bookings db' !! bid' = bookings db !! bid')
  /\ (forall env' req' vid' uid',
        isAdminInitialized env' = true ->
        Book.slotId req' = Some sid ->
        Book.venueId req' = Some vid' -> vid' <> "" ->
        authenticate env' (Book.authorization req') = inr uid' ->
        (Book.POST env' req' db').1 = Ok (Some (newBookingId env'))).
Proof.
  intros Hinit Hs Hsne Hb Hbne Hv Hauth Hrole Hlk Hphys Hslot db'.
  assert (HPOST : Unbook.POST env req db
                  = (Ok None,
                     mkDb (<[sid := Unbook.slot_patch env s]> (slots db))
                          (delete bid (bookings db)) (venues db) (users db))).
  { rewrite (unbook_POST_allowed env req db sid bid uid) by assumption.
    rewrite Hrole. unfold runTransaction, Unbook.transaction.
    rewrite Hlk, Hphys. simpl. rewrite Hslot. reflexivity. }
  subst db'. rewrite HPOST. simpl. split; [reflexivity|]. split.
  - intros bid' Hne. apply lookup_delete_ne. congruence.
  - intros env' req' vid' uid' Hinit' Hs' Hv' Hvne' Hauth'.
    erewrite book_commits; try eassumption.
    + reflexivity.
    + simpl. apply lookup_insert_eq.
    + reflexivity.
Qed.

(** The slot is booked online by asha under bk-1; mina unbooks it with
    the id of a physical booking bk-9, and bikram's book request is then
    accepted while asha's record is still there. *)
Lemma unbook_frees_the_named_slot_witness :
  let db :=
    Demo.world (Demo.taken_slot "booked" "bk-1")
      (<["bk-1" := Demo.online "asha"]> (<["bk-9" := Demo.physical]> ∅)) in
  let db' :=
    (Unbook.POST (Demo.env "" Demo.t0) (Demo.unbook_request "token-mina" "bk-9") db).2 in
  (Book.POST (Demo.env "bk-2" (Demo.t0 + 1000)) (Demo.book_request "token-bikram")
     db').1 = Ok (Some "bk-2")
  /\ bookings db' !! "bk-1" = Some (Demo.online "asha").
Proof.
  intros db db'.
  pose proof (unbook_frees_the_named_slot (Demo.env "" Demo.t0)
                (Demo.unbook_request "token-mina" "bk-9") db
                Demo.slot_key "bk-9" "mina" Demo.physical
                (Demo.taken_slot "booked" "bk-1")
                eq_refl eq_refl ltac:(discriminate) eq_refl ltac:(discriminate)
                eq_refl eq_refl eq_refl eq_refl eq_refl eq_refl)
    as (_ & Hkeep & Hbook).
  split.
  - exact (Hbook (Demo.env "bk-2" (Demo.t0 + 1000)) (Demo.book_request "token-bikram")
             "arena" "bikram" eq_refl eq_refl eq_refl ltac:(discriminate) eq_refl).
  - exact (eq_trans (Hkeep "bk-1" ltac:(discriminate)) eq_refl).
Defined.

Ltac early_refusal_tac Hauth :=
  match goal with
  | |- context [isAdminInitialized ?env] =>
      destruct (isAdminInitialized env); simpl;
      [| split; [reflexivity | eauto 10]]
  end;
  match goal with
  | |- context [if ?c then _ else _] =>
      destruct c; [split; [reflexivity | eauto 10] |]
  end;
  rewrite Hauth;
  destruct (authenticate_error _ _ _ Hauth) as [msg ->];
  split; [reflexivity | eauto 10].

(** A request whose token does not verify is answered before the store
    is read: each route answers it with 500, 400 or 401, and with the same
    answer whatever the store holds. *)
Theorem unauthenticated_answer_ignores_store (env : Env) (db1 db2 : Db) :
  (forall req e, authenticate env (Hold.authorization req) = inl e ->
     early_refusal (Hold.POST env req db1).1 (Hold.POST env req db2).1)
  /\ (forall req e, authenticate env (Book.authorization req) = inl e ->
        early_refusal (Book.POST env req db1).1 (Book.POST env req db2).1)
  /\ (forall req e, authenticate env (Reserve.authorization req) = inl e ->
        early_refusal (Reserve.POST env req db1).1 (Reserve.POST env req db2).1)
  /\ (forall req e, authenticate env (Unbook.authorization req) = inl e ->
        early_refusal (Unbook.POST env req db1).1 (Unbook.POST env req db2).1)
  /\ (forall req e, authenticate env (Generate.authorization req) = inl e ->
        early_refusal (Generate.POST env req db1).1 (Generate.POST env req db2).1).
Proof.
  split; [|split; [|split; [|split]]]; intros req e Hauth.
  - unfold Hold.POST. early_refusal_tac Hauth.
  - unfold Book.POST. early_refusal_tac Hauth.
  - unfold Reserve.POST. early_refusal_tac Hauth.
  - unfold Unbook.POST. early_refusal_tac Hauth.
  - unfold Generate.POST. early_refusal_tac Hauth.
Qed.

(** A slot that has no document is drawn as an available, clickable
    cell, and a customer's click on it opens the booking dialog; the
    routes however need the document: a hold, a book and a manager's
    reserve request on it are answered 404 and write nothing. *)
Theorem cell_without_document (env : Env) (db : Db) (sid : string)
    (booking : option BookingDoc) (renderedAt : Z) :
  slots db !! sid = None ->
  (forall isManager,
      Grid.status (Grid.renderSlot (slots db !! sid) booking false isManager renderedAt)
      = Some "AVAILABLE"
      /\ Grid.canClick (Grid.renderSlot (slots db !! sid) booking false isManager
                          renderedAt) = true)
  /\ WeeklyGrid.onClick (slots db !! sid) booking false false false false renderedAt
     = Some WeeklyGrid.OpenBookingConfirmDialog
  /\ (forall req vid uid,
        isAdminInitialized env = true ->
        Hold.slotId req = Some sid -> sid <> "" ->
        Hold.venueId req = Some vid -> vid <> "" ->
        authenticate env (Hold.authorization req) = inr uid ->
        Hold.POST env req db = (Error 404 "Slot not found", db))
  /\ (forall req vid uid,
        isAdminInitialized env = true ->
        Book.slotId req = Some sid -> sid <> "" ->
        Book.venueId req = Some vid -> vid <> "" ->
        authenticate env (Book.authorization req) = inr uid ->
        Book.POST env req db = (Error 404 "Slot not found", db))
  /\ (forall req vid uid,
        isAdminInitialized env = true ->
        Reserve.slotId req = Some sid -> sid <> "" ->
        Reserve.venueId req = Some vid -> vid <> "" ->
        JS.truthy (Reserve.customerName req) = true ->
        JS.truthy (Reserve.customerPhone req) = true ->
        authenticate env (Reserve.authorization req) = inr uid ->
        callerIsManagerOrAdmin db uid = true ->
        Reserve.POST env req db = (Error 404 "Slot not found", db)).
Proof.
  intros Hnone. rewrite Hnone. repeat split.
  - destruct isManager; reflexivity.
  - intros req vid uid Hinit Hs Hsne Hv Hvne Hauth.
    rewrite (hold_POST_authenticated env req _ sid vid uid) by assumption.
    unfold runTransaction, Hold.transaction. rewrite Hnone. reflexivity.
  - intros req vid uid Hinit Hs Hsne Hv Hvne Hauth.
    rewrite (book_POST_authenticated env req _ sid vid uid) by assumption.
    unfold runTransaction, Book.transaction. rewrite Hnone. reflexivity.
  - intros req vid uid Hinit Hs Hsne Hv Hvne Hn Hp Hauth Hrole.
    rewrite (reserve_POST_allowed env req _ sid vid uid) by assumption.
    rewrite Hrole. unfold runTransaction, Reserve.transaction.
    rewrite Hnone. reflexivity.
Qed.

(** The slot of the next day has no document in the demo store. *)
Lemma cell_without_document_witness :
  Hold.POST (Demo.env "bk-1" Demo.t0)
    (Hold.mkRequest (Some "arena_2025-12-02_1400") (Some "arena") None
       (Some "Bearer token-asha"))
    (Demo.world (Demo.slot "AVAILABLE") ∅)
  = (Error 404 "Slot not found", Demo.world (Demo.slot "AVAILABLE") ∅).
Proof.
  exact (proj1 (proj2 (proj2
    (cell_without_document (Demo.env "bk-1" Demo.t0)
       (Demo.world (Demo.slot "AVAILABLE") ∅) "arena_2025-12-02_1400" None Demo.t0
       eq_refl)))
    (Hold.mkRequest (Some "arena_2025-12-02_1400") (Some "arena") None
       (Some "Bearer token-asha"))
    "arena" "asha" eq_refl eq_refl ltac:(discriminate) eq_refl ltac:(discriminate)
    eq_refl).
Defined.


(** * Slot ids and hold durations *)

Lemma append_underscore_inj (a a' r r' : string) :
  no_underscore a = true -> no_underscore a' = true ->
  a +:+ "_" +:+ r = a' +:+ "_" +:+ r' -> a = a' /\ r = r'.
Proof.
  revert a'. induction a as [|c a IH]; intros [|c' a'] Ha Ha' Heq; simpl in *.
  - injection Heq as Heq. auto.
  - injection Heq as Hc _. subst c'. discriminate.
  - injection Heq as Hc _. subst c. discriminate.
  - injection Heq as Hc Heq. subst c'.
    apply andb_true_iff in Ha as [_ Ha]. apply andb_true_iff in Ha' as [_ Ha'].
    destruct (IH a' Ha Ha' Heq) as [-> ->]. auto.
Qed.

(** Slot ids tell cells apart: for venue ids and dates without an
    underscore, two cells with the same slot id have the same venue, the
    same date and start times that agree once their first colon is
    removed. *)
Theorem getSlotId_injective (g g' d d' t t' : string) :
  no_underscore g = true -> no_underscore g' = true ->
  no_underscore d = true -> no_underscore d' = true ->
  Generate.getSlotId g d t = Generate.getSlotId g' d' t' ->
  g = g' /\ d = d' /\ JS.remove_first ":" t = JS.remove_first ":" t'.
Proof.
  intros Hg Hg' Hd Hd' Heq. unfold Generate.getSlotId in Heq.
  apply append_underscore_inj in Heq as [-> Heq]; try assumption.
  apply append_underscore_inj in Heq as [-> Heq]; try assumption.
  auto.
Qed.

Lemma getSlotId_injective_witness :
  "arena" = "arena" /\ "2025-12-01" = "2025-12-01"
  /\ JS.remove_first ":" "14:00" = JS.remove_first ":" "1:400".
Proof.
  exact (getSlotId_injective "arena" "arena" "2025-12-01" "2025-12-01" "14:00" "1:400"
           eq_refl eq_refl eq_refl eq_refl eq_refl).
Defined.

(** The hold route does not validate the duration: a hold accepted with
    a duration of zero or fewer minutes marks the slot HELD with an expiry
    that is not in the future, so the entry of the slot reads available
    from the moment of the hold and the next well-formed hold request on
    it, of whatever user, is accepted (its expiry being storable). *)
Theorem nonpositive_hold_holds_nothing (env : Env) (req : Hold.Request) (db db' : Db)
    (r : option string) (sid : string) (minutes : Z) :
  Hold.POST env req db = (Ok r, db') ->
  Hold.slotId req = Some sid ->
  Hold.holdDurationMinutes req = Some minutes ->
  minutes <= 0 ->
  exists s',
    slots db' !! sid = Some s'
    /\ slot_status s' = Some "HELD"
    /\ (forall now, now_stamp env <= now -> entry_status now s' = Available)
    /\ (forall env' req' vid' uid',
          isAdminInitialized env' = true ->
          Hold.slotId req' = Some sid ->
          Hold.venueId req' = Some vid' -> vid' <> "" ->
          authenticate env' (Hold.authorization req') = inr uid' ->
          now_stamp env <= now_check env' ->
          (let expiry' :=
             now_stamp env' + default 5 (Hold.holdDurationMinutes req') * 60 * 1000 in
           fromMillis expiry' = Some expiry') ->
          (Hold.POST env' req' db').1 = Ok (Some (newBookingId env'))).
Proof.
  intros Hok Hsid Hmin Hle.
  apply hold_POST_ok_inv in Hok
    as (sid0 & vid & uid & s & Hs & Hsne & Hv & Hvne & Hauth & Hlk & Hcheck & Hfrom
        & Hr & Hdb).
  assert (sid0 = sid) as -> by congruence.
  rewrite Hmin in Hfrom, Hdb. simpl in Hfrom, Hdb.
  set (expiry := now_stamp env + minutes * 60 * 1000) in *.
  assert (Hexp : expiry <= now_stamp env) by (unfold expiry; lia).
  exists (Hold.slot_patch env uid expiry s).
  assert (Hnow : slots db' !! sid = Some (Hold.slot_patch env uid expiry s)).
  { rewrite Hdb. simpl. apply lookup_insert_eq. }
  split; [exact Hnow|]. split; [reflexivity|]. split.
  - intros now Hnowle. unfold entry_status. simpl.
    destruct (Z.ltb_spec now expiry); [lia | reflexivity].
  - intros env' req' vid' uid' Hinit' Hs' Hv' Hvne' Hauth' Hclock Hfrom'.
    rewrite (hold_commits env' req' db' sid vid' uid'
               (Hold.slot_patch env uid expiry s)); try assumption.
    + reflexivity.
    + unfold Hold.check. simpl.
      destruct (Z.gtb_spec expiry (now_check env')); [lia | reflexivity].
Qed.

Lemma nonpositive_hold_holds_nothing_witness :
  (Hold.POST (Demo.env "bk-2" Demo.t0) (Demo.hold_request "token-bikram" None)
     (Hold.POST (Demo.env "bk-1" Demo.t0) (Demo.hold_request "token-asha" (Some 0))
        (Demo.world (Demo.slot "AVAILABLE") ∅)).2).1
  = Ok (Some "bk-2").
Proof.
  destruct (nonpositive_hold_holds_nothing (Demo.env "bk-1" Demo.t0)
              (Demo.hold_request "token-asha" (Some 0))
              (Demo.world (Demo.slot "AVAILABLE") ∅) _ (Some "bk-1") Demo.slot_key 0
              eq_refl eq_refl eq_refl ltac:(lia))
    as (s' & _ & _ & _ & Hnext).
  exact (Hnext (Demo.env "bk-2" Demo.t0) (Demo.hold_request "token-bikram" None)
           "arena" "bikram" eq_refl eq_refl eq_refl ltac:(discriminate) eq_refl
           ltac:(simpl; lia) eq_refl).
Defined.


(** * Past slots, expired holds and the generated window *)

(** C2, at the failing input: the 14:00 slot of 2025-12-01 is stored as
    available, and asha's hold request comes two days after the slot has
    started.  By the precedence rule the slot is past, which is not
    available, and a hold on it is to be refused; the route does not look
    at the date of the slot: it accepts the request, marks the slot HELD
    for asha and creates her pending booking. *)
Theorem hold_accepts_past_slot :
  let s := Demo.slot "AVAILABLE" in
  let env := Demo.env "bk-1" (Demo.t0 + 2 * 86400000) in
  let out := Hold.POST env (Demo.hold_request "token-asha" None) (Demo.world s ∅) in
  Demo.start "2025-12-01" "14:00" < now_check env
  /\ effective Demo.start (now_check env) s = Past
  /\ out.1 = Ok (Some "bk-1")
  /\ (slots out.2 !! Demo.slot_key) ≫= slot_status = Some "HELD"
  /\ (slots out.2 !! Demo.slot_key) ≫= slot_heldBy = Some "asha"
  /\ (bookings out.2 !! "bk-1") ≫= booking_status = Some "PENDING_PAYMENT".
Proof. vm_compute. repeat split. Qed.

(** C3, at the failing input: asha's hold on the 14:00 slot expired a
    second ago and the slot has not started.  The slot is effectively
    available; the cell of the grid shows it so and the hold route accepts
    bikram's hold.  The book route and the click handler of the grid read
    the stored status without the expiry rule: bikram's book request is
    answered 409, and his click on the cell only tells him that the slot
    is on hold. *)
Theorem book_refuses_expired_hold :
  let s := Demo.held_slot "asha" "bk-0" (Demo.t0 - 1000) in
  let db := Demo.world s {[ "bk-0" := Demo.pending "asha" (Demo.t0 - 1000) ]} in
  let env := Demo.env "bk-1" Demo.t0 in
  effective Demo.start (serverTimestamp env) s = Current Available
  /\ Grid.status (Grid.renderSlot (Some s) None false false Demo.t0) = Some "AVAILABLE"
  /\ (Hold.POST env (Demo.hold_request "token-bikram" None) db).1 = Ok (Some "bk-1")
  /\ Book.POST env (Demo.book_request "token-bikram") db
     = (Error 409 "Slot is not available", db)
  /\ WeeklyGrid.onClick (Some s) None false false false false Demo.t0
     = Some (WeeklyGrid.ToastWarning "This slot is currently on hold.").
Proof. vm_compute. repeat split. Qed.





